(** * WAVM thread-test intrinsics (Lib/ThreadTest/ThreadTest.cpp)

    A shallow embedding of the guest-callable thread operations
    (createThread, forkThread, exitThread, joinThread, detachThread), of
    the intrusive reference counting on [Thread] objects and of the
    mutex-guarded registry [threads], followed by the properties proved
    about them. *)

From stdpp Require Import gmap list.

(** ** Machine integers

    [Uptr] is an unsigned 64-bit integer (WAVM targets 64-bit hosts); it is
    carried by [N] and every arithmetic result is reduced modulo 2^64. *)

Abbreviation Uptr := N (only parsing).
Abbreviation U64 := N (only parsing).
Abbreviation I64 := Z (only parsing).
Abbreviation I32 := Z (only parsing).

Definition UINTPTR_MAX : N := 18446744073709551615.

Definition wrapUptr (x : N) : N := (x mod 18446744073709551616)%N.

(** Conversion Uptr -> I64: reinterpretation in two's complement. *)
Definition asI64 (x : N) : Z :=
  let u := Z.of_N (wrapUptr x) in
  if (u <? 9223372036854775808)%Z then u else (u - 18446744073709551616)%Z.

(** Conversion Uptr -> U64, and U64 -> Uptr (the cast [Uptr(threadId)]). *)
Definition asU64 (x : N) : N := wrapUptr x.

Definition numStackBytes : N := 1 * 1024 * 1024.

(** ** IR types and values *)

(** Modelled from the spec: WAVM/IR/Types.h is not part of the sources at
    hand.  The guest-visible signatures are "fixed integer-typed"; the value
    types are the WebAssembly ones. *)
Inductive ValueType := i32 | i64 | f32 | f64 | v128 | anyref | funcref | nullref.

#[global] Instance ValueType_eq_dec : EqDecision ValueType.
Proof. solve_decision. Defined.

Abbreviation TypeTuple := (list ValueType) (only parsing).

(** [FunctionType(results, params)], in the order of the constructor call
    in createThread. *)
Record FunctionType := mkFunctionType {
  results : list ValueType;
  params : list ValueType
}.

#[global] Instance FunctionType_eq_dec : EqDecision FunctionType.
Proof. solve_decision. Defined.

(** A function object; [functionIdentity] tells two function objects of the
    same type apart. *)
Record Function := mkFunction {
  encodedType : FunctionType;
  functionIdentity : N
}.

(** [IR::Value]: a type tag and the bits. *)
Record Value := mkValue {
  valueType : ValueType;
  valueBits : Z
}.

(** The implicit conversion I32 -> IR::Value at [new Thread(.., entryArgument)]. *)
Definition valueOfI32 (x : Z) : Value := mkValue i32 x.

(** ** Exceptions, fatal errors and outcomes of a call *)

Inductive Exception :=
  | invalidArgumentType
  | indirectCallSignatureMismatchType
  | calleeException (tag : N).

Inductive FatalError :=
  | errorUnlessFailed
  | assertionFailed
  | invalidPointer
  | outOfMemory
  | platformFatal.

(** The ways a call can end: it returns, it throws (the stack is unwound and
    destructors have run), it is suspended waiting (for the mutex or for a
    thread to terminate), it ends the calling OS thread, or the process
    aborts. *)
Inductive Outcome (W A : Type) :=
  | Returned (a : A) (w : W)
  | Threw (e : Exception) (w : W)
  | Blocked (w : W)
  | Terminated (w : W)
  | Fatal (f : FatalError).

Arguments Returned {W A} a w.
Arguments Threw {W A} e w.
Arguments Blocked {W A} w.
Arguments Terminated {W A} w.
Arguments Fatal {W A} f.

(** ** The Thread object *)

(** A null-able pointer to a Thread ([Thread*], [IntrusiveSharedPtr<Thread>]):
    [None] is nullptr, [Some a] the object at heap address [a]. *)
Abbreviation ThreadPtr := (option N) (only parsing).

Record Thread := mkThread {
  id : N;
  numRefs : N;
  platformThread : option N;
  context : N;
  entryFunction : option Function;
  argument : Value
}.

(** The constructor: [id = UINTPTR_MAX], [numRefs{0}], no platform thread. *)
Definition newThreadObject (inContext : N) (inEntryFunction : option Function)
    (inArgument : Value) : Thread :=
  mkThread UINTPTR_MAX 0 None inContext inEntryFunction inArgument.

Definition Thread_with_id (t : Thread) (i : N) : Thread :=
  mkThread i (numRefs t) (platformThread t) (context t) (entryFunction t) (argument t).

Definition Thread_with_numRefs (t : Thread) (n : N) : Thread :=
  mkThread (id t) n (platformThread t) (context t) (entryFunction t) (argument t).

Definition Thread_with_platformThread (t : Thread) (h : option N) : Thread :=
  mkThread (id t) (numRefs t) h (context t) (entryFunction t) (argument t).

(** ** IndexMap *)

(** The first index at or after [i] that [m] does not map, looking at no more
    than [fuel] indices. *)
Fixpoint firstFree {V : Type} (m : gmap N V) (fuel : nat) (i : N) : option N :=
  match fuel with
  | O => None
  | S fuel' =>
      match m !! i with
      | None => Some i
      | Some _ => firstFree m fuel' (N.succ i)
      end
  end.

(** Modelled from the spec: WAVM/Inline/IndexMap.h is not part of the sources
    at hand.  "assigns the smallest available positive integer not currently
    in use (freed IDs are recyclable), stores the mapping, returns the ID";
    "an ID allocator with [..] add/remove and a documented invalid-sentinel
    convention (zero and a reserved maximum value both denote invalid)".
    The map is constructed as [threads(1, UINTPTR_MAX)]. *)
Record IndexMap (V : Type) := mkIndexMap {
  minIndex : N;
  maxIndex : N;
  slots : gmap N V
}.

Arguments mkIndexMap {V} _ _ _.
Arguments minIndex {V} _.
Arguments maxIndex {V} _.
Arguments slots {V} _.

Definition IndexMap_new {V : Type} (inMinIndex inMaxIndex : N) : IndexMap V :=
  mkIndexMap inMinIndex inMaxIndex ∅.

Definition IndexMap_with_slots {V : Type} (im : IndexMap V) (s : gmap N V) : IndexMap V :=
  mkIndexMap (minIndex im) (maxIndex im) s.

(** Modelled from the spec: the index that [IndexMap::add] of the missing
    IndexMap.h picks: the smallest index from [minIndex] on that is not in
    use and is below the reserved maximum; [None] when there is none. *)
Definition IndexMap_allocate {V : Type} (im : IndexMap V) : option N :=
  match firstFree (slots im) (S (size (slots im))) (minIndex im) with
  | Some i => if decide (i < maxIndex im)%N then Some i else None
  | None => None
  end.

(** Modelled from the spec: [IndexMap::add(failIndex, value)] of the missing
    IndexMap.h: stores the value at the picked index and returns the index;
    returns [failIndex], storing nothing, when no index is left. *)
Definition IndexMap_add {V : Type} (failIndex : N) (v : V) (im : IndexMap V)
    : N * IndexMap V :=
  match IndexMap_allocate im with
  | Some i => (i, IndexMap_with_slots im (<[i := v]> (slots im)))
  | None => (failIndex, im)
  end.

(** Modelled from the spec: [IndexMap::contains] ("currently mapped"). *)
Definition IndexMap_contains {V : Type} (i : N) (im : IndexMap V) : bool :=
  bool_decide (is_Some (slots im !! i)).

(** Modelled from the spec: [IndexMap::operator[]]; [None] when the index is
    not mapped. *)
Definition IndexMap_get {V : Type} (i : N) (im : IndexMap V) : option V :=
  slots im !! i.

(** Writing through the reference [threads[i]] returns. *)
Definition IndexMap_set {V : Type} (i : N) (v : V) (im : IndexMap V) : IndexMap V :=
  IndexMap_with_slots im (<[i := v]> (slots im)).

(** Modelled from the spec: [IndexMap::removeOrFail] ("unmaps id"); [None]
    is the failure. *)
Definition IndexMap_removeOrFail {V : Type} (i : N) (im : IndexMap V)
    : option (IndexMap V) :=
  if IndexMap_contains i im
  then Some (IndexMap_with_slots im (delete i (slots im)))
  else None.

(** ** Execution contexts *)

(** Modelled from the spec: the Runtime library is not part of the sources at
    hand.  "a compartment-scoped context allocator with create and
    clone(existing) -> new".  A context records its compartment and, when it
    was made by cloneContext, the context it was cloned from. *)
Record Context := mkContext {
  compartment : N;
  clonedFrom : option N
}.

(** ** Platform threads *)

Inductive PlatformResult (P A : Type) :=
  | PReturn (a : A) (p : P)
  | PThrow (tag : N) (p : P)
  | PWait
  | PFatal.

Arguments PReturn {P A} a p.
Arguments PThrow {P A} tag p.
Arguments PWait {P A}.
Arguments PFatal {P A}.

(** The routine a spawned OS thread starts in. *)
Inductive StartRoutine := threadEntryRoutine.

(** The OS-thread primitives of WAVM/Platform/Thread.h, which this file uses
    and does not implement: they act on a platform state [P] of their own.
    A handle ([Platform::Thread*]) is a number; it also names the OS thread
    it stands for. *)
Class Platform (P : Type) := {
  Platform_createThread : N -> StartRoutine -> N -> P -> PlatformResult P N;
  Platform_forkCurrentThread : N -> P -> PlatformResult P N;
  Platform_joinThread : option N -> P -> PlatformResult P Z;
  Platform_detachThread : option N -> P -> PlatformResult P unit;
  Platform_exitThread : N -> Z -> P -> P
}.

(** ** The state of the subsystem *)

Record World (P : Type) := mkWorld {
  heap : gmap N Thread;
  threads : IndexMap (option N);
  threadsMutex : option N;
  currentThread : gmap N N;
  contexts : gmap N Context;
  platform : P
}.

Arguments mkWorld {P} _ _ _ _ _ _.
Arguments heap {P} _.
Arguments threads {P} _.
Arguments threadsMutex {P} _.
Arguments currentThread {P} _.
Arguments contexts {P} _.
Arguments platform {P} _.

Section Model.
Context {P : Type} `{!Platform P}.

Abbreviation W := (World P).
Abbreviation M A := (World P -> Outcome (World P) A).

Definition with_heap (w : W) (h : gmap N Thread) : W :=
  mkWorld h (threads w) (threadsMutex w) (currentThread w) (contexts w) (platform w).

Definition with_threads (w : W) (t : IndexMap (option N)) : W :=
  mkWorld (heap w) t (threadsMutex w) (currentThread w) (contexts w) (platform w).

Definition with_threadsMutex (w : W) (m : option N) : W :=
  mkWorld (heap w) (threads w) m (currentThread w) (contexts w) (platform w).

Definition with_currentThread (w : W) (c : gmap N N) : W :=
  mkWorld (heap w) (threads w) (threadsMutex w) c (contexts w) (platform w).

Definition with_contexts (w : W) (c : gmap N Context) : W :=
  mkWorld (heap w) (threads w) (threadsMutex w) (currentThread w) c (platform w).

Definition with_platform (w : W) (p : P) : W :=
  mkWorld (heap w) (threads w) (threadsMutex w) (currentThread w) (contexts w) p.

End Model.

(** ** Sequencing of calls *)

Definition ret {W A : Type} (a : A) : W -> Outcome W A := fun w => Returned a w.

Definition bind {W A B : Type} (m : W -> Outcome W A) (k : A -> W -> Outcome W B)
    : W -> Outcome W B :=
  fun w =>
    match m w with
    | Returned a w' => k a w'
    | Threw e w' => Threw e w'
    | Blocked w' => Blocked w'
    | Terminated w' => Terminated w'
    | Fatal f => Fatal f
    end.

Definition throwException {W A : Type} (e : Exception) : W -> Outcome W A :=
  fun w => Threw e w.

Definition fatal {W A : Type} (f : FatalError) : W -> Outcome W A :=
  fun _ => Fatal f.


Notation "'let*' x ':=' m 'in' k" := (bind m (fun x => k))
  (at level 10, x name, m at level 100, k at level 200, only parsing).
Notation "m ';;' k" := (bind m (fun _ => k))
  (at level 100, k at level 200, right associativity, only parsing).


(** ** Operations of ThreadTest.cpp *)

Section Operations.
Context {P : Type} `{!Platform P}.

Abbreviation W := (World P).

(** *** Objects on the heap *)

(** Reading through a pointer; a null or dangling pointer is fatal. *)
Definition deref (thread : option N) : W -> Outcome W Thread :=
  fun w =>
    match thread with
    | None => Fatal invalidPointer
    | Some a =>
        match heap w !! a with
        | Some t => Returned t w
        | None => Fatal invalidPointer
        end
    end.

Definition store (a : N) (t : Thread) : W -> Outcome W unit :=
  fun w => Returned tt (with_heap w (<[a := t]> (heap w))).

(** [new Thread(inContext, inEntryFunction, inArgument)]. *)
Definition newThread (inContext : N) (inEntryFunction : option Function)
    (inArgument : Value) : W -> Outcome W N :=
  fun w =>
    match firstFree (heap w) (S (size (heap w))) 1 with
    | Some a =>
        Returned a
          (with_heap w
             (<[a := newThreadObject inContext inEntryFunction inArgument]> (heap w)))
    | None => Fatal outOfMemory
    end.

(** [void addRef(Uptr delta = 1) { numRefs += delta; }] *)
Definition addRef (thread : N) (delta : N) : W -> Outcome W unit :=
  let* t := deref (Some thread) in
  store thread (Thread_with_numRefs t (wrapUptr (numRefs t + delta))).

(** [void removeRef() { if(--numRefs == 0) { delete this; } }] *)
Definition removeRef (thread : N) : W -> Outcome W unit :=
  let* t := deref (Some thread) in
  let n := wrapUptr (numRefs t + UINTPTR_MAX) in
  if decide (n = 0%N)
  then fun w => Returned tt (with_heap w (delete thread (heap w)))
  else store thread (Thread_with_numRefs t n).

Definition setId (thread : N) (i : N) : W -> Outcome W unit :=
  let* t := deref (Some thread) in store thread (Thread_with_id t i).

Definition setPlatformThread (thread : N) (h : option N) : W -> Outcome W unit :=
  let* t := deref (Some thread) in store thread (Thread_with_platformThread t h).

(** *** IntrusiveSharedPtr *)

(** Modelled from the spec: WAVM/Inline/IntrusiveSharedPtr.h is not part of
    the sources at hand.  A non-null IntrusiveSharedPtr holds one reference
    of its object ("registry holds one reference"): making one from a raw
    pointer calls addRef. *)
Definition IntrusiveSharedPtr_acquire (p : option N) : W -> Outcome W unit :=
  match p with
  | Some a => addRef a 1
  | None => ret tt
  end.

(** Modelled from the spec: the destructor of the missing IntrusiveSharedPtr
    calls removeRef on a non-null pointer ("releases the temporary
    reference"). *)
Definition IntrusiveSharedPtr_release (p : option N) : W -> Outcome W unit :=
  match p with
  | Some a => removeRef a
  | None => ret tt
  end.

(** Modelled from the spec: a local IntrusiveSharedPtr of the missing
    IntrusiveSharedPtr.h is destroyed when its scope is left, by a return or
    by an exception ("scoped acquisition/release - released on every exit
    path").  A call that is suspended or has aborted has not left the scope. *)
Definition withScopedPtr {A : Type} (p : option N) (body : W -> Outcome W A)
    : W -> Outcome W A :=
  fun w =>
    match body w with
    | Returned a w' => (IntrusiveSharedPtr_release p ;; ret a) w'
    | Threw e w' => (IntrusiveSharedPtr_release p ;; throwException e) w'
    | Blocked w' => Blocked w'
    | Terminated w' => Terminated w'
    | Fatal f => Fatal f
    end.

(** *** threadsMutex *)

(** Modelled from the spec: Platform::Mutex and Lock are not part of the
    sources at hand.  "under the lock": the mutex has at most one holder; a
    caller that finds it held waits. *)
Definition Mutex_lock (self : N) : W -> Outcome W unit :=
  fun w =>
    match threadsMutex w with
    | None => Returned tt (with_threadsMutex w (Some self))
    | Some _ => Blocked w
    end.

Definition Mutex_unlock : W -> Outcome W unit :=
  fun w => Returned tt (with_threadsMutex w None).

(** [Lock<Platform::Mutex> threadsLock(threadsMutex);] followed by the rest
    of the scope: the mutex is released when the scope is left, by a return
    or by an exception. *)
Definition withLock {A : Type} (self : N) (body : W -> Outcome W A)
    : W -> Outcome W A :=
  Mutex_lock self ;;
  fun w =>
    match body w with
    | Returned a w' => (Mutex_unlock ;; ret a) w'
    | Threw e w' => (Mutex_unlock ;; throwException e) w'
    | Blocked w' => Blocked w'
    | Terminated w' => Terminated w'
    | Fatal f => Fatal f
    end.

(** *** currentThread *)

(** Modelled from the spec: the assignment of a raw pointer to an
    IntrusiveSharedPtr, of the missing IntrusiveSharedPtr.h, here
    [currentThread = thread;] on the thread-local of the OS thread [self]:
    the new object gains a reference ("the OS thread currently executing as
    this object" is an owner), the object held before loses one. *)
Definition assignCurrentThread (self : N) (thread : N) : W -> Outcome W unit :=
  fun w =>
    let old := currentThread w !! self in
    (addRef thread 1 ;;
     (fun w' => Returned tt (with_currentThread w' (<[self := thread]> (currentThread w')))) ;;
     IntrusiveSharedPtr_release old) w.

(** [setCurrentThread(thread)] *)
Definition setCurrentThread (self : N) (thread : N) : W -> Outcome W unit :=
  assignCurrentThread self thread.

(** *** The registry *)

(** [threads.add(0, thread)]: the slot is an IntrusiveSharedPtr made from the
    raw pointer, so a successful add takes a reference. *)
Definition threads_add (failIndex : N) (thread : N) : W -> Outcome W N :=
  fun w =>
    match IndexMap_allocate (threads w) with
    | Some _ =>
        (IntrusiveSharedPtr_acquire (Some thread) ;;
         fun w' =>
           let r := IndexMap_add failIndex (Some thread) (threads w') in
           Returned (fst r) (with_threads w' (snd r))) w
    | None => Returned failIndex w
    end.

(** [errorUnless(condition)] *)
Definition errorUnless (condition : bool) : W -> Outcome W unit :=
  if condition then ret tt else fatal errorUnlessFailed.

(** [wavmAssert(condition)], assertions enabled. *)
Definition wavmAssert (condition : bool) : W -> Outcome W unit :=
  if condition then ret tt else fatal assertionFailed.

Definition allocateThreadId (self : N) (thread : N) : W -> Outcome W N :=
  withLock self
    (let* i := threads_add 0 thread in
     setId thread i ;;
     let* t := deref (Some thread) in
     errorUnless (negb (id t =? 0)%N) ;;
     let* t' := deref (Some thread) in
     ret (id t')).

Definition validateThreadId (threadId : N) : W -> Outcome W unit :=
  fun w =>
    if (threadId =? 0)%N || negb (IndexMap_contains threadId (threads w))
    then throwException invalidArgumentType w
    else ret tt w.

(** [thread = std::move(threads[threadId]);]: the slot is left null. *)
Definition moveFromSlot (threadId : N) : W -> Outcome W (option N) :=
  fun w =>
    match IndexMap_get threadId (threads w) with
    | Some p => Returned p (with_threads w (IndexMap_set threadId None (threads w)))
    | None => Fatal assertionFailed
    end.

(** [threads.removeOrFail(threadId);]: the slot is destroyed, which releases
    what it still holds. *)
Definition threads_removeOrFail (threadId : N) : W -> Outcome W unit :=
  fun w =>
    match IndexMap_get threadId (threads w), IndexMap_removeOrFail threadId (threads w) with
    | Some p, Some threads' =>
        (IntrusiveSharedPtr_release p ;;
         fun w' => Returned tt (with_threads w' threads')) w
    | _, _ => Fatal errorUnlessFailed
    end.

(** [wavmAssert(thread->id == Uptr(threadId)); thread->id = UINTPTR_MAX;] *)
Definition resetId (thread : option N) (threadId : N) : W -> Outcome W unit :=
  let* t := deref thread in
  wavmAssert (id t =? wrapUptr threadId)%N ;;
  match thread with
  | Some a => setId a UINTPTR_MAX
  | None => fatal invalidPointer
  end.

Definition removeThreadById (self : N) (threadId : N) : W -> Outcome W (option N) :=
  withLock self
    (validateThreadId threadId ;;
     let* thread := moveFromSlot threadId in
     threads_removeOrFail threadId ;;
     resetId thread threadId ;;
     ret thread).

(** *** Contexts and OS threads *)

(** Modelled from the spec: [getContextFromRuntimeData] and
    [getContextRuntimeData] of the missing Runtime library convert between a
    context and its runtime data, which names the context. *)
Definition getContextFromRuntimeData (contextRuntimeData : N) : N := contextRuntimeData.

Definition getContextRuntimeData (ctx : N) : N := ctx.

(** Modelled from the spec: [getCompartmentFromContext] of the missing Runtime
    library. *)
Definition getCompartmentFromContext (ctx : N) : W -> Outcome W N :=
  fun w =>
    match contexts w !! ctx with
    | Some c => Returned (compartment c) w
    | None => Fatal invalidPointer
    end.

Definition allocateContext (c : Context) : W -> Outcome W N :=
  fun w =>
    match firstFree (contexts w) (S (size (contexts w))) 1 with
    | Some a => Returned a (with_contexts w (<[a := c]> (contexts w)))
    | None => Fatal outOfMemory
    end.

(** Modelled from the spec: [createContext(compartment)] of the missing Runtime
    library: "create", a new context in the compartment. *)
Definition createContext (inCompartment : N) : W -> Outcome W N :=
  allocateContext (mkContext inCompartment None).

(** Modelled from the spec: [cloneContext(context, newCompartment)] of the
    missing Runtime library: "clone(existing) -> new". *)
Definition cloneContext (ctx : N) (newCompartment : N) : W -> Outcome W N :=
  getCompartmentFromContext ctx ;;
  allocateContext (mkContext newCompartment (Some ctx)).

(** A call of a platform primitive: its effect on the platform state, and how
    it ends.  An exception of the platform's own is not one of this file's. *)
Definition callPlatform {A : Type} (primitive : P -> PlatformResult P A)
    : W -> Outcome W A :=
  fun w =>
    match primitive (platform w) with
    | PReturn a p => Returned a (with_platform w p)
    | PThrow tag p => Threw (calleeException tag) (with_platform w p)
    | PWait => Blocked w
    | PFatal => Fatal platformFatal
    end.

(** *** threadEntry *)

(** The call [invokeFunctionUnchecked(context, function, &argument)] that
    threadEntry ends in; the I64 it yields is what threadEntry returns. *)
Record Invocation := mkInvocation {
  invokedContext : N;
  invokedFunction : option Function;
  invokedArgument : Value
}.

(** [threadEntry(threadVoid)], run by the OS thread [self]. *)
Definition threadEntry (self : N) (thread : N) : W -> Outcome W Invocation :=
  assignCurrentThread self thread ;;
  removeRef thread ;;
  let* t := deref (Some thread) in
  ret (mkInvocation (context t) (entryFunction t) (argument t)).

(** *** createThread *)

(** [!entryFunction || FunctionType{entryFunction->encodedType}
      != FunctionType(TypeTuple{i64}, TypeTuple{i32})] *)
Definition signatureMismatch (entryFunction : option Function) : bool :=
  match entryFunction with
  | None => true
  | Some f => bool_decide (encodedType f <> mkFunctionType [i64] [i32])
  end.

Definition createThread (self : N) (contextRuntimeData : N)
    (entryFunction : option Function) (entryArgument : Z) : W -> Outcome W N :=
  if signatureMismatch entryFunction
  then throwException indirectCallSignatureMismatchType
  else
    let* inCompartment :=
      getCompartmentFromContext (getContextFromRuntimeData contextRuntimeData) in
    let* newContext := createContext inCompartment in
    let* thread := newThread newContext entryFunction (valueOfI32 entryArgument) in
    allocateThreadId self thread ;;
    addRef thread 1 ;;
    let* h := callPlatform (Platform_createThread numStackBytes threadEntryRoutine thread) in
    setPlatformThread thread (Some h) ;;
    let* t := deref (Some thread) in
    ret (asU64 (id t)).

(** *** forkThread *)

(** What forkThread has in its locals when [Platform::forkCurrentThread]
    returns, on either stack. *)
Record ForkLocals := mkForkLocals {
  forkOldContext : N;
  forkNewContext : N;
  forkChildThread : N
}.

(** forkThread before the call of [Platform::forkCurrentThread], by the OS
    thread [self]. *)
Definition forkThread_prepare (self : N) (contextRuntimeData : N)
    : W -> Outcome W ForkLocals :=
  let oldContext := getContextFromRuntimeData contextRuntimeData in
  let* inCompartment := getCompartmentFromContext oldContext in
  let* newContext := cloneContext oldContext inCompartment in
  fun w =>
    (wavmAssert (bool_decide (is_Some (currentThread w !! self))) ;;
     let* parent := deref (currentThread w !! self) in
     let* childThread := newThread newContext (entryFunction parent) (argument parent) in
     addRef childThread 2 ;;
     ret (mkForkLocals oldContext newContext childThread)) w.

(** forkThread up to and with the call of [Platform::forkCurrentThread]: the
    locals, and the handle the primitive yields on the original stack. *)
Definition forkThread_fork (self : N) (contextRuntimeData : N)
    : W -> Outcome W (ForkLocals * N) :=
  let* locals := forkThread_prepare self contextRuntimeData in
  let* h := callPlatform (Platform_forkCurrentThread self) in
  ret (locals, h).

(** forkThread from the return of [Platform::forkCurrentThread] on, run by
    the OS thread [self] with the value [platformThread] the primitive gave
    it: a handle on the original stack, null on the duplicated one.  The
    result is the pair of the contextRuntimeData and the I64 written by
    [resultInContextRuntimeData]. *)
Definition forkThread_resume (self : N) (locals : ForkLocals) (platformThread : option N)
    : W -> Outcome W (N * Z) :=
  let childThread := forkChildThread locals in
  match platformThread with
  | Some h =>
      setPlatformThread childThread (Some h) ;;
      let* threadId := allocateThreadId self childThread in
      removeRef childThread ;;
      ret (getContextRuntimeData (forkOldContext locals), asI64 threadId)
  | None =>
      setCurrentThread self childThread ;;
      removeRef childThread ;;
      ret (getContextRuntimeData (forkNewContext locals), 0%Z)
  end.

(** The two returns of one forkThread call by the OS thread [self]: the
    original stack resumes in [self], the duplicated one in the new OS thread
    (named by the handle).  [parentFirst] fixes which of the two runs first. *)
Definition forkThread (parentFirst : bool) (self : N) (contextRuntimeData : N)
    : W -> Outcome W ((N * Z) * (N * Z)) :=
  let* forked := forkThread_fork self contextRuntimeData in
  let locals := fst forked in
  let h := snd forked in
  if parentFirst
  then
    let* inParent := forkThread_resume self locals (Some h) in
    let* inChild := forkThread_resume h locals None in
    ret (inParent, inChild)
  else
    let* inChild := forkThread_resume h locals None in
    let* inParent := forkThread_resume self locals (Some h) in
    ret (inParent, inChild).

(** *** exitThread, joinThread, detachThread *)

(** [Platform::exitThread(code);]: the calling OS thread ends there. *)
Definition exitThread (self : N) (code : Z) : W -> Outcome W unit :=
  fun w => Terminated (with_platform w (Platform_exitThread self code (platform w))).

Definition joinThread (self : N) (threadId : N) : W -> Outcome W Z :=
  let* thread := removeThreadById self (wrapUptr threadId) in
  withScopedPtr thread
    (let* t := deref thread in
     let* result := callPlatform (Platform_joinThread (platformThread t)) in
     match thread with
     | Some a => setPlatformThread a None
     | None => fatal invalidPointer
     end ;;
     ret result).

Definition detachThread (self : N) (threadId : N) : W -> Outcome W unit :=
  let* thread := removeThreadById self (wrapUptr threadId) in
  withScopedPtr thread
    (let* t := deref thread in
     callPlatform (Platform_detachThread (platformThread t)) ;;
     match thread with
     | Some a => setPlatformThread a None
     | None => fatal invalidPointer
     end).

End Operations.

(** ** Two callers racing in removeThreadById *)

(** Where a caller stands inside removeThreadById.  Each constructor is a
    point between two statements of the function; the pointer is the local
    [thread]. *)
Inductive RemovePoint :=
  | AtEntry
  | AtValidate
  | AtMove
  | AtRemove (thread : option N)
  | AtResetId (thread : option N)
  | AtReturn (thread : option N)
  | AtUnwind (e : Exception)
  | Finished (result : Exception + option N)
  | Crashed (f : FatalError).

Section Race.
Context {P : Type}.

Abbreviation W := (World P).

(** The statement at a point, run on the world, and the point reached. *)
Definition continueWith (next : RemovePoint) (o : Outcome W unit) (w : W)
    : RemovePoint * W :=
  match o with
  | Returned _ w' => (next, w')
  | Threw e w' => (AtUnwind e, w')
  | Blocked w' => (Crashed platformFatal, w')
  | Terminated w' => (Crashed platformFatal, w')
  | Fatal f => (Crashed f, w)
  end.

(** One statement of removeThreadById, by the caller [self].  A caller at the
    entry that finds the mutex held stays at the entry. *)
Definition removeStep (self : N) (threadId : N) (pt : RemovePoint) (w : W)
    : RemovePoint * W :=
  match pt with
  | AtEntry =>
      match Mutex_lock self w with
      | Returned _ w' => (AtValidate, w')
      | _ => (AtEntry, w)
      end
  | AtValidate => continueWith AtMove (validateThreadId threadId w) w
  | AtMove =>
      match moveFromSlot threadId w with
      | Returned thread w' => (AtRemove thread, w')
      | Fatal f => (Crashed f, w)
      | _ => (Crashed platformFatal, w)
      end
  | AtRemove thread => continueWith (AtResetId thread) (threads_removeOrFail threadId w) w
  | AtResetId thread => continueWith (AtReturn thread) (resetId thread threadId w) w
  | AtReturn thread => continueWith (Finished (inr thread)) (Mutex_unlock w) w
  | AtUnwind e => continueWith (Finished (inl e)) (Mutex_unlock w) w
  | Finished r => (Finished r, w)
  | Crashed f => (Crashed f, w)
  end.

(** The two callers and the world they share. *)
Record Race := mkRace {
  firstCaller : RemovePoint;
  secondCaller : RemovePoint;
  shared : W
}.

(** The scheduler picks a caller ([true]: the first), which runs one
    statement. *)
Definition raceStep (self1 self2 : N) (threadId : N) (pick : bool) (r : Race) : Race :=
  if pick
  then
    let s := removeStep self1 threadId (firstCaller r) (shared r) in
    mkRace (fst s) (secondCaller r) (snd s)
  else
    let s := removeStep self2 threadId (secondCaller r) (shared r) in
    mkRace (firstCaller r) (fst s) (snd s).

Definition runRace (self1 self2 : N) (threadId : N) (schedule : list bool) (r : Race)
    : Race :=
  fold_left (fun r pick => raceStep self1 self2 threadId pick r) schedule r.

(** The local [thread] of a caller at a point: the object it can reach. *)
Definition heldPointer (pt : RemovePoint) : option N :=
  match pt with
  | AtRemove thread | AtResetId thread | AtReturn thread => thread
  | Finished (inr thread) => thread
  | _ => None
  end.

End Race.

(** ** Who holds the references of an object *)

Section Holders.
Context {P : Type}.

(** The registry slots that point to the object at [a]. *)
Definition registryHolders (w : World P) (a : N) : nat :=
  size (filter (fun kv => snd kv = Some a) (slots (threads w))).

(** The OS threads whose currentThread points to the object at [a]. *)
Definition locatorHolders (w : World P) (a : N) : nat :=
  size (filter (fun kv => snd kv = a) (currentThread w)).

(** The references of the object at [a] that neither the registry nor a
    currentThread accounts for: those held by calls in progress. *)
Definition heldByCalls (w : World P) (a : N) : option Z :=
  match heap w !! a with
  | Some t =>
      Some (Z.of_N (numRefs t) - Z.of_nat (registryHolders w a)
            - Z.of_nat (locatorHolders w a))%Z
  | None => None
  end.

(** A registry slot as the operations keep it: its index is in range and it
    points to a live object that stores the index. *)
Definition slotOk (w : World P) (i : N) (p : option N) : Prop :=
  (1 <= i < UINTPTR_MAX)%N /\
  match p with
  | Some a =>
      match heap w !! a with
      | Some t => id t = i
      | None => False
      end
  | None => False
  end.

#[global] Instance slotOk_dec (w : World P) (i : N) (p : option N) : Decision (slotOk w i p).
Proof. unfold slotOk. destruct p as [a|]; [destruct (heap w !! a)|]; apply _. Defined.

(** The world as the operations keep it between calls: the registry was made
    as [threads(1, UINTPTR_MAX)], every slot is as above, and every
    currentThread points to a live object. *)
Definition wellFormed (w : World P) : Prop :=
  minIndex (threads w) = 1%N /\
  maxIndex (threads w) = UINTPTR_MAX /\
  map_Forall (slotOk w) (slots (threads w)) /\
  map_Forall (fun _ a => is_Some (heap w !! a)) (currentThread w).

#[global] Instance wellFormed_dec (w : World P) : Decision (wellFormed w).
Proof. unfold wellFormed. apply _. Defined.

(** The world after [allocateThreadId] gave the object at [a] the index [i]. *)
Definition registered (w : World P) (a : N) (t : Thread) (i : N) : World P :=
  mkWorld
    (<[a := Thread_with_id (Thread_with_numRefs t (wrapUptr (numRefs t + 1))) i]> (heap w))
    (IndexMap_with_slots (threads w) (<[i := Some a]> (slots (threads w))))
    None (currentThread w) (contexts w) (platform w).

(** The heap after the object at [a], which reads [t], lost a reference. *)
Definition releasedIn (h : gmap N Thread) (a : N) (t : Thread) : gmap N Thread :=
  if decide (wrapUptr (numRefs t + UINTPTR_MAX) = 0%N)
  then delete a h
  else <[a := Thread_with_numRefs t (wrapUptr (numRefs t + UINTPTR_MAX))]> h.

(** The object at [a] as [removeThreadById] leaves it, and as joinThread and
    detachThread leave it before they let go of it. *)
Definition unregistered (t : Thread) : Thread := Thread_with_id t UINTPTR_MAX.

Definition reconciled (t : Thread) : Thread :=
  Thread_with_platformThread (unregistered t) None.

(** The world after [removeThreadById] took the object at [a] out of slot [i]. *)
Definition removed (w : World P) (a : N) (t : Thread) (i : N) : World P :=
  mkWorld
    (<[a := unregistered t]> (heap w))
    (IndexMap_with_slots (threads w) (delete i (slots (threads w))))
    None (currentThread w) (contexts w) (platform w).

(** The world after joinThread or detachThread, which found the object at [a]
    in slot [i], returned; [p] is the platform state the primitive left. *)
Definition reconciledWorld (w : World P) (a : N) (t : Thread) (i : N) (p : P) : World P :=
  mkWorld
    (releasedIn (<[a := reconciled t]> (heap w)) a (reconciled t))
    (IndexMap_with_slots (threads w) (delete i (slots (threads w))))
    None (currentThread w) (contexts w) p.

(** The world after the platform primitive threw inside joinThread or
    detachThread. *)
Definition unwoundWorld (w : World P) (a : N) (t : Thread) (i : N) (p : P) : World P :=
  mkWorld
    (releasedIn (<[a := unregistered t]> (heap w)) a (unregistered t))
    (IndexMap_with_slots (threads w) (delete i (slots (threads w))))
    None (currentThread w) (contexts w) p.

(** The object createThread has made when it returns, and the world then:
    [a] is the address of the object, [i] its id, [h] the handle of the
    spawned OS thread, [p] the platform state after the spawn. *)
Definition createdThread (i h newContext : N) (entryFunction : option Function)
    (entryArgument : Z) : Thread :=
  mkThread i 2 (Some h) newContext entryFunction (valueOfI32 entryArgument).

Definition createdWorld (w : World P) (newContext inCompartment a : N)
    (entryFunction : option Function) (entryArgument : Z) (i h : N) (p : P) : World P :=
  mkWorld
    (<[a := createdThread i h newContext entryFunction entryArgument]> (heap w))
    (IndexMap_with_slots (threads w) (<[i := Some a]> (slots (threads w))))
    None (currentThread w)
    (<[newContext := mkContext inCompartment None]> (contexts w))
    p.

(** The child object forkThread has made when it calls the fork primitive,
    and the world then: [a] is the address of the child object, [parent] what
    the object of the calling OS thread reads. *)
Definition forkedChild (newContext : N) (parent : Thread) : Thread :=
  mkThread UINTPTR_MAX 2 None newContext (entryFunction parent) (argument parent).

Definition preparedWorld (w : World P) (newContext inCompartment oldContext a : N)
    (parent : Thread) : World P :=
  mkWorld
    (<[a := forkedChild newContext parent]> (heap w))
    (threads w) (threadsMutex w) (currentThread w)
    (<[newContext := mkContext inCompartment (Some oldContext)]> (contexts w))
    (platform w).

(** The world after forkThread went on, on the original stack, from a world
    where the child object at [child] reads [ct]: the object has the handle
    [h] and the id [i] and its count is what it was. *)
Definition parentResumedWorld (w : World P) (child : N) (ct : Thread) (i h : N) : World P :=
  mkWorld
    (<[child := Thread_with_id (Thread_with_platformThread ct (Some h)) i]> (heap w))
    (IndexMap_with_slots (threads w) (<[i := Some child]> (slots (threads w))))
    None (currentThread w) (contexts w) (platform w).

(** The world after forkThread went on, on the duplicated stack, in the OS
    thread [self]. *)
Definition childResumedWorld (w : World P) (child : N) (self : N) : World P :=
  with_currentThread w (<[self := child]> (currentThread w)).

(** The registry can take one more thread. *)
Definition hasRoom (w : World P) : Prop :=
  (N.of_nat (size (slots (threads w))) + 1 < maxIndex (threads w))%N.

End Holders.

(** ** The course of a race

    While one caller is between its lock and its unlock the other one waits
    at the entry, so a race goes through ten stages: nobody has entered (0);
    the winner has locked (1), validated (2), moved the slot (3), erased it
    (4), reset the id (5), returned (6); the other caller has locked (7),
    thrown (8), finished (9). *)

Section Stages.
Context {P : Type}.
Variables (self1 self2 : N) (threadId : N) (a : N) (t : Thread) (w0 : World P).

(** Where the winner and the other caller stand at a stage. *)
Definition stagePoints (k : nat) : RemovePoint * RemovePoint :=
  match k with
  | 0 => (AtEntry, AtEntry)
  | 1 => (AtValidate, AtEntry)
  | 2 => (AtMove, AtEntry)
  | 3 => (AtRemove (Some a), AtEntry)
  | 4 => (AtResetId (Some a), AtEntry)
  | 5 => (AtReturn (Some a), AtEntry)
  | 6 => (Finished (inr (Some a)), AtEntry)
  | 7 => (Finished (inr (Some a)), AtValidate)
  | 8 => (Finished (inr (Some a)), AtUnwind invalidArgumentType)
  | _ => (Finished (inr (Some a)), Finished (inl invalidArgumentType))
  end.

Definition stageHeap (k : nat) : gmap N Thread :=
  if Nat.ltb k 5 then heap w0 else <[a := unregistered t]> (heap w0).

Definition stageThreads (k : nat) : IndexMap (option N) :=
  if Nat.ltb k 3 then threads w0
  else if Nat.eqb k 3
       then IndexMap_with_slots (threads w0) (<[threadId := None]> (slots (threads w0)))
       else IndexMap_with_slots (threads w0) (delete threadId (slots (threads w0))).

Definition stageMutex (winner other : N) (k : nat) : option N :=
  match k with
  | 1 | 2 | 3 | 4 | 5 => Some winner
  | 7 | 8 => Some other
  | _ => None
  end.

Definition stageWorld (winner other : N) (k : nat) : World P :=
  match k with
  | 0 => w0
  | _ =>
      mkWorld (stageHeap k) (stageThreads k) (stageMutex winner other k)
        (currentThread w0) (contexts w0) (platform w0)
  end.

(** The race at stage [k] when the first caller is the winner
    ([firstWins]), and when the second one is. *)
Definition stage (firstWins : bool) (k : nat) : Race :=
  if firstWins
  then mkRace (fst (stagePoints k)) (snd (stagePoints k)) (stageWorld self1 self2 k)
  else mkRace (snd (stagePoints k)) (fst (stagePoints k)) (stageWorld self2 self1 k).

(** The stage after the scheduler picked a caller. *)
Definition nextStage (pick : bool) (s : bool * nat) : bool * nat :=
  let firstWins := fst s in
  let k := snd s in
  match k with
  | 0 => (pick, 1)
  | 1 | 2 | 3 | 4 | 5 => if Bool.eqb pick firstWins then (firstWins, S k) else (firstWins, k)
  | 6 | 7 | 8 => if Bool.eqb pick firstWins then (firstWins, k) else (firstWins, S k)
  | _ => (firstWins, 9)
  end.

Definition runStages (schedule : list bool) (s : bool * nat) : bool * nat :=
  fold_left (fun s pick => nextStage pick s) schedule s.

End Stages.

(** ** A table of OS threads *)

Record OSThread := mkOSThread {
  startedWith : option (StartRoutine * N);
  exitCode : option Z;
  detached : bool
}.

Definition newHandle (p : gmap N OSThread) : option N :=
  firstFree p (S (size p)) 1.

(** Modelled from the spec: the platform library is not part of the sources
    at hand.  "platform thread primitives spawn(stackSize, trampoline, arg)
    -> handle, forkCurrentThread() -> handle | none, join(handle) ->
    exitCode, detach(handle), exitCurrentThread(code)"; join "blocks the
    calling OS thread until the target OS thread has terminated". *)
#[global] Instance tablePlatform : Platform (gmap N OSThread) := {
  Platform_createThread _ routine arg p :=
    match newHandle p with
    | Some h => PReturn h (<[h := mkOSThread (Some (routine, arg)) None false]> p)
    | None => PFatal
    end;
  Platform_forkCurrentThread _ p :=
    match newHandle p with
    | Some h => PReturn h (<[h := mkOSThread None None false]> p)
    | None => PFatal
    end;
  Platform_joinThread handle p :=
    match handle with
    | Some h =>
        match p !! h with
        | Some t =>
            match exitCode t with
            | Some code => PReturn code (delete h p)
            | None => PWait
            end
        | None => PFatal
        end
    | None => PFatal
    end;
  Platform_detachThread handle p :=
    match handle with
    | Some h =>
        match p !! h with
        | Some t => PReturn tt (<[h := mkOSThread (startedWith t) (exitCode t) true]> p)
        | None => PFatal
        end
    | None => PFatal
    end;
  Platform_exitThread self code p :=
    alter (fun t => mkOSThread (startedWith t) (Some code) (detached t)) self p
}.

(** The registry as [static IndexMap<..> threads(1, UINTPTR_MAX)] makes it,
    and a world with nothing in it but the context of the first caller. *)
Definition initialThreads : IndexMap (option N) := IndexMap_new 1 UINTPTR_MAX.

Definition initialWorld : World (gmap N OSThread) :=
  mkWorld ∅ initialThreads None ∅ {[ 1%N := mkContext 7 None ]} ∅.

Definition entryFunctionOk : Function := mkFunction (mkFunctionType [i64] [i32]) 11.

Definition entryFunctionBad : Function := mkFunction (mkFunctionType [i64] [i64]) 12.

(** The world once the first caller, OS thread 100 in context 1, has called
    [createThread(entryFunctionOk, 42)] in [initialWorld], and then once the
    spawned OS thread, 1, has gone through threadEntry. *)
Definition spawnedThread : Thread :=
  mkThread 1 2 (Some 1%N) 2 (Some entryFunctionOk) (valueOfI32 42).

Definition spawnedWorld : World (gmap N OSThread) :=
  mkWorld
    {[ 1%N := spawnedThread ]}
    (mkIndexMap 1 UINTPTR_MAX {[ 1%N := Some 1%N ]})
    None
    ∅
    {[ 1%N := mkContext 7 None; 2%N := mkContext 7 None ]}
    {[ 1%N := mkOSThread (Some (threadEntryRoutine, 1%N)) None false ]}.

Definition runningWorld : World (gmap N OSThread) :=
  with_currentThread spawnedWorld {[ 1%N := 1%N ]}.

(** [spawnedWorld] once the spawned OS thread has ended with the code 84. *)
Definition exitedWorld : World (gmap N OSThread) :=
  with_platform spawnedWorld (Platform_exitThread 1 84 (platform spawnedWorld)).

(** ** The worlds between two calls *)

Section Sound.
Context {P : Type}.

(** The count of an object covers the registry slots and the currentThreads
    that point to it, and is below the largest Uptr. *)
Definition countOk (w : World P) (a : N) (t : Thread) : Prop :=
  (N.of_nat (registryHolders w a + locatorHolders w a) <= numRefs t)%N /\
  (numRefs t < UINTPTR_MAX)%N.

#[global] Instance countOk_dec (w : World P) (a : N) (t : Thread) : Decision (countOk w a t).
Proof. unfold countOk. apply _. Defined.

(** The object a registry slot points to has its platform thread. *)
Definition handleOk (w : World P) (i : N) (p : option N) : Prop :=
  match p with
  | Some a =>
      match heap w !! a with
      | Some t => is_Some (platformThread t)
      | None => False
      end
  | None => False
  end.

#[global] Instance handleOk_dec (w : World P) (i : N) (p : option N) : Decision (handleOk w i p).
Proof. unfold handleOk. destruct p as [a|]; [destruct (heap w !! a)|]; apply _. Defined.

(** A world between two calls: nobody holds the mutex, the registry and the
    currentThreads point to live objects, every count covers its holders,
    and every registered object has its platform thread. *)
Definition sound (w : World P) : Prop :=
  threadsMutex w = None /\
  wellFormed w /\
  map_Forall (countOk w) (heap w) /\
  map_Forall (handleOk w) (slots (threads w)).

#[global] Instance sound_dec (w : World P) : Decision (sound w).
Proof. unfold sound. apply _. Defined.

End Sound.

(** A world whose registry has no index to give: [spawnedWorld] with a
    registry that ends at its only index. *)
Definition fullWorld : World (gmap N OSThread) :=
  with_threads spawnedWorld (mkIndexMap 1 2 {[ 1%N := Some 1%N ]}).

(** * Properties *)

(** ** The search for a free index *)

Section FirstFree.
Context {V : Type}.
Implicit Types (m : gmap N V) (i j k : N).

Lemma firstFree_ext m m' fuel i :
  (forall k, (i <= k)%N -> m !! k = m' !! k) ->
  firstFree m fuel i = firstFree m' fuel i.
Proof.
  revert i. induction fuel as [|fuel IH]; intros i Hext; simpl; [done|].
  rewrite <- (Hext i) by lia.
  destruct (m !! i); [|done].
  apply IH. intros k Hk. apply Hext. lia.
Qed.

Lemma firstFree_None_size m fuel i :
  firstFree m fuel i = None -> fuel <= size m.
Proof.
  revert m i. induction fuel as [|fuel IH]; intros m i Hnone; simpl in *; [lia|].
  destruct (m !! i) as [v|] eqn:Hi; [|done].
  assert (Hdel : firstFree (delete i m) fuel (N.succ i) = None).
  { rewrite <- Hnone. apply firstFree_ext.
    intros k Hk. apply lookup_delete_ne. lia. }
  apply IH in Hdel.
  rewrite <- (insert_delete_id m i v Hi).
  rewrite map_size_insert_None by apply lookup_delete_eq. lia.
Qed.

Lemma firstFree_enough m i : is_Some (firstFree m (S (size m)) i).
Proof.
  destruct (firstFree m (S (size m)) i) eqn:Hfree; [eauto|].
  apply firstFree_None_size in Hfree. lia.
Qed.

Lemma firstFree_Some m fuel i j :
  firstFree m fuel i = Some j ->
  (i <= j)%N /\ (j < i + N.of_nat fuel)%N /\ m !! j = None /\
  (forall k, (i <= k < j)%N -> is_Some (m !! k)).
Proof.
  revert i. induction fuel as [|fuel IH]; intros i Hfree; simpl in Hfree; [done|].
  destruct (m !! i) as [v|] eqn:Hi.
  - apply IH in Hfree as (Hle & Hlt & Hnone & Hbelow).
    repeat split; [lia|lia|done|].
    intros k Hk. destruct (decide (k = i)) as [->|Hne]; [eauto|].
    apply Hbelow. lia.
  - injection Hfree as <-. repeat split; [lia|lia|done|]. intros k Hk. lia.
Qed.

Lemma firstFree_least m i j k :
  firstFree m (S (size m)) i = Some j -> (i <= k)%N -> m !! k = None -> (j <= k)%N.
Proof.
  intros Hfree Hik Hk. apply firstFree_Some in Hfree as (_ & _ & _ & Hbelow).
  destruct (decide (j <= k)%N) as [|Hgt]; [done|].
  destruct (Hbelow k) as [v Hv]; [lia|congruence].
Qed.

End FirstFree.

(** ** The index map *)

Section IndexMapFacts.
Context {V : Type}.
Implicit Types (im : IndexMap V).

Lemma IndexMap_allocate_Some im i :
  IndexMap_allocate im = Some i ->
  (minIndex im <= i < maxIndex im)%N /\ slots im !! i = None /\
  (forall k, (minIndex im <= k < i)%N -> is_Some (slots im !! k)).
Proof.
  unfold IndexMap_allocate. intros Halloc.
  destruct (firstFree _ _ _) as [j|] eqn:Hfree; [|done].
  destruct (decide (j < maxIndex im)%N); [|done].
  injection Halloc as ->.
  apply firstFree_Some in Hfree as (? & _ & ? & ?). repeat split; auto.
Qed.

Lemma IndexMap_allocate_room im :
  (minIndex im + N.of_nat (size (slots im)) < maxIndex im)%N ->
  is_Some (IndexMap_allocate im).
Proof.
  unfold IndexMap_allocate. intros Hroom.
  destruct (firstFree_enough (slots im) (minIndex im)) as [j Hfree].
  rewrite Hfree.
  apply firstFree_Some in Hfree as (_ & Hlt & _ & _).
  destruct (decide (j < maxIndex im)%N); [eauto|lia].
Qed.

(** An index below the maximum that is free makes the allocation succeed. *)
Lemma IndexMap_allocate_free im k :
  (minIndex im <= k < maxIndex im)%N -> slots im !! k = None ->
  exists i, IndexMap_allocate im = Some i /\ (i <= k)%N.
Proof.
  intros Hk Hfreek. unfold IndexMap_allocate.
  destruct (firstFree_enough (slots im) (minIndex im)) as [j Hfree].
  rewrite Hfree.
  assert (j <= k)%N by (eapply firstFree_least; eauto; lia).
  destruct (decide (j < maxIndex im)%N); [eauto|lia].
Qed.

Lemma IndexMap_contains_true im i :
  IndexMap_contains i im = true <-> is_Some (slots im !! i).
Proof. unfold IndexMap_contains. apply bool_decide_eq_true. Qed.

Lemma IndexMap_contains_false im i :
  IndexMap_contains i im = false <-> slots im !! i = None.
Proof.
  unfold IndexMap_contains. rewrite bool_decide_eq_false.
  rewrite <- eq_None_not_Some. done.
Qed.

End IndexMapFacts.

(** ** Sequencing *)

Section BindFacts.
Context {W A B : Type}.
Implicit Types (m : W -> Outcome W A) (k : A -> W -> Outcome W B).

Lemma bind_Returned m k w a w' :
  m w = Returned a w' -> bind m k w = k a w'.
Proof. unfold bind. intros ->. done. Qed.

Lemma bind_Threw m k w e w' :
  m w = Threw e w' -> bind m k w = Threw e w'.
Proof. unfold bind. intros ->. done. Qed.

Lemma bind_Blocked m k w w' :
  m w = Blocked w' -> bind m k w = Blocked w'.
Proof. unfold bind. intros ->. done. Qed.

Lemma bind_Returned_inv m k w b w' :
  bind m k w = Returned b w' ->
  exists a w1, m w = Returned a w1 /\ k a w1 = Returned b w'.
Proof. unfold bind. destruct (m w); try done. eauto. Qed.

End BindFacts.

(** ** The primitive steps *)

Section StepFacts.
Context {P : Type}.
Implicit Types (w : World P) (a : N) (t : Thread).

Lemma deref_live w a t :
  heap w !! a = Some t -> deref (Some a) w = Returned t w.
Proof. unfold deref. intros ->. done. Qed.

Lemma addRef_live w a t delta :
  heap w !! a = Some t ->
  addRef a delta w =
  Returned tt
    (with_heap w (<[a := Thread_with_numRefs t (wrapUptr (numRefs t + delta))]> (heap w))).
Proof. intros Ha. unfold addRef. rewrite (bind_Returned _ _ _ _ _ (deref_live _ _ _ Ha)). done. Qed.

Lemma removeRef_live w a t :
  heap w !! a = Some t ->
  removeRef a w =
  Returned tt (with_heap w (releasedIn (heap w) a t)).
Proof.
  intros Ha. unfold removeRef. rewrite (bind_Returned _ _ _ _ _ (deref_live _ _ _ Ha)).
  unfold releasedIn. destruct (decide _); done.
Qed.

Lemma setId_live w a t i :
  heap w !! a = Some t ->
  setId a i w = Returned tt (with_heap w (<[a := Thread_with_id t i]> (heap w))).
Proof. intros Ha. unfold setId. rewrite (bind_Returned _ _ _ _ _ (deref_live _ _ _ Ha)). done. Qed.

Lemma setPlatformThread_live w a t h :
  heap w !! a = Some t ->
  setPlatformThread a h w =
  Returned tt (with_heap w (<[a := Thread_with_platformThread t h]> (heap w))).
Proof.
  intros Ha. unfold setPlatformThread.
  rewrite (bind_Returned _ _ _ _ _ (deref_live _ _ _ Ha)). done.
Qed.

Lemma newThread_fresh w ctx f arg :
  exists a,
    heap w !! a = None /\ a <> 0%N /\
    newThread ctx f arg w =
    Returned a (with_heap w (<[a := newThreadObject ctx f arg]> (heap w))).
Proof.
  unfold newThread.
  destruct (firstFree_enough (heap w) 1) as [a Hfree]. rewrite Hfree.
  apply firstFree_Some in Hfree as (? & _ & ? & _).
  exists a. repeat split; [done|lia].
Qed.

Lemma allocateContext_fresh w c :
  exists a,
    contexts w !! a = None /\
    allocateContext c w = Returned a (with_contexts w (<[a := c]> (contexts w))).
Proof.
  unfold allocateContext.
  destruct (firstFree_enough (contexts w) 1) as [a Hfree]. rewrite Hfree.
  apply firstFree_Some in Hfree as (? & _ & ? & _).
  exists a. done.
Qed.

Lemma getCompartmentFromContext_live w ctx c :
  contexts w !! ctx = Some c ->
  getCompartmentFromContext ctx w = Returned (compartment c) w.
Proof. unfold getCompartmentFromContext. intros ->. done. Qed.

End StepFacts.


(** ** Scopes *)

Section ScopeFacts.
Context {P : Type} {A : Type}.
Implicit Types (w : World P) (body : World P -> Outcome (World P) A).

Lemma withLock_Returned self body w a w' :
  threadsMutex w = None ->
  body (with_threadsMutex w (Some self)) = Returned a w' ->
  withLock self body w = Returned a (with_threadsMutex w' None).
Proof.
  intros Hmutex Hbody. unfold withLock, bind, Mutex_lock.
  rewrite Hmutex, Hbody. done.
Qed.

Lemma withLock_Threw self body w e w' :
  threadsMutex w = None ->
  body (with_threadsMutex w (Some self)) = Threw e w' ->
  withLock self body w = Threw e (with_threadsMutex w' None).
Proof.
  intros Hmutex Hbody. unfold withLock, bind, Mutex_lock.
  rewrite Hmutex, Hbody. done.
Qed.

Lemma withLock_held self body w holder :
  threadsMutex w = Some holder -> withLock self body w = Blocked w.
Proof. intros Hmutex. unfold withLock, bind, Mutex_lock. rewrite Hmutex. done. Qed.

Lemma withLock_Returned_inv self body w a w' :
  withLock self body w = Returned a w' ->
  threadsMutex w = None /\
  exists w1, body (with_threadsMutex w (Some self)) = Returned a w1 /\
             w' = with_threadsMutex w1 None.
Proof.
  unfold withLock, bind, Mutex_lock.
  destruct (threadsMutex w); [done|].
  destruct (body _); try done.
  unfold Mutex_unlock, ret. intros [= <- <-]. eauto.
Qed.

Lemma withScopedPtr_Returned p body w a w1 w' :
  body w = Returned a w1 ->
  IntrusiveSharedPtr_release p w1 = Returned tt w' ->
  withScopedPtr p body w = Returned a w'.
Proof. intros Hbody Hrel. unfold withScopedPtr, bind. rewrite Hbody, Hrel. done. Qed.

Lemma withScopedPtr_Threw p body w e w1 w' :
  body w = Threw e w1 ->
  IntrusiveSharedPtr_release p w1 = Returned tt w' ->
  withScopedPtr p body w = Threw e w'.
Proof. intros Hbody Hrel. unfold withScopedPtr, bind. rewrite Hbody, Hrel. done. Qed.

Lemma withScopedPtr_Blocked p body w w1 :
  body w = Blocked w1 -> withScopedPtr p body w = Blocked w1.
Proof. intros Hbody. unfold withScopedPtr. rewrite Hbody. done. Qed.

End ScopeFacts.

(** ** The registry operations *)

Section RegistryFacts.
Context {P : Type}.
Implicit Types (w : World P) (a : N) (t : Thread).

Lemma threads_add_spec w a t i failIndex :
  heap w !! a = Some t ->
  IndexMap_allocate (threads w) = Some i ->
  threads_add failIndex a w =
  Returned i
    (with_threads
       (with_heap w (<[a := Thread_with_numRefs t (wrapUptr (numRefs t + 1))]> (heap w)))
       (IndexMap_with_slots (threads w) (<[i := Some a]> (slots (threads w))))).
Proof.
  intros Ha Halloc. unfold threads_add, IntrusiveSharedPtr_acquire. rewrite Halloc.
  erewrite bind_Returned; [|apply addRef_live; exact Ha].
  unfold IndexMap_add. cbn [threads with_heap]. rewrite Halloc. done.
Qed.

Lemma allocateThreadId_spec self w a t i :
  threadsMutex w = None ->
  heap w !! a = Some t ->
  IndexMap_allocate (threads w) = Some i ->
  i <> 0%N ->
  allocateThreadId self a w = Returned i (registered w a t i).
Proof.
  intros Hmutex Ha Halloc Hi.
  unfold allocateThreadId.
  erewrite withLock_Returned; [|done|].
  2:{ erewrite bind_Returned; [|apply threads_add_spec; [exact Ha|exact Halloc]].
      erewrite bind_Returned; [|apply setId_live; cbn; apply lookup_insert_eq].
      erewrite bind_Returned; [|apply deref_live; cbn; apply lookup_insert_eq].
      cbn [id Thread_with_id].
      assert (Hnz : (i =? 0)%N = false) by (apply N.eqb_neq; done).
      rewrite Hnz. cbn [negb errorUnless].
      erewrite bind_Returned; [|reflexivity].
      erewrite bind_Returned; [|apply deref_live; cbn; apply lookup_insert_eq].
      reflexivity. }
  unfold registered. cbn. rewrite insert_insert_eq. reflexivity.
Qed.

End RegistryFacts.

Section RemoveFacts.
Context {P : Type}.
Implicit Types (w : World P) (a : N) (t : Thread).

Lemma validateThreadId_invalid w threadId :
  threadId = 0%N \/ slots (threads w) !! threadId = None ->
  validateThreadId threadId w = Threw invalidArgumentType w.
Proof.
  intros Hbad. unfold validateThreadId.
  destruct Hbad as [->|Hnone]; [done|].
  apply IndexMap_contains_false in Hnone. rewrite Hnone.
  rewrite orb_true_r. done.
Qed.

Lemma validateThreadId_valid w threadId :
  threadId <> 0%N -> is_Some (slots (threads w) !! threadId) ->
  validateThreadId threadId w = Returned tt w.
Proof.
  intros Hnz Hsome. unfold validateThreadId.
  apply IndexMap_contains_true in Hsome. rewrite Hsome.
  apply N.eqb_neq in Hnz. rewrite Hnz. done.
Qed.

Lemma removeThreadById_invalid self w threadId :
  threadsMutex w = None ->
  threadId = 0%N \/ slots (threads w) !! threadId = None ->
  removeThreadById self threadId w = Threw invalidArgumentType w.
Proof.
  intros Hmutex Hbad. unfold removeThreadById.
  erewrite withLock_Threw; [|done|].
  2:{ apply bind_Threw. apply validateThreadId_invalid. exact Hbad. }
  destruct w. cbn in *. subst. done.
Qed.

Lemma removeThreadById_valid self w threadId a t :
  threadsMutex w = None ->
  threadId <> 0%N ->
  slots (threads w) !! threadId = Some (Some a) ->
  heap w !! a = Some t ->
  id t = wrapUptr threadId ->
  removeThreadById self threadId w = Returned (Some a) (removed w a t threadId).
Proof.
  intros Hmutex Hnz Hslot Ha Hid. unfold removeThreadById.
  erewrite withLock_Returned; [|done|].
  2:{ erewrite bind_Returned; [|apply validateThreadId_valid; [done|cbn; eauto]].
      erewrite bind_Returned.
      2:{ unfold moveFromSlot, IndexMap_get. cbn. rewrite Hslot. reflexivity. }
      erewrite bind_Returned.
      2:{ unfold threads_removeOrFail, IndexMap_get, IndexMap_removeOrFail, IndexMap_set.
          cbn. rewrite lookup_insert_eq.
          assert (Hc : IndexMap_contains threadId
                         (IndexMap_with_slots (threads w) (<[threadId := None]> (slots (threads w))))
                       = true).
          { apply IndexMap_contains_true. cbn. rewrite lookup_insert_eq. eauto. }
          rewrite Hc. cbn. rewrite delete_insert_eq. reflexivity. }
      erewrite bind_Returned.
      2:{ unfold resetId.
          erewrite bind_Returned; [|apply deref_live; cbn; exact Ha].
          rewrite Hid, N.eqb_refl. cbn [wavmAssert].
          erewrite bind_Returned; [|reflexivity].
          apply setId_live. cbn. exact Ha. }
      reflexivity. }
  reflexivity.
Qed.

End RemoveFacts.

(** ** joinThread and detachThread *)

Section JoinFacts.
Context {P : Type} `{!Platform P}.
Implicit Types (w : World P) (a : N) (t : Thread).

Lemma wrapUptr_small x : (x < 18446744073709551616)%N -> wrapUptr x = x.
Proof. intros Hx. unfold wrapUptr. apply N.mod_small. exact Hx. Qed.

Lemma wrapUptr_idemp x : wrapUptr (wrapUptr x) = wrapUptr x.
Proof. unfold wrapUptr. apply N.Div0.mod_mod. Qed.

Lemma callPlatform_Returned {A : Type} (primitive : P -> PlatformResult P A) w r p :
  primitive (platform w) = PReturn r p ->
  callPlatform primitive w = Returned r (with_platform w p).
Proof. unfold callPlatform. intros ->. done. Qed.

Lemma callPlatform_Threw {A : Type} (primitive : P -> PlatformResult P A) w tag p :
  primitive (platform w) = PThrow tag p ->
  callPlatform primitive w = Threw (calleeException tag) (with_platform w p).
Proof. unfold callPlatform. intros ->. done. Qed.

Lemma callPlatform_Blocked {A : Type} (primitive : P -> PlatformResult P A) w :
  primitive (platform w) = PWait -> callPlatform primitive w = Blocked w.
Proof. unfold callPlatform. intros ->. done. Qed.

Ltac enter_scope Hmutex Hnz Hslot Ha Hid :=
  erewrite bind_Returned;
  [|apply removeThreadById_valid;
    [exact Hmutex|rewrite wrapUptr_idemp || idtac; exact Hnz|exact Hslot|exact Ha
    |rewrite wrapUptr_idemp; exact Hid]].

Lemma joinThread_invalid self w threadId :
  threadsMutex w = None ->
  wrapUptr threadId = 0%N \/ slots (threads w) !! wrapUptr threadId = None ->
  joinThread self threadId w = Threw invalidArgumentType w.
Proof.
  intros Hmutex Hbad. unfold joinThread.
  apply bind_Threw. apply removeThreadById_invalid; done.
Qed.

Lemma detachThread_invalid self w threadId :
  threadsMutex w = None ->
  wrapUptr threadId = 0%N \/ slots (threads w) !! wrapUptr threadId = None ->
  detachThread self threadId w = Threw invalidArgumentType w.
Proof.
  intros Hmutex Hbad. unfold detachThread.
  apply bind_Threw. apply removeThreadById_invalid; done.
Qed.

Section Valid.
Variables (self : N) (w : World P) (threadId : N) (a : N) (t : Thread).
Hypothesis Hmutex : threadsMutex w = None.
Hypothesis Hnz : wrapUptr threadId <> 0%N.
Hypothesis Hslot : slots (threads w) !! wrapUptr threadId = Some (Some a).
Hypothesis Ha : heap w !! a = Some t.
Hypothesis Hid : id t = wrapUptr threadId.

Lemma joinThread_returns code p :
  Platform_joinThread (platformThread t) (platform w) = PReturn code p ->
  joinThread self threadId w =
  Returned code (reconciledWorld w a t (wrapUptr threadId) p).
Proof.
  intros Hjoin. unfold joinThread. enter_scope Hmutex Hnz Hslot Ha Hid.
  eapply withScopedPtr_Returned.
  - erewrite bind_Returned; [|apply deref_live; cbn; apply lookup_insert_eq].
    erewrite bind_Returned; [|apply callPlatform_Returned; cbn; exact Hjoin].
    erewrite bind_Returned; [|eapply setPlatformThread_live; cbn; apply lookup_insert_eq].
    reflexivity.
  - cbn [IntrusiveSharedPtr_release].
    erewrite removeRef_live; [|cbn; apply lookup_insert_eq].
    unfold reconciledWorld, reconciled. cbn. rewrite insert_insert_eq. reflexivity.
Qed.

Lemma joinThread_throws tag p :
  Platform_joinThread (platformThread t) (platform w) = PThrow tag p ->
  joinThread self threadId w =
  Threw (calleeException tag) (unwoundWorld w a t (wrapUptr threadId) p).
Proof.
  intros Hjoin. unfold joinThread. enter_scope Hmutex Hnz Hslot Ha Hid.
  eapply withScopedPtr_Threw.
  - erewrite bind_Returned; [|apply deref_live; cbn; apply lookup_insert_eq].
    apply bind_Threw. apply callPlatform_Threw. cbn. exact Hjoin.
  - cbn [IntrusiveSharedPtr_release].
    erewrite removeRef_live; [|cbn; apply lookup_insert_eq].
    reflexivity.
Qed.

Lemma joinThread_waits :
  Platform_joinThread (platformThread t) (platform w) = PWait ->
  joinThread self threadId w = Blocked (removed w a t (wrapUptr threadId)).
Proof.
  intros Hjoin. unfold joinThread. enter_scope Hmutex Hnz Hslot Ha Hid.
  eapply withScopedPtr_Blocked.
  erewrite bind_Returned; [|apply deref_live; cbn; apply lookup_insert_eq].
  apply bind_Blocked. apply callPlatform_Blocked. cbn. exact Hjoin.
Qed.

Lemma joinThread_aborts :
  Platform_joinThread (platformThread t) (platform w) = PFatal ->
  joinThread self threadId w = Fatal platformFatal.
Proof.
  intros Hjoin. unfold joinThread. enter_scope Hmutex Hnz Hslot Ha Hid.
  unfold withScopedPtr.
  erewrite bind_Returned; [|apply deref_live; cbn; apply lookup_insert_eq].
  unfold bind, callPlatform. cbn. rewrite Hjoin. reflexivity.
Qed.

Lemma detachThread_returns p :
  Platform_detachThread (platformThread t) (platform w) = PReturn tt p ->
  detachThread self threadId w =
  Returned tt (reconciledWorld w a t (wrapUptr threadId) p).
Proof.
  intros Hdetach. unfold detachThread. enter_scope Hmutex Hnz Hslot Ha Hid.
  eapply withScopedPtr_Returned.
  - erewrite bind_Returned; [|apply deref_live; cbn; apply lookup_insert_eq].
    erewrite bind_Returned; [|apply callPlatform_Returned; cbn; exact Hdetach].
    eapply setPlatformThread_live. cbn. apply lookup_insert_eq.
  - cbn [IntrusiveSharedPtr_release].
    erewrite removeRef_live; [|cbn; apply lookup_insert_eq].
    unfold reconciledWorld, reconciled. cbn. rewrite insert_insert_eq. reflexivity.
Qed.

(** With a mapped id, neither call ends in InvalidArgument. *)
Lemma joinThread_valid_not_invalid w' :
  joinThread self threadId w <> Threw invalidArgumentType w'.
Proof.
  destruct (Platform_joinThread (platformThread t) (platform w)) as [c p|tag p| |] eqn:Hjoin.
  - erewrite joinThread_returns by done. done.
  - erewrite joinThread_throws by done. done.
  - rewrite joinThread_waits by done. done.
  - rewrite joinThread_aborts by done. done.
Qed.

Lemma detachThread_valid_not_invalid w' :
  detachThread self threadId w <> Threw invalidArgumentType w'.
Proof.
  unfold detachThread. enter_scope Hmutex Hnz Hslot Ha Hid.
  unfold withScopedPtr.
  erewrite bind_Returned; [|apply deref_live; cbn; apply lookup_insert_eq].
  unfold bind at 1. unfold callPlatform at 1. cbn [platform removed platformThread unregistered Thread_with_id].
  destruct (Platform_detachThread (platformThread t) (platform w)) as [[] p|tag p| |];
    try done.
  - erewrite setPlatformThread_live; [|cbn; apply lookup_insert_eq].
    erewrite bind_Returned; [|apply removeRef_live; cbn; apply lookup_insert_eq]. done.
  - erewrite bind_Returned; [|apply removeRef_live; cbn; apply lookup_insert_eq]. done.
Qed.

End Valid.

End JoinFacts.

(** ** Well-formed worlds and holders *)

Section WellFormedFacts.
Context {P : Type}.
Implicit Types (w : World P) (a : N) (t : Thread).

Lemma wellFormed_slot w i p :
  wellFormed w -> slots (threads w) !! i = Some p ->
  (1 <= i < UINTPTR_MAX)%N /\
  exists a t, p = Some a /\ heap w !! a = Some t /\ id t = i.
Proof.
  intros (_ & _ & Hslots & _) Hslot.
  destruct (Hslots i p Hslot) as [Hrange Hp]. split; [done|].
  destruct p as [a|]; [|done].
  destruct (heap w !! a) as [t|] eqn:Ha; [|done]. eauto.
Qed.

Lemma wellFormed_locator w s a :
  wellFormed w -> currentThread w !! s = Some a -> is_Some (heap w !! a).
Proof. intros (_ & _ & _ & Hloc) Hs. exact (Hloc s a Hs). Qed.

Lemma UINTPTR_MAX_small i : (i < UINTPTR_MAX)%N -> wrapUptr i = i.
Proof.
  intros Hi. unfold wrapUptr. apply N.mod_small. unfold UINTPTR_MAX in Hi. lia.
Qed.

End WellFormedFacts.

Section HolderFacts.
Context {V : Type} `{EqDecision V}.
Implicit Types (m : gmap N V) (x : V).

Lemma holders_insert_new m i x :
  m !! i = None ->
  size (filter (fun kv => snd kv = x) (<[i := x]> m)) =
  S (size (filter (fun kv => snd kv = x) m)).
Proof.
  intros Hi. rewrite map_filter_insert_True by done.
  apply map_size_insert_None. rewrite map_lookup_filter_None. auto.
Qed.

Lemma holders_delete m i x :
  m !! i = Some x ->
  S (size (filter (fun kv => snd kv = x) (delete i m))) =
  size (filter (fun kv => snd kv = x) m).
Proof.
  intros Hi. rewrite map_filter_delete.
  assert (Hf : filter (fun kv : N * V => snd kv = x) m !! i = Some x).
  { apply map_lookup_filter_Some. done. }
  rewrite <- (insert_delete_id _ _ _ Hf) at 2.
  rewrite map_size_insert_None by apply lookup_delete_eq. done.
Qed.

Lemma holders_absent m x :
  (forall i, m !! i <> Some x) ->
  size (filter (fun kv => snd kv = x) m) = 0.
Proof.
  intros Hnone. apply map_size_empty_iff. apply map_eq. intros i.
  rewrite lookup_empty. apply map_lookup_filter_None. right.
  intros y Hy Hxy. cbn in Hxy. subst. by eapply Hnone.
Qed.

End HolderFacts.

Section JoinInversion.
Context {P : Type} `{!Platform P}.
Variables (self : N) (w : World P) (threadId : N) (a : N) (t : Thread).
Hypothesis Hmutex : threadsMutex w = None.
Hypothesis Hnz : wrapUptr threadId <> 0%N.
Hypothesis Hslot : slots (threads w) !! wrapUptr threadId = Some (Some a).
Hypothesis Ha : heap w !! a = Some t.
Hypothesis Hid : id t = wrapUptr threadId.

Lemma detachThread_outcome :
  detachThread self threadId w =
  match Platform_detachThread (platformThread t) (platform w) with
  | PReturn _ p => Returned tt (reconciledWorld w a t (wrapUptr threadId) p)
  | PThrow tag p => Threw (calleeException tag) (unwoundWorld w a t (wrapUptr threadId) p)
  | PWait => Blocked (removed w a t (wrapUptr threadId))
  | PFatal => Fatal platformFatal
  end.
Proof.
  destruct (Platform_detachThread (platformThread t) (platform w)) as [[] p|tag p| |] eqn:Hd.
  - apply detachThread_returns; done.
  - unfold detachThread.
    erewrite bind_Returned;
      [|apply removeThreadById_valid; rewrite ?wrapUptr_idemp; eauto].
    eapply withScopedPtr_Threw.
    + erewrite bind_Returned; [|apply deref_live; cbn; apply lookup_insert_eq].
      apply bind_Threw. apply callPlatform_Threw. cbn. exact Hd.
    + cbn [IntrusiveSharedPtr_release].
      erewrite removeRef_live; [|cbn; apply lookup_insert_eq]. reflexivity.
  - unfold detachThread.
    erewrite bind_Returned;
      [|apply removeThreadById_valid; rewrite ?wrapUptr_idemp; eauto].
    eapply withScopedPtr_Blocked.
    erewrite bind_Returned; [|apply deref_live; cbn; apply lookup_insert_eq].
    apply bind_Blocked. apply callPlatform_Blocked. cbn. exact Hd.
  - unfold detachThread.
    erewrite bind_Returned;
      [|apply removeThreadById_valid; rewrite ?wrapUptr_idemp; eauto].
    unfold withScopedPtr.
    erewrite bind_Returned; [|apply deref_live; cbn; apply lookup_insert_eq].
    unfold bind, callPlatform. cbn. rewrite Hd. reflexivity.
Qed.

Lemma joinThread_outcome :
  joinThread self threadId w =
  match Platform_joinThread (platformThread t) (platform w) with
  | PReturn code p => Returned code (reconciledWorld w a t (wrapUptr threadId) p)
  | PThrow tag p => Threw (calleeException tag) (unwoundWorld w a t (wrapUptr threadId) p)
  | PWait => Blocked (removed w a t (wrapUptr threadId))
  | PFatal => Fatal platformFatal
  end.
Proof.
  destruct (Platform_joinThread (platformThread t) (platform w)) as [c p|tag p| |] eqn:Hj.
  - apply joinThread_returns; done.
  - apply joinThread_throws; done.
  - apply joinThread_waits; done.
  - by apply (joinThread_aborts self w threadId a t).
Qed.

Lemma joinThread_Returned_inv code w1 :
  joinThread self threadId w = Returned code w1 ->
  exists p, Platform_joinThread (platformThread t) (platform w) = PReturn code p /\
            w1 = reconciledWorld w a t (wrapUptr threadId) p.
Proof.
  rewrite joinThread_outcome.
  destruct (Platform_joinThread _ _); try done. intros [= <- <-]. eauto.
Qed.

Lemma detachThread_Returned_inv w1 :
  detachThread self threadId w = Returned tt w1 ->
  exists p, w1 = reconciledWorld w a t (wrapUptr threadId) p.
Proof.
  rewrite detachThread_outcome.
  destruct (Platform_detachThread _ _); try done. intros [= <-]. eauto.
Qed.

End JoinInversion.

(** ** Failure and success of the removal *)

Section Removal.
Context {P : Type} `{!Platform P}.
Implicit Types (w : World P).

Lemma invalid_or_valid w threadId :
  wellFormed w ->
  (threadId = 0%N \/ slots (threads w) !! threadId = None) \/
  (threadId <> 0%N /\ (threadId < UINTPTR_MAX)%N /\
   exists a t, slots (threads w) !! threadId = Some (Some a) /\
               heap w !! a = Some t /\ id t = threadId).
Proof.
  intros Hwf.
  destruct (decide (threadId = 0%N)) as [|Hnz]; [auto|].
  destruct (slots (threads w) !! threadId) as [p|] eqn:Hslot; [|auto].
  right. destruct (wellFormed_slot w threadId p Hwf Hslot) as (Hr & a & t & -> & Ha & Hid).
  split; [done|]. split; [lia|]. eauto.
Qed.

Lemma removal_fails_iff self w threadId :
  (threadId < 18446744073709551616)%N ->
  threadsMutex w = None ->
  wellFormed w ->
  ((exists w', joinThread self threadId w = Threw invalidArgumentType w') <->
   (threadId = 0%N \/ slots (threads w) !! threadId = None)) /\
  ((exists w', detachThread self threadId w = Threw invalidArgumentType w') <->
   (threadId = 0%N \/ slots (threads w) !! threadId = None)).
Proof.
  intros Hsmall Hmutex Hwf.
  pose proof (wrapUptr_small threadId Hsmall) as Hwrap.
  destruct (invalid_or_valid w threadId Hwf)
    as [Hbad|(Hnz & _ & a & t & Hslot & Ha & Hid)].
  - split; (split; [auto|intros _; exists w]).
    + apply joinThread_invalid; rewrite ?Hwrap; done.
    + apply detachThread_invalid; rewrite ?Hwrap; done.
  - rewrite <- Hwrap in Hnz, Hslot, Hid.
    split; (split; [intros [w' Hthrew]; exfalso|intros [?|Hnone]; congruence]).
    + by apply (joinThread_valid_not_invalid self w threadId a t Hmutex Hnz Hslot Ha Hid w').
    + by apply (detachThread_valid_not_invalid self w threadId a t Hmutex Hnz Hslot Ha Hid w').
Qed.

Lemma removal_once self w threadId w1 :
  (threadId < 18446744073709551616)%N ->
  threadsMutex w = None ->
  wellFormed w ->
  detachThread self threadId w = Returned tt w1 \/
  (exists code, joinThread self threadId w = Returned code w1) ->
  threadsMutex w1 = None /\ slots (threads w1) !! threadId = None.
Proof.
  intros Hsmall Hmutex Hwf Hdone.
  pose proof (wrapUptr_small threadId Hsmall) as Hwrap.
  destruct (invalid_or_valid w threadId Hwf)
    as [Hbad|(Hnz & _ & a & t & Hslot & Ha & Hid)].
  - exfalso. destruct Hdone as [Hd|[code Hj]].
    + rewrite detachThread_invalid in Hd; rewrite ?Hwrap; done.
    + rewrite joinThread_invalid in Hj; rewrite ?Hwrap; done.
  - rewrite <- Hwrap in Hnz, Hslot, Hid.
    destruct Hdone as [Hd|[code Hj]].
    + apply (detachThread_Returned_inv self w threadId a t Hmutex Hnz Hslot Ha Hid)
        in Hd as [p ->].
      cbn. split; [done|]. rewrite Hwrap. apply lookup_delete_eq.
    + apply (joinThread_Returned_inv self w threadId a t Hmutex Hnz Hslot Ha Hid)
        in Hj as (p & _ & ->).
      cbn. split; [done|]. rewrite Hwrap. apply lookup_delete_eq.
Qed.

End Removal.

(** ** The example worlds *)

Example spawnedWorld_created :
  createThread 100 1 (Some entryFunctionOk) 42 initialWorld = Returned 1%N spawnedWorld.
Proof. vm_compute. reflexivity. Qed.

Example runningWorld_entered :
  threadEntry 1 1 spawnedWorld =
  Returned (mkInvocation 2 (Some entryFunctionOk) (valueOfI32 42)) runningWorld.
Proof. vm_compute. reflexivity. Qed.

(** ** Claim C3 *)

(** C3: joinThread(id) and detachThread(id) fail with InvalidArgument exactly
    when id is zero or is not mapped in the registry, and then change
    nothing; after a successful detach (or join) of an id, a second join or
    detach of it fails with InvalidArgument; a successful removal unmaps the
    id, resets the stored id of the removed object to the sentinel
    UINTPTR_MAX and hands the registry's reference of the object to the
    caller (the count is unchanged, the registry holds one reference
    less). *)
Theorem removal_fails_iff_unmapped {P : Type} `{!Platform P}
    (self : N) (w : World P) (threadId : N) :
  (threadId < 18446744073709551616)%N ->
  threadsMutex w = None ->
  wellFormed w ->
  (threadId = 0%N \/ slots (threads w) !! threadId = None ->
   joinThread self threadId w = Threw invalidArgumentType w /\
   detachThread self threadId w = Threw invalidArgumentType w) /\
  (forall w',
     joinThread self threadId w = Threw invalidArgumentType w' \/
     detachThread self threadId w = Threw invalidArgumentType w' ->
     threadId = 0%N \/ slots (threads w) !! threadId = None) /\
  (forall w1 self',
     detachThread self threadId w = Returned tt w1 \/
     (exists code, joinThread self threadId w = Returned code w1) ->
     joinThread self' threadId w1 = Threw invalidArgumentType w1 /\
     detachThread self' threadId w1 = Threw invalidArgumentType w1) /\
  (threadId <> 0%N ->
   forall p, slots (threads w) !! threadId = Some p ->
   exists a t w1,
     p = Some a /\ heap w !! a = Some t /\
     removeThreadById self threadId w = Returned (Some a) w1 /\
     slots (threads w1) = delete threadId (slots (threads w)) /\
     heap w1 = <[a := Thread_with_id t UINTPTR_MAX]> (heap w) /\
     S (registryHolders w1 a) = registryHolders w a).
Proof.
  intros Hsmall Hmutex Hwf.
  pose proof (wrapUptr_small threadId Hsmall) as Hwrap.
  destruct (removal_fails_iff self w threadId Hsmall Hmutex Hwf) as [Hjoin Hdetach].
  split; [|split; [|split]].
  - intros Hbad. split.
    + apply joinThread_invalid; rewrite ?Hwrap; done.
    + apply detachThread_invalid; rewrite ?Hwrap; done.
  - intros w' [Hj|Hd]; [apply Hjoin|apply Hdetach]; eauto.
  - intros w1 self' Hdone.
    destruct (removal_once self w threadId w1 Hsmall Hmutex Hwf Hdone) as [Hm1 Hgone].
    split.
    + apply joinThread_invalid; rewrite ?Hwrap; auto.
    + apply detachThread_invalid; rewrite ?Hwrap; auto.
  - intros Hnz p Hslot.
    destruct (wellFormed_slot w threadId p Hwf Hslot) as (Hr & a & t & -> & Ha & Hid).
    exists a, t, (removed w a t threadId).
    split; [done|]. split; [done|]. split.
    { apply removeThreadById_valid; rewrite ?Hwrap; done. }
    split; [done|]. split; [done|].
    unfold registryHolders. cbn. apply holders_delete. done.
Qed.

Lemma removal_fails_iff_unmapped_witness :
  (1 < 18446744073709551616)%N /\
  threadsMutex spawnedWorld = None /\
  wellFormed spawnedWorld /\
  (forall w1 self',
     detachThread 100 1 spawnedWorld = Returned tt w1 \/
     (exists code, joinThread 100 1 spawnedWorld = Returned code w1) ->
     joinThread self' 1 w1 = Threw invalidArgumentType w1 /\
     detachThread self' 1 w1 = Threw invalidArgumentType w1).
Proof.
  assert (H1 : (1 < 18446744073709551616)%N) by reflexivity.
  assert (H2 : threadsMutex spawnedWorld = None) by reflexivity.
  assert (H3 : wellFormed spawnedWorld)
    by (apply (bool_decide_unpack _); vm_compute; exact I).
  split; [exact H1|]. split; [exact H2|]. split; [exact H3|].
  exact (proj1 (proj2 (proj2 (removal_fails_iff_unmapped 100 spawnedWorld 1 H1 H2 H3)))).
Defined.

(** ** Claim C4 *)

(** C4: when the entry function is null, or its type is not one i32
    argument giving one i64 result, createThread fails with
    SignatureMismatch and the world is what it was: no id was allocated, no
    object was made or registered, the registry is unchanged. *)
Theorem createThread_signatureMismatch {P : Type} `{!Platform P}
    (self : N) (contextRuntimeData : N) (entryFunction : option Function)
    (entryArgument : Z) (w : World P) :
  (entryFunction = None \/
   exists f, entryFunction = Some f /\ encodedType f <> mkFunctionType [i64] [i32]) ->
  createThread self contextRuntimeData entryFunction entryArgument w =
  Threw indirectCallSignatureMismatchType w.
Proof.
  intros Hbad. unfold createThread.
  assert (Hmis : signatureMismatch entryFunction = true).
  { destruct Hbad as [->|(f & -> & Hne)]; [done|].
    cbn. apply bool_decide_eq_true. exact Hne. }
  rewrite Hmis. reflexivity.
Qed.

Lemma createThread_signatureMismatch_witness :
  (Some entryFunctionBad = None \/
   exists f, Some entryFunctionBad = Some f /\
             encodedType f <> mkFunctionType [i64] [i32]) /\
  createThread 100 1 (Some entryFunctionBad) 42 initialWorld =
  Threw indirectCallSignatureMismatchType initialWorld.
Proof.
  assert (H : Some entryFunctionBad = None \/
              exists f, Some entryFunctionBad = Some f /\
                        encodedType f <> mkFunctionType [i64] [i32]).
  { right. exists entryFunctionBad. split; [reflexivity|]. cbn. discriminate. }
  split; [exact H|].
  exact (createThread_signatureMismatch 100 1 (Some entryFunctionBad) 42 initialWorld H).
Defined.

(** ** Claim C10 *)

(** C10: exitThread(code) ends the calling OS thread and changes nothing of
    this subsystem on the way: the objects and their reference counts, the
    registry, its mutex, every currentThread and the contexts are what they
    were; the platform state is what [Platform::exitThread] made of it. *)
Theorem exitThread_frame {P : Type} `{!Platform P} (self : N) (code : Z) (w : World P) :
  exists w',
    exitThread self code w = Terminated w' /\
    heap w' = heap w /\
    threads w' = threads w /\
    threadsMutex w' = threadsMutex w /\
    currentThread w' = currentThread w /\
    contexts w' = contexts w /\
    platform w' = Platform_exitThread self code (platform w).
Proof. eexists. split; [reflexivity|]. cbn. auto 10. Qed.

(** ** Claim C5 *)

Section RefCount.
Context {P : Type}.
Implicit Types (w : World P) (a : N) (t : Thread).

Lemma wrapUptr_add_l x y : wrapUptr (wrapUptr x + y) = wrapUptr (x + y).
Proof. unfold wrapUptr. apply N.Div0.add_mod_idemp_l. Qed.

Lemma wrapUptr_decrement x :
  (x < 18446744073709551616)%N ->
  wrapUptr (x + UINTPTR_MAX) = 0%N <-> x = 1%N.
Proof.
  intros Hx. unfold wrapUptr, UINTPTR_MAX. split.
  - intros Hz. destruct (decide (x = 0%N)) as [->|Hnz]; [done|].
    replace (x + 18446744073709551615)%N
      with ((x - 1) + 1 * 18446744073709551616)%N in Hz by lia.
    rewrite N.Div0.mod_add, N.mod_small in Hz by lia. lia.
  - intros ->. done.
Qed.

End RefCount.

(** C5: addRef(n) adds n to the reference count of an object and removeRef
    takes one from it, each in one step and modulo 2^64; the object is
    destroyed by a removeRef exactly when that removeRef brings the count to
    zero (for a count below 2^64: when the count was one), and addRef
    destroys nothing; both work whatever the state of the registry mutex and
    leave it as it is; two updates of the count give the same object in
    either order. *)
Theorem refcount_update {P : Type} (w : World P) (a : N) (t : Thread) (n m : N) :
  heap w !! a = Some t ->
  (addRef a n w =
   Returned tt
     (with_heap w
        (<[a := Thread_with_numRefs t ((numRefs t + n) mod 18446744073709551616)%N]>
           (heap w)))) /\
  (exists w',
     removeRef a w = Returned tt w' /\
     threads w' = threads w /\ threadsMutex w' = threadsMutex w /\
     currentThread w' = currentThread w /\
     (forall b, b <> a -> heap w' !! b = heap w !! b) /\
     (heap w' !! a = None <->
      ((numRefs t + 18446744073709551615) mod 18446744073709551616)%N = 0%N) /\
     ((numRefs t < 18446744073709551616)%N -> heap w' !! a = None <-> numRefs t = 1%N) /\
     (heap w' !! a <> None ->
      heap w' !! a =
      Some (Thread_with_numRefs t
              ((numRefs t + 18446744073709551615) mod 18446744073709551616)%N))) /\
  (forall holder,
     addRef a n (with_threadsMutex w holder) =
     Returned tt
       (with_threadsMutex
          (with_heap w (<[a := Thread_with_numRefs t (wrapUptr (numRefs t + n))]> (heap w)))
          holder) /\
     removeRef a (with_threadsMutex w holder) =
     Returned tt (with_threadsMutex (with_heap w (releasedIn (heap w) a t)) holder)) /\
  ((addRef a n ;; addRef a m) w = (addRef a m ;; addRef a n) w /\
   (addRef a n ;; addRef a m) w =
   Returned tt
     (with_heap w
        (<[a := Thread_with_numRefs t ((numRefs t + n + m) mod 18446744073709551616)%N]>
           (heap w)))) /\
  (wrapUptr (numRefs t + UINTPTR_MAX) <> 0%N ->
   wrapUptr (numRefs t + n + UINTPTR_MAX) <> 0%N ->
   (addRef a n ;; removeRef a) w = (removeRef a ;; addRef a n) w).
Proof.
  intros Ha.
  assert (Hadd : forall k, addRef a k w =
    Returned tt (with_heap w (<[a := Thread_with_numRefs t (wrapUptr (numRefs t + k))]> (heap w))))
    by (intros k; apply addRef_live; exact Ha).
  assert (Haddadd : forall k l, (addRef a k ;; addRef a l) w =
    Returned tt
      (with_heap w (<[a := Thread_with_numRefs t (wrapUptr (numRefs t + k + l))]> (heap w)))).
  { intros k l. erewrite bind_Returned; [|apply Hadd].
    erewrite addRef_live; [|cbn; apply lookup_insert_eq].
    cbn. rewrite insert_insert_eq, wrapUptr_add_l. reflexivity. }
  split; [apply Hadd|]. split; [|split; [|split]].
  - eexists. split; [apply removeRef_live; exact Ha|].
    cbn. unfold releasedIn. fold (wrapUptr (numRefs t + 18446744073709551615)).
    change 18446744073709551615%N with UINTPTR_MAX.
    repeat split; try done.
    + intros b Hb. destruct (decide _).
      * apply lookup_delete_ne. done.
      * apply lookup_insert_ne. done.
    + destruct (decide _) as [Hz|Hnz]; [done|]. rewrite lookup_insert_eq. done.
    + destruct (decide _) as [Hz|Hnz]; [intros _; apply lookup_delete_eq|done].
    + destruct (decide _) as [Hz|Hnz].
      * intros _. apply wrapUptr_decrement; done.
      * rewrite lookup_insert_eq. done.
    + destruct (decide _) as [Hz|Hnz].
      * intros _. apply lookup_delete_eq.
      * intros H1. exfalso. apply Hnz. apply wrapUptr_decrement; done.
    + destruct (decide _) as [Hz|Hnz].
      * rewrite lookup_delete_eq. done.
      * rewrite lookup_insert_eq. done.
  - intros holder. split.
    + erewrite addRef_live; [|cbn; exact Ha]. reflexivity.
    + erewrite removeRef_live; [|cbn; exact Ha]. reflexivity.
  - split.
    + rewrite !Haddadd.
      replace (numRefs t + m + n)%N with (numRefs t + n + m)%N by lia. reflexivity.
    + apply Haddadd.
  - intros Hlive Hlive'.
    erewrite bind_Returned; [|apply Hadd].
    erewrite removeRef_live; [|cbn; apply lookup_insert_eq].
    erewrite (bind_Returned (removeRef a)); [|apply removeRef_live; exact Ha].
    unfold releasedIn. cbn [numRefs Thread_with_numRefs heap with_heap].
    rewrite wrapUptr_add_l.
    destruct (decide (wrapUptr (numRefs t + UINTPTR_MAX) = 0%N)); [done|].
    destruct (decide (wrapUptr (numRefs t + n + UINTPTR_MAX) = 0%N)); [done|].
    erewrite addRef_live; [|cbn; apply lookup_insert_eq].
    cbn. rewrite !insert_insert_eq, wrapUptr_add_l.
    replace (numRefs t + UINTPTR_MAX + n)%N with (numRefs t + n + UINTPTR_MAX)%N by lia.
    reflexivity.
Qed.

Lemma refcount_update_witness :
  heap spawnedWorld !! 1%N = Some spawnedThread /\
  addRef 1 2 spawnedWorld =
  Returned tt
    (with_heap spawnedWorld
       (<[1%N := Thread_with_numRefs spawnedThread
                   ((numRefs spawnedThread + 2) mod 18446744073709551616)%N]>
          (heap spawnedWorld))).
Proof.
  assert (H : heap spawnedWorld !! 1%N = Some spawnedThread) by reflexivity.
  split; [exact H|].
  exact (proj1 (refcount_update spawnedWorld 1 spawnedThread 2 0 H)).
Defined.

(** ** What a step that returned has done *)

Section StepInversion.
Context {P : Type} `{!Platform P}.
Implicit Types (w : World P) (a : N) (t : Thread).

Lemma deref_Returned_inv p w t w' :
  deref p w = Returned t w' -> w' = w /\ exists a, p = Some a /\ heap w !! a = Some t.
Proof.
  unfold deref. destruct p as [a|]; [|done].
  destruct (heap w !! a) eqn:Ha; [|done]. intros [= <- <-]. eauto.
Qed.

Lemma addRef_Returned_inv a delta w u w' :
  addRef a delta w = Returned u w' ->
  exists t, heap w !! a = Some t /\
    w' = with_heap w (<[a := Thread_with_numRefs t (wrapUptr (numRefs t + delta))]> (heap w)).
Proof.
  intros Hadd. destruct (heap w !! a) as [t|] eqn:Ha.
  - rewrite (addRef_live w a t delta Ha) in Hadd. injection Hadd as <-. eauto.
  - unfold addRef, bind, deref in Hadd. rewrite Ha in Hadd. done.
Qed.

Lemma removeRef_Returned_inv a w u w' :
  removeRef a w = Returned u w' ->
  exists t, heap w !! a = Some t /\ w' = with_heap w (releasedIn (heap w) a t).
Proof.
  intros Hrem. destruct (heap w !! a) as [t|] eqn:Ha.
  - rewrite (removeRef_live w a t Ha) in Hrem. injection Hrem as <-. eauto.
  - unfold removeRef, bind, deref in Hrem. rewrite Ha in Hrem. done.
Qed.

Lemma setId_Returned_inv a i w u w' :
  setId a i w = Returned u w' ->
  exists t, heap w !! a = Some t /\ w' = with_heap w (<[a := Thread_with_id t i]> (heap w)).
Proof.
  intros Hset. destruct (heap w !! a) as [t|] eqn:Ha.
  - rewrite (setId_live w a t i Ha) in Hset. injection Hset as <-. eauto.
  - unfold setId, bind, deref in Hset. rewrite Ha in Hset. done.
Qed.

Lemma setPlatformThread_Returned_inv a h w u w' :
  setPlatformThread a h w = Returned u w' ->
  exists t, heap w !! a = Some t /\
    w' = with_heap w (<[a := Thread_with_platformThread t h]> (heap w)).
Proof.
  intros Hset. destruct (heap w !! a) as [t|] eqn:Ha.
  - rewrite (setPlatformThread_live w a t h Ha) in Hset. injection Hset as <-. eauto.
  - unfold setPlatformThread, bind, deref in Hset. rewrite Ha in Hset. done.
Qed.

Lemma newThread_Returned_inv ctx f arg w a w' :
  newThread ctx f arg w = Returned a w' ->
  heap w !! a = None /\ a <> 0%N /\
  w' = with_heap w (<[a := newThreadObject ctx f arg]> (heap w)).
Proof.
  destruct (newThread_fresh w ctx f arg) as (b & Hb & Hnz & ->).
  intros [= <- <-]. done.
Qed.

Lemma allocateContext_Returned_inv c w a w' :
  allocateContext c w = Returned a w' ->
  contexts w !! a = None /\ w' = with_contexts w (<[a := c]> (contexts w)).
Proof.
  destruct (allocateContext_fresh w c) as (b & Hb & ->).
  intros [= <- <-]. done.
Qed.

Lemma getCompartmentFromContext_Returned_inv ctx w c w' :
  getCompartmentFromContext ctx w = Returned c w' ->
  w' = w /\ exists o, contexts w !! ctx = Some o /\ c = compartment o.
Proof.
  unfold getCompartmentFromContext. destruct (contexts w !! ctx) eqn:Hc; [|done].
  intros [= <- <-]. eauto.
Qed.

Lemma callPlatform_Returned_inv {A : Type} (primitive : P -> PlatformResult P A) w r w' :
  callPlatform primitive w = Returned r w' ->
  exists p, primitive (platform w) = PReturn r p /\ w' = with_platform w p.
Proof.
  unfold callPlatform. destruct (primitive (platform w)); try done.
  intros [= <- <-]. eauto.
Qed.

Lemma errorUnless_Returned_inv (condition : bool) w u w' :
  errorUnless condition w = Returned u w' -> condition = true /\ w' = w.
Proof. destruct condition; cbn; [|done]. unfold ret. intros [= <-]. done. Qed.

Lemma wavmAssert_Returned_inv (condition : bool) w u w' :
  wavmAssert condition w = Returned u w' -> condition = true /\ w' = w.
Proof. destruct condition; cbn; [|done]. unfold ret. intros [= <-]. done. Qed.

Lemma threads_add_Returned_inv failIndex a w i w' :
  threads_add failIndex a w = Returned i w' ->
  (IndexMap_allocate (threads w) = None /\ i = failIndex /\ w' = w) \/
  (exists t, heap w !! a = Some t /\ IndexMap_allocate (threads w) = Some i /\
     w' = with_threads
            (with_heap w (<[a := Thread_with_numRefs t (wrapUptr (numRefs t + 1))]> (heap w)))
            (IndexMap_with_slots (threads w) (<[i := Some a]> (slots (threads w))))).
Proof.
  intros Hadd. destruct (IndexMap_allocate (threads w)) as [j|] eqn:Halloc.
  - right. destruct (heap w !! a) as [t|] eqn:Ha.
    + rewrite (threads_add_spec w a t j failIndex Ha Halloc) in Hadd.
      injection Hadd as <- <-. eauto.
    + unfold threads_add in Hadd. rewrite Halloc in Hadd.
      unfold IntrusiveSharedPtr_acquire, addRef, bind, deref in Hadd.
      rewrite Ha in Hadd. done.
  - left. unfold threads_add in Hadd. rewrite Halloc in Hadd.
    injection Hadd as <- <-. done.
Qed.

Lemma allocateThreadId_Returned_inv self a w i w' :
  allocateThreadId self a w = Returned i w' ->
  exists t,
    threadsMutex w = None /\ heap w !! a = Some t /\
    IndexMap_allocate (threads w) = Some i /\ i <> 0%N /\
    w' = registered w a t i.
Proof.
  intros Halloc. unfold allocateThreadId in Halloc.
  apply withLock_Returned_inv in Halloc as (Hmutex & w1 & Hbody & ->).
  apply bind_Returned_inv in Hbody as (j & w2 & Hadd & Hbody).
  apply bind_Returned_inv in Hbody as (u & w3 & Hset & Hbody).
  apply bind_Returned_inv in Hbody as (t3 & w4 & Hd3 & Hbody).
  apply bind_Returned_inv in Hbody as (u' & w5 & Herr & Hbody).
  apply bind_Returned_inv in Hbody as (t5 & w6 & Hd5 & Hret).
  injection Hret as <- <-.
  apply deref_Returned_inv in Hd3 as (-> & a3 & [= <-] & Ha3).
  apply errorUnless_Returned_inv in Herr as (Hnz & ->).
  apply deref_Returned_inv in Hd5 as (-> & a5 & [= <-] & Ha5).
  rewrite Ha3 in Ha5. injection Ha5 as <-.
  apply setId_Returned_inv in Hset as (t2 & Ha2 & ->).
  cbn in Ha3. rewrite lookup_insert_eq in Ha3. injection Ha3 as <-.
  cbn in Hnz. apply negb_true_iff, N.eqb_neq in Hnz.
  apply threads_add_Returned_inv in Hadd as [(_ & -> & _)|(t & Ha & Hal & ->)]; [done|].
  cbn in Ha, Hal, Ha2. rewrite lookup_insert_eq in Ha2. injection Ha2 as <-.
  exists t. repeat split; try done.
  unfold registered. cbn. rewrite insert_insert_eq. reflexivity.
Qed.

End StepInversion.

(** ** createThread *)

Section CreateFacts.
Context {P : Type} `{!Platform P}.
Implicit Types (w : World P) (a : N) (t : Thread).

Lemma signatureMismatch_false entryFunction :
  signatureMismatch entryFunction = false <->
  exists f, entryFunction = Some f /\ encodedType f = mkFunctionType [i64] [i32].
Proof.
  unfold signatureMismatch. destruct entryFunction as [f|].
  - rewrite bool_decide_eq_false. split.
    + intros Hnn. exists f. split; [done|].
      destruct (decide (encodedType f = mkFunctionType [i64] [i32])); [done|].
      exfalso. auto.
    + intros (g & [= <-] & Hty) Hne. done.
  - split; [done|]. intros (f & Hf & _). done.
Qed.

Lemma createThread_Returned_inv self crd entryFunction entryArgument w r w' :
  createThread self crd entryFunction entryArgument w = Returned r w' ->
  exists f ctx newContext a i h p,
    entryFunction = Some f /\ encodedType f = mkFunctionType [i64] [i32] /\
    contexts w !! crd = Some ctx /\
    contexts w !! newContext = None /\
    heap w !! a = None /\ a <> 0%N /\
    threadsMutex w = None /\
    IndexMap_allocate (threads w) = Some i /\ i <> 0%N /\
    Platform_createThread numStackBytes threadEntryRoutine a (platform w) = PReturn h p /\
    r = asU64 i /\
    w' = createdWorld w newContext (compartment ctx) a entryFunction entryArgument i h p.
Proof.
  unfold createThread. intros Hcreate.
  destruct (signatureMismatch entryFunction) eqn:Hsig; [done|].
  apply signatureMismatch_false in Hsig as (f & Hf & Hty).
  apply bind_Returned_inv in Hcreate as (comp & w1 & Hcomp & Hcreate).
  apply bind_Returned_inv in Hcreate as (newContext & w2 & Hctx & Hcreate).
  apply bind_Returned_inv in Hcreate as (a & w3 & Hnew & Hcreate).
  apply bind_Returned_inv in Hcreate as (i & w4 & Halloc & Hcreate).
  apply bind_Returned_inv in Hcreate as (u5 & w5 & Hadd & Hcreate).
  apply bind_Returned_inv in Hcreate as (h & w6 & Hspawn & Hcreate).
  apply bind_Returned_inv in Hcreate as (u7 & w7 & Hset & Hcreate).
  apply bind_Returned_inv in Hcreate as (t8 & w8 & Hd & Hret).
  injection Hret as <- <-.
  apply getCompartmentFromContext_Returned_inv in Hcomp as (-> & ctx & Hcrd & ->).
  apply allocateContext_Returned_inv in Hctx as (Hfreshc & ->).
  apply newThread_Returned_inv in Hnew as (Hfresha & Hanz & ->).
  apply allocateThreadId_Returned_inv in Halloc as (t4 & Hmutex & Ha4 & Hal & Hinz & ->).
  cbn in Hfresha, Hmutex, Ha4, Hal.
  rewrite lookup_insert_eq in Ha4. injection Ha4 as <-.
  apply addRef_Returned_inv in Hadd as (t5 & Ha5 & ->).
  cbn in Ha5. rewrite lookup_insert_eq in Ha5. injection Ha5 as <-.
  apply callPlatform_Returned_inv in Hspawn as (p & Hspawn & ->).
  cbn in Hspawn.
  apply setPlatformThread_Returned_inv in Hset as (t7 & Ha7 & ->).
  cbn in Ha7. rewrite lookup_insert_eq in Ha7. injection Ha7 as <-.
  apply deref_Returned_inv in Hd as (-> & a8 & [= <-] & Ha8).
  cbn in Ha8. rewrite lookup_insert_eq in Ha8. injection Ha8 as <-.
  exists f, ctx, newContext, a, i, h, p.
  repeat split; try done.
  unfold createdWorld, createdThread, registered. cbn.
  rewrite !insert_insert_eq. reflexivity.
Qed.

Lemma createThread_spec self crd f entryArgument w ctx i :
  encodedType f = mkFunctionType [i64] [i32] ->
  contexts w !! crd = Some ctx ->
  threadsMutex w = None ->
  IndexMap_allocate (threads w) = Some i ->
  i <> 0%N ->
  exists newContext a,
    contexts w !! newContext = None /\ heap w !! a = None /\
    forall h p,
      Platform_createThread numStackBytes threadEntryRoutine a (platform w) = PReturn h p ->
      createThread self crd (Some f) entryArgument w =
      Returned (asU64 i)
        (createdWorld w newContext (compartment ctx) a (Some f) entryArgument i h p).
Proof.
  intros Hty Hcrd Hmutex Halloc Hinz.
  destruct (allocateContext_fresh w (mkContext (compartment ctx) None))
    as (newContext & Hfreshc & Hctx).
  destruct (newThread_fresh
              (with_contexts w (<[newContext := mkContext (compartment ctx) None]> (contexts w)))
              newContext (Some f) (valueOfI32 entryArgument))
    as (a & Hfresha & _ & Hnew).
  exists newContext, a. split; [done|]. split; [done|].
  intros h p Hspawn. unfold createThread.
  assert (Hsig : signatureMismatch (Some f) = false).
  { apply signatureMismatch_false. eauto. }
  rewrite Hsig.
  erewrite bind_Returned; [|apply getCompartmentFromContext_live; exact Hcrd].
  erewrite bind_Returned; [|exact Hctx].
  erewrite bind_Returned; [|exact Hnew].
  erewrite bind_Returned.
  2:{ eapply allocateThreadId_spec; cbn; [done|apply lookup_insert_eq|exact Halloc|done]. }
  erewrite bind_Returned; [|eapply addRef_live; cbn; apply lookup_insert_eq].
  erewrite bind_Returned; [|apply callPlatform_Returned; cbn; exact Hspawn].
  erewrite bind_Returned; [|eapply setPlatformThread_live; cbn; apply lookup_insert_eq].
  erewrite bind_Returned; [|eapply deref_live; cbn; apply lookup_insert_eq].
  unfold ret, createdWorld, createdThread. cbn.
  rewrite !insert_insert_eq. reflexivity.
Qed.

End CreateFacts.

(** ** forkThread *)

Section ForkFacts.
Context {P : Type} `{!Platform P}.
Implicit Types (w : World P) (a : N) (t : Thread).

Lemma acquire_release n :
  (n < UINTPTR_MAX)%N -> wrapUptr (wrapUptr (n + 1) + UINTPTR_MAX) = n.
Proof.
  unfold UINTPTR_MAX. intros Hn. rewrite wrapUptr_add_l.
  unfold wrapUptr, UINTPTR_MAX.
  replace (n + 1 + 18446744073709551615)%N with (n + 1 * 18446744073709551616)%N by lia.
  rewrite N.Div0.mod_add. apply N.mod_small. lia.
Qed.

Lemma Thread_with_numRefs_same t n k :
  numRefs t = n -> Thread_with_numRefs (Thread_with_numRefs t k) n = t.
Proof. destruct t. cbn. intros ->. done. Qed.

(** An object that gains a reference and then loses one is what it was. *)
Lemma releasedIn_acquired (h : gmap N Thread) a t :
  (0 < numRefs t < UINTPTR_MAX)%N ->
  releasedIn (<[a := Thread_with_numRefs t (wrapUptr (numRefs t + 1))]> h) a
    (Thread_with_numRefs t (wrapUptr (numRefs t + 1))) = <[a := t]> h.
Proof.
  intros Hn. unfold releasedIn. cbn [numRefs Thread_with_numRefs].
  rewrite acquire_release by lia.
  destruct (decide (numRefs t = 0%N)); [lia|].
  rewrite insert_insert_eq, Thread_with_numRefs_same by done. done.
Qed.

Lemma forkThread_prepare_spec self crd w ctx parentAddr parent :
  contexts w !! crd = Some ctx ->
  currentThread w !! self = Some parentAddr ->
  heap w !! parentAddr = Some parent ->
  exists newContext a,
    contexts w !! newContext = None /\ heap w !! a = None /\
    forkThread_prepare self crd w =
    Returned (mkForkLocals crd newContext a)
      (preparedWorld w newContext (compartment ctx) crd a parent).
Proof.
  intros Hcrd Hself Hparent.
  destruct (allocateContext_fresh w (mkContext (compartment ctx) (Some crd)))
    as (newContext & Hfreshc & Hctx).
  destruct (newThread_fresh
              (with_contexts w
                 (<[newContext := mkContext (compartment ctx) (Some crd)]> (contexts w)))
              newContext (entryFunction parent) (argument parent))
    as (a & Hfresha & _ & Hnew).
  exists newContext, a. split; [done|]. split; [done|].
  unfold forkThread_prepare, getContextFromRuntimeData, cloneContext.
  erewrite bind_Returned; [|apply getCompartmentFromContext_live; exact Hcrd].
  erewrite bind_Returned.
  2:{ erewrite bind_Returned; [|apply getCompartmentFromContext_live; exact Hcrd].
      exact Hctx. }
  cbn [currentThread with_contexts]. rewrite Hself.
  erewrite bind_Returned; [|reflexivity].
  erewrite bind_Returned; [|apply deref_live; cbn; exact Hparent].
  erewrite bind_Returned; [|exact Hnew].
  erewrite bind_Returned; [|eapply addRef_live; cbn; apply lookup_insert_eq].
  unfold ret, preparedWorld, forkedChild. cbn. rewrite insert_insert_eq. reflexivity.
Qed.

Lemma forkThread_parent_spec self locals h w ct i :
  threadsMutex w = None ->
  heap w !! forkChildThread locals = Some ct ->
  (0 < numRefs ct < UINTPTR_MAX)%N ->
  IndexMap_allocate (threads w) = Some i ->
  i <> 0%N ->
  forkThread_resume self locals (Some h) w =
  Returned (forkOldContext locals, asI64 i)
    (parentResumedWorld w (forkChildThread locals) ct i h).
Proof.
  intros Hmutex Hchild Hn Halloc Hinz. unfold forkThread_resume, getContextRuntimeData.
  erewrite bind_Returned; [|eapply setPlatformThread_live; exact Hchild].
  erewrite bind_Returned.
  2:{ eapply allocateThreadId_spec; cbn; [done|apply lookup_insert_eq|exact Halloc|done]. }
  erewrite bind_Returned; [|eapply removeRef_live; cbn; apply lookup_insert_eq].
  unfold ret, parentResumedWorld. cbn [with_heap registered heap threads threadsMutex
    currentThread contexts platform].
  rewrite insert_insert_eq.
  change (Thread_with_id
            (Thread_with_numRefs (Thread_with_platformThread ct (Some h))
               (wrapUptr (numRefs (Thread_with_platformThread ct (Some h)) + 1))) i)
    with (Thread_with_numRefs (Thread_with_id (Thread_with_platformThread ct (Some h)) i)
            (wrapUptr (numRefs (Thread_with_id (Thread_with_platformThread ct (Some h)) i) + 1))).
  rewrite releasedIn_acquired by done.
  reflexivity.
Qed.

Lemma forkThread_child_spec self locals w ct :
  heap w !! forkChildThread locals = Some ct ->
  (0 < numRefs ct < UINTPTR_MAX)%N ->
  currentThread w !! self = None ->
  forkThread_resume self locals None w =
  Returned (forkNewContext locals, 0%Z)
    (childResumedWorld w (forkChildThread locals) self).
Proof.
  intros Hchild Hn Hself.
  unfold forkThread_resume, getContextRuntimeData, setCurrentThread.
  erewrite bind_Returned.
  2:{ unfold assignCurrentThread. rewrite Hself.
      erewrite bind_Returned; [|eapply addRef_live; exact Hchild].
      erewrite bind_Returned; [|reflexivity].
      reflexivity. }
  erewrite bind_Returned; [|eapply removeRef_live; cbn; apply lookup_insert_eq].
  unfold ret, childResumedWorld. cbn [with_heap with_currentThread heap threads threadsMutex
    currentThread contexts platform].
  rewrite releasedIn_acquired by done.
  unfold with_heap, with_currentThread. cbn.
  rewrite (insert_id _ _ _ Hchild). reflexivity.
Qed.

Lemma forkThread_parent_Returned_inv self locals h w r w' :
  forkThread_resume self locals (Some h) w = Returned r w' ->
  exists i,
    threadsMutex w = None /\
    IndexMap_allocate (threads w) = Some i /\ i <> 0%N /\
    r = (forkOldContext locals, asI64 i) /\
    threads w' =
    IndexMap_with_slots (threads w) (<[i := Some (forkChildThread locals)]> (slots (threads w))).
Proof.
  unfold forkThread_resume, getContextRuntimeData. intros Hres.
  apply bind_Returned_inv in Hres as (u1 & w1 & Hset & Hres).
  apply bind_Returned_inv in Hres as (i & w2 & Halloc & Hres).
  apply bind_Returned_inv in Hres as (u3 & w3 & Hrem & Hret).
  injection Hret as <- <-.
  apply setPlatformThread_Returned_inv in Hset as (t1 & Ha1 & ->).
  apply allocateThreadId_Returned_inv in Halloc as (t2 & Hmutex & Ha2 & Hal & Hinz & ->).
  apply removeRef_Returned_inv in Hrem as (t3 & Ha3 & ->).
  exists i. cbn in *. done.
Qed.

End ForkFacts.

(** ** Claim C8 *)

Section Allocation.
Context {P : Type} `{!Platform P}.
Implicit Types (w : World P).

Lemma wrapUptr_bound x : (wrapUptr x < 18446744073709551616)%N.
Proof. unfold wrapUptr. apply N.mod_upper_bound. done. Qed.

Lemma asI64_zero x : asI64 x = 0%Z <-> wrapUptr x = 0%N.
Proof.
  unfold asI64. pose proof (wrapUptr_bound x) as Hb. cbn zeta.
  destruct (Z.ltb_spec (Z.of_N (wrapUptr x)) 9223372036854775808); lia.
Qed.

Lemma removal_world self w threadId w1 :
  (threadId < 18446744073709551616)%N ->
  threadsMutex w = None ->
  wellFormed w ->
  detachThread self threadId w = Returned tt w1 \/
  (exists code, joinThread self threadId w = Returned code w1) ->
  exists a t p,
    (1 <= threadId < UINTPTR_MAX)%N /\
    slots (threads w) !! threadId = Some (Some a) /\
    heap w !! a = Some t /\
    w1 = reconciledWorld w a t threadId p.
Proof.
  intros Hsmall Hmutex Hwf Hdone.
  pose proof (wrapUptr_small threadId Hsmall) as Hwrap.
  destruct (invalid_or_valid w threadId Hwf)
    as [Hbad|(Hnz & Hlt & a & t & Hslot & Ha & Hid)].
  - exfalso. destruct Hdone as [Hd|[code Hj]].
    + rewrite detachThread_invalid in Hd; rewrite ?Hwrap; done.
    + rewrite joinThread_invalid in Hj; rewrite ?Hwrap; done.
  - exists a, t.
    assert (Hrange : (1 <= threadId < UINTPTR_MAX)%N) by lia.
    rewrite <- Hwrap in Hnz, Hslot, Hid.
    destruct Hdone as [Hd|[code Hj]].
    + apply (detachThread_Returned_inv self w threadId a t Hmutex Hnz Hslot Ha Hid)
        in Hd as [p ->].
      exists p. rewrite Hwrap in *. done.
    + apply (joinThread_Returned_inv self w threadId a t Hmutex Hnz Hslot Ha Hid)
        in Hj as (p & _ & ->).
      exists p. rewrite Hwrap in *. done.
Qed.

Lemma allocate_smallest_positive w i :
  wellFormed w ->
  IndexMap_allocate (threads w) = Some i ->
  i <> 0%N /\ (i < UINTPTR_MAX)%N /\ slots (threads w) !! i = None /\
  (forall k, (0 < k < i)%N -> is_Some (slots (threads w) !! k)).
Proof.
  intros (Hmin & Hmax & _) Halloc.
  apply IndexMap_allocate_Some in Halloc as (Hrange & Hfree & Hbelow).
  rewrite Hmin, Hmax in Hrange. rewrite Hmin in Hbelow.
  repeat split; [lia|lia|done|]. intros k Hk. apply Hbelow. lia.
Qed.

End Allocation.

(** C8: the registry gives the smallest positive index that is not in use,
    and never zero: an id that allocateThreadId, createThread or forkThread
    (on the original stack) returns is nonzero, was mapped to no thread when
    the call began, has every smaller positive id in use, and is mapped when
    the call returns; allocateThreadId returns whenever the registry has
    room; and after a successful join or detach of an id the allocation
    gives an id that is no larger, and that very id when all smaller ones
    are in use. *)
Theorem thread_ids_smallest_free {P : Type} `{!Platform P} (w : World P) :
  wellFormed w ->
  (forall self a i w',
     allocateThreadId self a w = Returned i w' ->
     i <> 0%N /\ slots (threads w) !! i = None /\
     (forall k, (0 < k < i)%N -> is_Some (slots (threads w) !! k)) /\
     slots (threads w') = <[i := Some a]> (slots (threads w))) /\
  (forall self a,
     threadsMutex w = None -> is_Some (heap w !! a) -> hasRoom w ->
     exists i w', allocateThreadId self a w = Returned i w') /\
  (forall self crd entryFunction entryArgument r w',
     createThread self crd entryFunction entryArgument w = Returned r w' ->
     r <> 0%N /\ slots (threads w) !! r = None /\
     (forall k, (0 < k < r)%N -> is_Some (slots (threads w) !! k)) /\
     is_Some (slots (threads w') !! r)) /\
  (forall self locals h r w',
     forkThread_resume self locals (Some h) w = Returned r w' ->
     snd r <> 0%Z /\
     exists i,
       snd r = asI64 i /\ i <> 0%N /\ slots (threads w) !! i = None /\
       (forall k, (0 < k < i)%N -> is_Some (slots (threads w) !! k)) /\
       is_Some (slots (threads w') !! i)) /\
  (forall self threadId w1,
     (threadId < 18446744073709551616)%N ->
     threadsMutex w = None ->
     detachThread self threadId w = Returned tt w1 \/
     (exists code, joinThread self threadId w = Returned code w1) ->
     exists j,
       IndexMap_allocate (threads w1) = Some j /\ (j <= threadId)%N /\
       ((forall k, (0 < k < threadId)%N -> is_Some (slots (threads w1) !! k)) ->
        j = threadId) /\
       (forall self' a', is_Some (heap w1 !! a') ->
          exists w2, allocateThreadId self' a' w1 = Returned j w2)).
Proof.
  intros Hwf. split; [|split; [|split; [|split]]].
  - intros self a i w' Halloc.
    apply allocateThreadId_Returned_inv in Halloc as (t & _ & _ & Hal & _ & ->).
    destruct (allocate_smallest_positive w i Hwf Hal) as (? & _ & ? & ?).
    done.
  - intros self a Hmutex [t Ha] Hroom.
    destruct Hwf as (Hmin & Hmax & _).
    destruct (IndexMap_allocate_room (threads w)) as [i Hal].
    { unfold hasRoom in Hroom. rewrite Hmin. lia. }
    assert (i <> 0%N).
    { apply IndexMap_allocate_Some in Hal as (Hr & _). rewrite Hmin in Hr. lia. }
    exists i. eexists. apply allocateThreadId_spec; eauto.
  - intros self crd ef arg r w' Hcreate.
    apply createThread_Returned_inv in Hcreate
      as (f & ctx & nc & a & i & h & p & _ & _ & _ & _ & _ & _ & _ & Hal & _ & _ & -> & ->).
    destruct (allocate_smallest_positive w i Hwf Hal) as (Hnz & Hlt & Hfree & Hbelow).
    unfold asU64. rewrite (UINTPTR_MAX_small i Hlt).
    repeat split; try done. cbn. rewrite lookup_insert_eq. eauto.
  - intros self locals h r w' Hres.
    apply forkThread_parent_Returned_inv in Hres as (i & _ & Hal & _ & -> & Hthreads).
    destruct (allocate_smallest_positive w i Hwf Hal) as (Hnz & Hlt & Hfree & Hbelow).
    cbn [snd]. split.
    + rewrite asI64_zero, (UINTPTR_MAX_small i Hlt). done.
    + exists i. repeat split; try done.
      rewrite Hthreads. cbn. rewrite lookup_insert_eq. eauto.
  - intros self threadId w1 Hsmall Hmutex Hdone.
    destruct (removal_world self w threadId w1 Hsmall Hmutex Hwf Hdone)
      as (a & t & p & Hrange & Hslot & Ha & ->).
    destruct Hwf as (Hmin & Hmax & _).
    destruct (IndexMap_allocate_free
                (threads (reconciledWorld w a t threadId p)) threadId)
      as (j & Hal & Hle).
    { cbn. rewrite Hmin, Hmax. done. }
    { cbn. apply lookup_delete_eq. }
    exists j. split; [done|]. split; [done|].
    pose proof (IndexMap_allocate_Some _ _ Hal) as (Hjr & Hjfree & _).
    cbn in Hjr. rewrite Hmin in Hjr. split.
    + intros Hfull. destruct (decide (j = threadId)) as [|Hne]; [done|].
      destruct (Hfull j) as [v Hv]; [lia|]. congruence.
    + intros self' a' [t' Ha']. eexists.
      apply (allocateThreadId_spec self' _ a' t' j); try done. lia.
Qed.

Lemma thread_ids_smallest_free_witness :
  wellFormed spawnedWorld /\
  exists i w', allocateThreadId 100 1 spawnedWorld = Returned i w'.
Proof.
  assert (H : wellFormed spawnedWorld)
    by (apply (bool_decide_unpack _); vm_compute; exact I).
  split; [exact H|].
  apply (proj1 (proj2 (thread_ids_smallest_free spawnedWorld H)) 100%N 1%N).
  - reflexivity.
  - exists spawnedThread. reflexivity.
  - vm_compute. reflexivity.
Defined.

(** ** Claim C6 *)

Section EntryFacts.
Context {P : Type}.
Implicit Types (w : World P) (a : N) (t : Thread).

Lemma threadEntry_spec self a w t :
  heap w !! a = Some t ->
  (0 < numRefs t < UINTPTR_MAX)%N ->
  currentThread w !! self = None ->
  threadEntry self a w =
  Returned (mkInvocation (context t) (entryFunction t) (argument t))
    (with_currentThread w (<[self := a]> (currentThread w))).
Proof.
  intros Ha Hn Hself. unfold threadEntry.
  erewrite bind_Returned.
  2:{ unfold assignCurrentThread. rewrite Hself.
      erewrite bind_Returned; [|eapply addRef_live; exact Ha].
      erewrite bind_Returned; [|reflexivity].
      reflexivity. }
  erewrite bind_Returned; [|eapply removeRef_live; cbn; apply lookup_insert_eq].
  cbn [with_heap with_currentThread heap threads threadsMutex currentThread contexts
    platform].
  rewrite releasedIn_acquired by done.
  erewrite bind_Returned; [|eapply deref_live; cbn; apply lookup_insert_eq].
  unfold ret, with_heap, with_currentThread. cbn.
  rewrite (insert_id _ _ _ Ha). reflexivity.
Qed.

(** No slot and no currentThread of a well-formed world points to an address
    that holds no object. *)
Lemma fresh_address_unheld w a :
  wellFormed w -> heap w !! a = None ->
  registryHolders w a = 0 /\ locatorHolders w a = 0.
Proof.
  intros Hwf Hfresh. split.
  - apply holders_absent. intros i Hslot.
    destruct (wellFormed_slot w i _ Hwf Hslot) as (_ & b & t & [= <-] & Hb & _).
    congruence.
  - apply holders_absent. intros s Hs.
    destruct (wellFormed_locator w s a Hwf Hs) as [t Ht]. congruence.
Qed.

End EntryFacts.

(** C6: a createThread call that passes the signature check, in a
    well-formed world with room in the registry, makes a new context in the
    compartment of the calling context and a new object that owns this
    context, the entry function and the argument; when it returns, the
    object is registered under the returned id, which is nonzero and was not
    in use, its count is two - one reference held by the registry slot, one
    for the spawned OS thread - and the platform was asked to run
    threadEntry on the object.  threadEntry, run by the spawned OS thread,
    makes the object its currentThread, releases the spawn-time reference
    (the count is two again, now held by the slot and the currentThread) and
    invokes the entry function with the argument in the new context. *)
Theorem createThread_registers_and_spawns {P : Type} `{!Platform P}
    (self : N) (contextRuntimeData : N) (f : Function) (entryArgument : Z)
    (w : World P) (ctx : Context) :
  encodedType f = mkFunctionType [i64] [i32] ->
  contexts w !! contextRuntimeData = Some ctx ->
  threadsMutex w = None ->
  wellFormed w ->
  hasRoom w ->
  exists newContext a i,
    contexts w !! newContext = None /\
    heap w !! a = None /\
    i <> 0%N /\
    slots (threads w) !! i = None /\
    forall h p,
      Platform_createThread numStackBytes threadEntryRoutine a (platform w) = PReturn h p ->
      currentThread w !! h = None ->
      exists w1 w2,
        createThread self contextRuntimeData (Some f) entryArgument w = Returned i w1 /\
        contexts w1 !! newContext = Some (mkContext (compartment ctx) None) /\
        heap w1 !! a =
          Some (mkThread i 2 (Some h) newContext (Some f) (valueOfI32 entryArgument)) /\
        slots (threads w1) !! i = Some (Some a) /\
        platform w1 = p /\
        registryHolders w1 a = 1 /\ locatorHolders w1 a = 0 /\
        heldByCalls w1 a = Some 1%Z /\
        threadEntry h a w1 =
          Returned (mkInvocation newContext (Some f) (valueOfI32 entryArgument)) w2 /\
        currentThread w2 !! h = Some a /\
        heap w2 !! a =
          Some (mkThread i 2 (Some h) newContext (Some f) (valueOfI32 entryArgument)) /\
        registryHolders w2 a = 1 /\ locatorHolders w2 a = 1 /\
        heldByCalls w2 a = Some 0%Z.
Proof.
  intros Hty Hcrd Hmutex Hwf Hroom.
  pose proof Hwf as (Hmin & Hmax & _).
  destruct (IndexMap_allocate_room (threads w)) as [i Hal].
  { unfold hasRoom in Hroom. rewrite Hmin. lia. }
  destruct (allocate_smallest_positive w i Hwf Hal) as (Hinz & Hilt & Hifree & _).
  destruct (createThread_spec self contextRuntimeData f entryArgument w ctx i
              Hty Hcrd Hmutex Hal Hinz)
    as (newContext & a & Hfreshc & Hfresha & Hcreate).
  exists newContext, a, i. do 4 (split; [done|]).
  intros h p Hspawn Hloc.
  specialize (Hcreate h p Hspawn).
  unfold asU64 in Hcreate. rewrite (UINTPTR_MAX_small i Hilt) in Hcreate.
  destruct (fresh_address_unheld w a Hwf Hfresha) as [Hreg0 Hloc0].
  set (w1 := createdWorld w newContext (compartment ctx) a (Some f) entryArgument i h p)
    in *.
  assert (Ha1 : heap w1 !! a =
            Some (mkThread i 2 (Some h) newContext (Some f) (valueOfI32 entryArgument))).
  { cbn. rewrite lookup_insert_eq. done. }
  assert (Hreg1 : registryHolders w1 a = 1).
  { unfold registryHolders. cbn. rewrite holders_insert_new by done.
    unfold registryHolders in Hreg0. rewrite Hreg0. done. }
  assert (Hloc1 : locatorHolders w1 a = 0) by exact Hloc0.
  exists w1, (with_currentThread w1 (<[h := a]> (currentThread w1))).
  split; [exact Hcreate|].
  split; [cbn; apply lookup_insert_eq|].
  split; [exact Ha1|].
  split; [cbn; apply lookup_insert_eq|].
  split; [done|]. split; [done|]. split; [done|].
  split; [unfold heldByCalls; rewrite Ha1, Hreg1, Hloc1; done|].
  split.
  { rewrite (threadEntry_spec h a w1 _ Ha1); [done|cbn; unfold UINTPTR_MAX; lia|done]. }
  assert (Hloc2 : locatorHolders (with_currentThread w1 (<[h := a]> (currentThread w1))) a = 1).
  { unfold locatorHolders. cbn. rewrite holders_insert_new by done.
    unfold locatorHolders in Hloc0. rewrite Hloc0. done. }
  split; [cbn; apply lookup_insert_eq|].
  split; [exact Ha1|].
  split; [exact Hreg1|]. split; [exact Hloc2|].
  unfold heldByCalls. cbn [heap with_currentThread]. rewrite Ha1.
  change (registryHolders (with_currentThread w1 (<[h := a]> (currentThread w1))) a)
    with (registryHolders w1 a).
  rewrite Hreg1, Hloc2. done.
Qed.

Lemma createThread_registers_and_spawns_witness :
  encodedType entryFunctionOk = mkFunctionType [i64] [i32] /\
  contexts initialWorld !! 1%N = Some (mkContext 7 None) /\
  threadsMutex initialWorld = None /\
  wellFormed initialWorld /\
  hasRoom initialWorld /\
  exists newContext a i,
    contexts initialWorld !! newContext = None /\
    heap initialWorld !! a = None /\
    i <> 0%N /\
    slots (threads initialWorld) !! i = None.
Proof.
  assert (H1 : encodedType entryFunctionOk = mkFunctionType [i64] [i32]) by reflexivity.
  assert (H2 : contexts initialWorld !! 1%N = Some (mkContext 7 None)) by reflexivity.
  assert (H3 : threadsMutex initialWorld = None) by reflexivity.
  assert (H4 : wellFormed initialWorld)
    by (apply (bool_decide_unpack _); vm_compute; exact I).
  assert (H5 : hasRoom initialWorld) by (vm_compute; reflexivity).
  repeat (split; [assumption|]).
  destruct (createThread_registers_and_spawns 100 1 entryFunctionOk 42 initialWorld
              (mkContext 7 None) H1 H2 H3 H4 H5)
    as (newContext & a & i & Hc & Ha & Hi & Hs & _).
  exists newContext, a, i. repeat split; assumption.
Defined.

(** ** The stages of a forkThread call *)

Section ForkStages.
Context {P : Type} `{!Platform P}.
Implicit Types (w : World P).

Lemma forkThread_stages self crd w ctx parentAddr parent :
  contexts w !! crd = Some ctx ->
  currentThread w !! self = Some parentAddr ->
  heap w !! parentAddr = Some parent ->
  threadsMutex w = None ->
  wellFormed w ->
  hasRoom w ->
  exists newContext child i,
    contexts w !! newContext = None /\
    heap w !! child = None /\
    i <> 0%N /\ (i < UINTPTR_MAX)%N /\
    slots (threads w) !! i = None /\
    forall h p,
      Platform_forkCurrentThread self (platform w) = PReturn h p ->
      currentThread w !! h = None ->
      let locals := mkForkLocals crd newContext child in
      let ct := forkedChild newContext parent in
      let wp := preparedWorld w newContext (compartment ctx) crd child parent in
      let w0 := with_platform wp p in
      let wP := parentResumedWorld w0 child ct i h in
      let wC := childResumedWorld w0 child h in
      let wB := childResumedWorld wP child h in
      forkThread_prepare self crd w = Returned locals wp /\
      forkThread_fork self crd w = Returned (locals, h) w0 /\
      forkThread_resume self locals (Some h) w0 = Returned (crd, asI64 i) wP /\
      forkThread_resume h locals None w0 = Returned (newContext, 0%Z) wC /\
      forkThread_resume h locals None wP = Returned (newContext, 0%Z) wB /\
      forkThread_resume self locals (Some h) wC = Returned (crd, asI64 i) wB.
Proof.
  intros Hcrd Hself Hparent Hmutex Hwf Hroom.
  pose proof Hwf as (Hmin & Hmax & _).
  destruct (IndexMap_allocate_room (threads w)) as [i Hal].
  { unfold hasRoom in Hroom. rewrite Hmin. lia. }
  destruct (allocate_smallest_positive w i Hwf Hal) as (Hinz & Hilt & Hifree & _).
  destruct (forkThread_prepare_spec self crd w ctx parentAddr parent Hcrd Hself Hparent)
    as (newContext & child & Hfreshc & Hfresha & Hprep).
  exists newContext, child, i. do 5 (split; [done|]).
  intros h p Hfork Hloc locals ct wp w0 wP wC wB.
  assert (Hcount : (0 < numRefs ct < UINTPTR_MAX)%N) by (cbn; unfold UINTPTR_MAX; lia).
  split; [exact Hprep|]. split.
  { unfold forkThread_fork. erewrite bind_Returned; [|exact Hprep].
    erewrite bind_Returned; [|apply callPlatform_Returned; cbn; exact Hfork].
    reflexivity. }
  split.
  { apply (forkThread_parent_spec self locals h w0 ct i); cbn; try done.
    apply lookup_insert_eq. }
  split.
  { apply (forkThread_child_spec h locals w0 ct); cbn; try done.
    apply lookup_insert_eq. }
  split.
  { apply (forkThread_child_spec h locals wP
             (Thread_with_id (Thread_with_platformThread ct (Some h)) i)); cbn; try done.
    apply lookup_insert_eq. }
  { assert (Hres := forkThread_parent_spec self locals h wC ct i).
    rewrite Hres; cbn; try done.
    apply lookup_insert_eq. }
Qed.

End ForkStages.

(** ** Claim C1 *)

(** C1: a forkThread call by an OS thread that has a currentThread object,
    in a well-formed world with room in the registry, returns twice when the
    fork primitive yields a handle: on the duplicated stack with 0, on the
    original stack with one id, which is nonzero and was mapped to no thread
    before the call; this holds whichever of the two returns runs first.
    The child object is new, is registered under that id, is the
    currentThread of the new OS thread, owns a new context cloned from the
    calling context (the context of the parent object when the call is made
    in it) in the same compartment, and has the entry function and the
    argument the parent object had when the call was made; the parent object
    and the parent's currentThread are left as they were. *)
Theorem forkThread_returns_twice {P : Type} `{!Platform P}
    (self : N) (contextRuntimeData : N) (w : World P)
    (ctx : Context) (parentAddr : N) (parent : Thread) :
  contexts w !! contextRuntimeData = Some ctx ->
  currentThread w !! self = Some parentAddr ->
  heap w !! parentAddr = Some parent ->
  threadsMutex w = None ->
  wellFormed w ->
  hasRoom w ->
  exists newContext child i,
    contexts w !! newContext = None /\
    heap w !! child = None /\
    i <> 0%N /\ asI64 i <> 0%Z /\
    slots (threads w) !! i = None /\
    forall h p,
      Platform_forkCurrentThread self (platform w) = PReturn h p ->
      currentThread w !! h = None ->
      exists w',
        (forall parentFirst,
           forkThread parentFirst self contextRuntimeData w =
           Returned ((contextRuntimeData, asI64 i), (newContext, 0%Z)) w') /\
        slots (threads w') !! i = Some (Some child) /\
        currentThread w' !! h = Some child /\
        heap w' !! child =
          Some (mkThread i 2 (Some h) newContext (entryFunction parent) (argument parent)) /\
        contexts w' !! newContext =
          Some (mkContext (compartment ctx) (Some contextRuntimeData)) /\
        (context parent = contextRuntimeData ->
         contexts w' !! newContext =
           Some (mkContext (compartment ctx) (Some (context parent)))) /\
        currentThread w' !! self = Some parentAddr /\
        heap w' !! parentAddr = Some parent.
Proof.
  intros Hcrd Hself Hparent Hmutex Hwf Hroom.
  destruct (forkThread_stages self contextRuntimeData w ctx parentAddr parent
              Hcrd Hself Hparent Hmutex Hwf Hroom)
    as (newContext & child & i & Hfreshc & Hfresha & Hinz & Hilt & Hifree & Hstages).
  exists newContext, child, i.
  split; [done|]. split; [done|]. split; [done|].
  split; [rewrite asI64_zero, (UINTPTR_MAX_small i Hilt); done|].
  split; [done|].
  intros h p Hfork Hloc.
  destruct (Hstages h p Hfork Hloc) as (_ & Hforked & HP & HC & HPC & HCP).
  eexists. split.
  { intros parentFirst. unfold forkThread.
    erewrite bind_Returned; [|exact Hforked]. cbn [fst snd].
    destruct parentFirst.
    - erewrite bind_Returned; [|exact HP].
      erewrite bind_Returned; [|exact HPC]. reflexivity.
    - erewrite bind_Returned; [|exact HC].
      erewrite bind_Returned; [|exact HCP]. reflexivity. }
  assert (Hne : child <> parentAddr) by congruence.
  assert (Hne' : h <> self) by congruence.
  cbn.
  split; [apply lookup_insert_eq|].
  split; [apply lookup_insert_eq|].
  split; [rewrite lookup_insert_eq; done|].
  split; [apply lookup_insert_eq|].
  split; [intros ->; apply lookup_insert_eq|].
  split; [rewrite lookup_insert_ne by done; done|].
  rewrite !lookup_insert_ne by done. done.
Qed.

Lemma forkThread_returns_twice_witness :
  contexts runningWorld !! 2%N = Some (mkContext 7 None) /\
  currentThread runningWorld !! 1%N = Some 1%N /\
  heap runningWorld !! 1%N = Some spawnedThread /\
  threadsMutex runningWorld = None /\
  wellFormed runningWorld /\
  hasRoom runningWorld /\
  exists newContext child i,
    contexts runningWorld !! newContext = None /\
    heap runningWorld !! child = None /\
    i <> 0%N /\ asI64 i <> 0%Z /\
    slots (threads runningWorld) !! i = None.
Proof.
  assert (H1 : contexts runningWorld !! 2%N = Some (mkContext 7 None)) by reflexivity.
  assert (H2 : currentThread runningWorld !! 1%N = Some 1%N) by reflexivity.
  assert (H3 : heap runningWorld !! 1%N = Some spawnedThread) by reflexivity.
  assert (H4 : threadsMutex runningWorld = None) by reflexivity.
  assert (H5 : wellFormed runningWorld)
    by (apply (bool_decide_unpack _); vm_compute; exact I).
  assert (H6 : hasRoom runningWorld) by (vm_compute; reflexivity).
  repeat (split; [assumption|]).
  destruct (forkThread_returns_twice 1 2 runningWorld (mkContext 7 None) 1 spawnedThread
              H1 H2 H3 H4 H5 H6)
    as (newContext & child & i & Hc & Ha & Hi & Hi' & Hs & _).
  exists newContext, child, i. repeat split; assumption.
Defined.

(** The scenario of the spec: forkThread by the thread with id 1 gives the
    parent the id 2, the child 0, and the registry maps 2 afterwards. *)
Example forkThread_scenario :
  exists w',
    forkThread true 1 2 runningWorld = Returned ((2%N, 2%Z), (3%N, 0%Z)) w' /\
    forkThread false 1 2 runningWorld = Returned ((2%N, 2%Z), (3%N, 0%Z)) w' /\
    slots (threads w') !! 2%N = Some (Some 2%N).
Proof. eexists. split; [vm_compute; reflexivity|]. split; vm_compute; reflexivity. Qed.

(** ** Claim C2 *)

(** C2: forkThread raises the count of the child object it has just made
    (count zero, held by nobody) by two before it calls the fork primitive:
    at the call the count is two, and neither the registry nor a
    currentThread accounts for any of it.  Each continuation then gives up
    one of the two: on the original stack the registry slot takes a
    reference and the count stays two, on the duplicated stack the
    currentThread takes one and the count stays two, so each leaves one
    reference held by a call; after both, in either order, the count is two,
    held by the slot and the currentThread, and no call holds any. *)
Theorem forkThread_reference_pairing {P : Type} `{!Platform P}
    (self : N) (contextRuntimeData : N) (w : World P)
    (ctx : Context) (parentAddr : N) (parent : Thread) :
  contexts w !! contextRuntimeData = Some ctx ->
  currentThread w !! self = Some parentAddr ->
  heap w !! parentAddr = Some parent ->
  threadsMutex w = None ->
  wellFormed w ->
  hasRoom w ->
  exists locals wp,
    let child := forkChildThread locals in
    heap w !! child = None /\
    forkThread_prepare self contextRuntimeData w = Returned locals wp /\
    (numRefs <$> heap wp !! child) = Some 2%N /\
    forall h p,
      Platform_forkCurrentThread self (platform w) = PReturn h p ->
      currentThread w !! h = None ->
      exists w0 rP wP rC wC wB,
        forkThread_fork self contextRuntimeData w = Returned (locals, h) w0 /\
        heap w0 = heap wp /\
        registryHolders w0 child = 0 /\ locatorHolders w0 child = 0 /\
        heldByCalls w0 child = Some 2%Z /\
        forkThread_resume self locals (Some h) w0 = Returned rP wP /\
        (numRefs <$> heap wP !! child) = Some 2%N /\
        registryHolders wP child = 1 /\ locatorHolders wP child = 0 /\
        heldByCalls wP child = Some 1%Z /\
        forkThread_resume h locals None w0 = Returned rC wC /\
        (numRefs <$> heap wC !! child) = Some 2%N /\
        registryHolders wC child = 0 /\ locatorHolders wC child = 1 /\
        heldByCalls wC child = Some 1%Z /\
        forkThread_resume h locals None wP = Returned rC wB /\
        forkThread_resume self locals (Some h) wC = Returned rP wB /\
        (numRefs <$> heap wB !! child) = Some 2%N /\
        registryHolders wB child = 1 /\ locatorHolders wB child = 1 /\
        heldByCalls wB child = Some 0%Z.
Proof.
  intros Hcrd Hself Hparent Hmutex Hwf Hroom.
  destruct (forkThread_stages self contextRuntimeData w ctx parentAddr parent
              Hcrd Hself Hparent Hmutex Hwf Hroom)
    as (newContext & child & i & Hfreshc & Hfresha & Hinz & Hilt & Hifree & Hstages).
  destruct (forkThread_prepare_spec self contextRuntimeData w ctx parentAddr parent
              Hcrd Hself Hparent)
    as (newContext' & child' & _ & Hfresha' & Hprep).
  exists (mkForkLocals contextRuntimeData newContext' child').
  eexists. cbn zeta. cbn [forkChildThread].
  split; [exact Hfresha'|]. split; [exact Hprep|].
  split; [cbn; rewrite lookup_insert_eq; done|].
  intros h p Hfork Hloc.
  destruct (Hstages h p Hfork Hloc) as (Hprep2 & Hforked & HP & HC & HPC & HCP).
  rewrite Hprep in Hprep2. injection Hprep2 as <- <-.
  destruct (fresh_address_unheld w child' Hwf Hfresha') as [Hreg0 Hloc0].
  unfold registryHolders in Hreg0. unfold locatorHolders in Hloc0.
  do 6 eexists.
  split; [exact Hforked|]. split; [reflexivity|].
  assert (Hreg1 : size (filter (fun kv : N * option N => snd kv = Some child')
                          (<[i := Some child']> (slots (threads w)))) = 1).
  { rewrite holders_insert_new by done. rewrite Hreg0. done. }
  assert (Hloc1 : size (filter (fun kv : N * N => snd kv = child')
                          (<[h := child']> (currentThread w))) = 1).
  { rewrite holders_insert_new by done. rewrite Hloc0. done. }
  split; [exact Hreg0|]. split; [exact Hloc0|].
  split.
  { unfold heldByCalls, registryHolders, locatorHolders. cbn.
    rewrite lookup_insert_eq, Hreg0, Hloc0. done. }
  split; [exact HP|].
  split; [cbn; rewrite lookup_insert_eq; done|].
  split; [exact Hreg1|]. split; [exact Hloc0|].
  split.
  { unfold heldByCalls, registryHolders, locatorHolders. cbn.
    rewrite lookup_insert_eq, Hreg1, Hloc0. done. }
  split; [exact HC|].
  split; [cbn; rewrite lookup_insert_eq; done|].
  split; [exact Hreg0|]. split; [exact Hloc1|].
  split.
  { unfold heldByCalls, registryHolders, locatorHolders. cbn.
    rewrite lookup_insert_eq, Hreg0, Hloc1. done. }
  split; [exact HPC|]. split; [exact HCP|].
  split; [cbn; rewrite lookup_insert_eq; done|].
  split; [exact Hreg1|]. split; [exact Hloc1|].
  unfold heldByCalls, registryHolders, locatorHolders. cbn.
  rewrite lookup_insert_eq, Hreg1, Hloc1. done.
Qed.

Lemma forkThread_reference_pairing_witness :
  contexts runningWorld !! 2%N = Some (mkContext 7 None) /\
  currentThread runningWorld !! 1%N = Some 1%N /\
  heap runningWorld !! 1%N = Some spawnedThread /\
  threadsMutex runningWorld = None /\
  wellFormed runningWorld /\
  hasRoom runningWorld /\
  exists locals wp,
    forkThread_prepare 1 2 runningWorld = Returned locals wp /\
    (numRefs <$> heap wp !! forkChildThread locals) = Some 2%N.
Proof.
  assert (H1 : contexts runningWorld !! 2%N = Some (mkContext 7 None)) by reflexivity.
  assert (H2 : currentThread runningWorld !! 1%N = Some 1%N) by reflexivity.
  assert (H3 : heap runningWorld !! 1%N = Some spawnedThread) by reflexivity.
  assert (H4 : threadsMutex runningWorld = None) by reflexivity.
  assert (H5 : wellFormed runningWorld)
    by (apply (bool_decide_unpack _); vm_compute; exact I).
  assert (H6 : hasRoom runningWorld) by (vm_compute; reflexivity).
  repeat (split; [assumption|]).
  destruct (forkThread_reference_pairing 1 2 runningWorld (mkContext 7 None) 1 spawnedThread
              H1 H2 H3 H4 H5 H6)
    as (locals & wp & _ & Hprep & Hcount & _).
  exists locals, wp. split; assumption.
Defined.

(** ** Claim C7 *)

(** C7: for an id mapped in a well-formed registry, with any platform:
    while [Platform::joinThread] waits for the target's handle, joinThread
    has not returned and still holds the reference it took from the
    registry; when the primitive yields a code, joinThread returns exactly
    that code, the id is unmapped, the handle of the object is cleared and
    the reference is released (the object is destroyed if it was the last);
    when the primitive throws, joinThread throws the same and the reference
    is released all the same; and joinThread returns in no other way.  With
    the table of OS threads as the platform: joinThread is blocked as long
    as the target has no exit code, and returns the exit code of the target
    once it has one. *)
Theorem joinThread_returns_exit_code :
  (forall (P : Type) (HP : Platform P) (self : N) (w : World P) (threadId a : N)
          (t : Thread),
     (threadId < 18446744073709551616)%N ->
     threadsMutex w = None ->
     wellFormed w ->
     slots (threads w) !! threadId = Some (Some a) ->
     heap w !! a = Some t ->
     (Platform_joinThread (platformThread t) (platform w) = PWait ->
      exists w1,
        joinThread self threadId w = Blocked w1 /\
        slots (threads w1) !! threadId = None /\
        (numRefs <$> heap w1 !! a) = Some (numRefs t)) /\
     (forall code p,
        Platform_joinThread (platformThread t) (platform w) = PReturn code p ->
        exists w',
          joinThread self threadId w = Returned code w' /\
          platform w' = p /\
          threadsMutex w' = None /\
          slots (threads w') !! threadId = None /\
          heap w' !! a =
            if decide (wrapUptr (numRefs t + UINTPTR_MAX) = 0%N)
            then None
            else Some (mkThread UINTPTR_MAX (wrapUptr (numRefs t + UINTPTR_MAX)) None
                         (context t) (entryFunction t) (argument t))) /\
     (forall tag p,
        Platform_joinThread (platformThread t) (platform w) = PThrow tag p ->
        exists w',
          joinThread self threadId w = Threw (calleeException tag) w' /\
          threadsMutex w' = None /\
          slots (threads w') !! threadId = None /\
          heap w' !! a =
            if decide (wrapUptr (numRefs t + UINTPTR_MAX) = 0%N)
            then None
            else Some (mkThread UINTPTR_MAX (wrapUptr (numRefs t + UINTPTR_MAX))
                         (platformThread t)
                         (context t) (entryFunction t) (argument t))) /\
     (forall code w',
        joinThread self threadId w = Returned code w' ->
        exists p, Platform_joinThread (platformThread t) (platform w) = PReturn code p)) /\
  (forall (self : N) (w : World (gmap N OSThread)) (threadId a : N) (t : Thread)
          (h : N) (target : OSThread),
     (threadId < 18446744073709551616)%N ->
     threadsMutex w = None ->
     wellFormed w ->
     slots (threads w) !! threadId = Some (Some a) ->
     heap w !! a = Some t ->
     platformThread t = Some h ->
     platform w !! h = Some target ->
     (exitCode target = None ->
      exists w1, joinThread self threadId w = Blocked w1) /\
     (forall code,
        exitCode target = Some code ->
        exists w', joinThread self threadId w = Returned code w') /\
     (forall code w',
        joinThread self threadId w = Returned code w' -> exitCode target = Some code)).
Proof.
  assert (Hgeneric : forall (P : Type) (HP : Platform P) (self : N) (w : World P)
            (threadId a : N) (t : Thread),
            (threadId < 18446744073709551616)%N ->
            threadsMutex w = None ->
            wellFormed w ->
            slots (threads w) !! threadId = Some (Some a) ->
            heap w !! a = Some t ->
            joinThread self threadId w =
            match Platform_joinThread (platformThread t) (platform w) with
            | PReturn code p => Returned code (reconciledWorld w a t threadId p)
            | PThrow tag p => Threw (calleeException tag) (unwoundWorld w a t threadId p)
            | PWait => Blocked (removed w a t threadId)
            | PFatal => Fatal platformFatal
            end).
  { intros P HP self w threadId a t Hsmall Hmutex Hwf Hslot Ha.
    pose proof (wrapUptr_small threadId Hsmall) as Hwrap.
    destruct (wellFormed_slot w threadId _ Hwf Hslot) as (Hr & a' & t' & [= <-] & Ha' & Hid).
    rewrite Ha in Ha'. injection Ha' as <-.
    assert (Hnz : wrapUptr threadId <> 0%N) by (rewrite Hwrap; lia).
    rewrite <- Hwrap in Hslot, Hid.
    pose proof (joinThread_outcome self w threadId a t Hmutex Hnz Hslot Ha Hid) as Hout.
    rewrite Hwrap in Hout. exact Hout. }
  split.
  - intros P HP self w threadId a t Hsmall Hmutex Hwf Hslot Ha.
    pose proof (Hgeneric P HP self w threadId a t Hsmall Hmutex Hwf Hslot Ha) as Hout.
    split; [|split; [|split]].
    + intros Hwait. rewrite Hwait in Hout. eexists. split; [exact Hout|].
      cbn. rewrite lookup_delete_eq, lookup_insert_eq. done.
    + intros code p Hret. rewrite Hret in Hout. eexists. split; [exact Hout|].
      cbn. split; [done|]. split; [done|]. split; [apply lookup_delete_eq|].
      unfold releasedIn. cbn.
      destruct (decide _); [apply lookup_delete_eq|rewrite lookup_insert_eq; done].
    + intros tag p Hthrow. rewrite Hthrow in Hout. eexists. split; [exact Hout|].
      cbn. split; [done|]. split; [apply lookup_delete_eq|].
      unfold releasedIn. cbn.
      destruct (decide _); [apply lookup_delete_eq|rewrite lookup_insert_eq; done].
    + intros code w' Hret. rewrite Hout in Hret.
      destruct (Platform_joinThread _ _); try done.
      injection Hret as <- <-. eauto.
  - intros self w threadId a t h target Hsmall Hmutex Hwf Hslot Ha Hh Htarget.
    pose proof (Hgeneric _ tablePlatform self w threadId a t Hsmall Hmutex Hwf Hslot Ha)
      as Hout.
    rewrite Hh in Hout. cbn [Platform_joinThread tablePlatform] in Hout.
    rewrite Htarget in Hout.
    split; [|split].
    + intros Hnone. rewrite Hnone in Hout. eauto.
    + intros code Hcode. rewrite Hcode in Hout. eauto.
    + intros code w' Hret. rewrite Hout in Hret.
      destruct (exitCode target); [|done]. injection Hret as <- <-. done.
Qed.

Lemma joinThread_returns_exit_code_witness :
  (1 < 18446744073709551616)%N /\
  threadsMutex exitedWorld = None /\
  wellFormed exitedWorld /\
  slots (threads exitedWorld) !! 1%N = Some (Some 1%N) /\
  heap exitedWorld !! 1%N = Some spawnedThread /\
  platformThread spawnedThread = Some 1%N /\
  platform exitedWorld !! 1%N = Some (mkOSThread (Some (threadEntryRoutine, 1%N)) (Some 84%Z) false) /\
  exists w', joinThread 100 1 exitedWorld = Returned 84%Z w'.
Proof.
  assert (H1 : (1 < 18446744073709551616)%N) by reflexivity.
  assert (H2 : threadsMutex exitedWorld = None) by reflexivity.
  assert (H3 : wellFormed exitedWorld)
    by (apply (bool_decide_unpack _); vm_compute; exact I).
  assert (H4 : slots (threads exitedWorld) !! 1%N = Some (Some 1%N)) by reflexivity.
  assert (H5 : heap exitedWorld !! 1%N = Some spawnedThread) by reflexivity.
  assert (H6 : platformThread spawnedThread = Some 1%N) by reflexivity.
  assert (H7 : platform exitedWorld !! 1%N =
               Some (mkOSThread (Some (threadEntryRoutine, 1%N)) (Some 84%Z) false))
    by (vm_compute; reflexivity).
  repeat (split; [assumption|]).
  exact (proj1 (proj2 (proj2 joinThread_returns_exit_code 100%N exitedWorld 1%N 1%N
                         spawnedThread 1%N _ H1 H2 H3 H4 H5 H6 H7)) 84%Z eq_refl).
Defined.

(** ** Claim C9 *)

Section RaceFacts.
Context {P : Type}.
Variables (self1 self2 : N) (threadId : N) (a : N) (t : Thread) (w0 : World P).
Hypothesis Hmutex : threadsMutex w0 = None.
Hypothesis Hnz : threadId <> 0%N.
Hypothesis Hslot : slots (threads w0) !! threadId = Some (Some a).
Hypothesis Ha : heap w0 !! a = Some t.
Hypothesis Hid : id t = wrapUptr threadId.

Local Abbreviation stageW := (stageWorld threadId a t w0).

(** The statements of the winner, one by one. *)
Lemma winner_steps x y k :
  1 <= k <= 5 ->
  removeStep x threadId (fst (stagePoints a k)) (stageW x y k) =
  (fst (stagePoints a (S k)), stageW x y (S k)).
Proof.
  intros Hk.
  destruct k as [|[|[|[|[|[|k]]]]]]; try lia; cbn [stagePoints fst removeStep].
  - (* validate *)
    rewrite validateThreadId_valid; [reflexivity|done|cbn; eauto].
  - (* move *)
    unfold moveFromSlot, IndexMap_get. cbn. rewrite Hslot. reflexivity.
  - (* erase *)
    unfold threads_removeOrFail, IndexMap_get, IndexMap_removeOrFail. cbn.
    rewrite lookup_insert_eq.
    assert (Hc : IndexMap_contains threadId
                   (IndexMap_with_slots (threads w0) (<[threadId := None]> (slots (threads w0))))
                 = true).
    { apply IndexMap_contains_true. cbn. rewrite lookup_insert_eq. eauto. }
    rewrite Hc. cbn. rewrite delete_insert_eq. reflexivity.
  - (* reset the id *)
    unfold resetId.
    erewrite bind_Returned; [|apply deref_live; cbn; exact Ha].
    rewrite Hid, N.eqb_refl. cbn [wavmAssert].
    erewrite bind_Returned; [|reflexivity].
    erewrite setId_live; [|cbn; exact Ha]. reflexivity.
  - (* return *)
    reflexivity.
Qed.

Lemma winner_locks x y :
  removeStep x threadId AtEntry w0 = (AtValidate, stageW x y 1).
Proof. cbn. unfold Mutex_lock. rewrite Hmutex. reflexivity. Qed.

(** The statements of the other caller, once the winner has returned. *)
Lemma other_steps x y k :
  6 <= k <= 8 ->
  removeStep y threadId (snd (stagePoints a k)) (stageW x y k) =
  (snd (stagePoints a (S k)), stageW x y (S k)).
Proof.
  intros Hk.
  destruct k as [|[|[|[|[|[|[|[|[|k]]]]]]]]]; try lia; cbn [stagePoints snd removeStep].
  - reflexivity.
  - rewrite validateThreadId_invalid; [reflexivity|].
    right. cbn. apply lookup_delete_eq.
  - reflexivity.
Qed.

(** A caller at the entry waits while the mutex is held; a caller that has
    finished stays where it is. *)
Lemma other_waits x y k :
  1 <= k <= 5 ->
  removeStep y threadId (snd (stagePoints a k)) (stageW x y k) =
  (snd (stagePoints a k), stageW x y k).
Proof.
  intros Hk.
  destruct k as [|[|[|[|[|[|k]]]]]]; try lia; reflexivity.
Qed.

Lemma winner_stays x y k :
  6 <= k ->
  removeStep x threadId (fst (stagePoints a k)) (stageW x y k) =
  (fst (stagePoints a k), stageW x y k).
Proof.
  intros Hk.
  destruct k as [|[|[|[|[|[|[|[|[|[|k]]]]]]]]]]; try lia; reflexivity.
Qed.

Lemma other_stays x y k :
  9 <= k ->
  removeStep y threadId (snd (stagePoints a k)) (stageW x y k) =
  (snd (stagePoints a k), stageW x y k).
Proof.
  intros Hk.
  destruct k as [|[|[|[|[|[|[|[|[|[|k]]]]]]]]]]; try lia; reflexivity.
Qed.

Lemma raceStep_stage pick firstWins k :
  k <= 9 ->
  raceStep self1 self2 threadId pick (stage self1 self2 threadId a t w0 firstWins k) =
  stage self1 self2 threadId a t w0
    (fst (nextStage pick (firstWins, k))) (snd (nextStage pick (firstWins, k))).
Proof.
  intros Hk.
  destruct k as [|[|[|[|[|[|[|[|[|[|k]]]]]]]]]]; try lia;
    destruct pick, firstWins;
    unfold stage, raceStep, nextStage;
    cbn [firstCaller secondCaller shared fst snd Bool.eqb];
    first
      [ cbn [stagePoints stageWorld fst snd];
        rewrite (winner_locks self1 self2); reflexivity
      | cbn [stagePoints stageWorld fst snd];
        rewrite (winner_locks self2 self1); reflexivity
      | rewrite winner_steps by lia; reflexivity
      | rewrite other_waits by lia; reflexivity
      | rewrite other_steps by lia; reflexivity
      | rewrite winner_stays by lia; reflexivity
      | rewrite other_stays by lia; reflexivity ].
Qed.

Lemma nextStage_bound pick s : snd s <= 9 -> snd (nextStage pick s) <= 9.
Proof.
  destruct s as [fw k]. cbn [snd]. intros Hk.
  destruct k as [|[|[|[|[|[|[|[|[|[|k]]]]]]]]]]; try lia;
    unfold nextStage; cbn [fst snd]; destruct (Bool.eqb pick fw); cbn; lia.
Qed.

Lemma runRace_stage schedule s :
  snd s <= 9 ->
  runRace self1 self2 threadId schedule
    (stage self1 self2 threadId a t w0 (fst s) (snd s)) =
  stage self1 self2 threadId a t w0
    (fst (runStages schedule s)) (snd (runStages schedule s))
  /\ snd (runStages schedule s) <= 9.
Proof.
  revert s. induction schedule as [|pick schedule IH]; intros s Hk.
  - cbn. done.
  - cbn [runRace runStages fold_left].
    rewrite raceStep_stage by done.
    destruct s as [fw k]. cbn [fst snd] in *.
    apply (IH (nextStage pick (fw, k))).
    apply (nextStage_bound pick (fw, k)). done.
Qed.

End RaceFacts.

Section RaceOutcome.
Context {P : Type}.
Variables (self1 self2 : N) (threadId : N) (a : N) (t : Thread) (w0 : World P).
Hypothesis Hmutex : threadsMutex w0 = None.
Hypothesis Hnz : threadId <> 0%N.
Hypothesis Hslot : slots (threads w0) !! threadId = Some (Some a).
Hypothesis Ha : heap w0 !! a = Some t.
Hypothesis Hid : id t = wrapUptr threadId.

Local Abbreviation stageR := (stage self1 self2 threadId a t w0).
Local Abbreviation start := (mkRace AtEntry AtEntry w0).

Lemma runRace_from_start schedule :
  exists firstWins k,
    k <= 9 /\
    runStages schedule (true, 0) = (firstWins, k) /\
    runRace self1 self2 threadId schedule start = stageR firstWins k.
Proof using All.
  destruct (runRace_stage self1 self2 threadId a t w0 Hmutex Hnz Hslot Ha Hid
              schedule (true, 0)) as [Hrun Hk]; [cbn; lia|].
  destruct (runStages schedule (true, 0)) as [fw k] eqn:Hstages.
  exists fw, k. cbn [fst snd] in *. done.
Qed.

(** At no stage has a caller crashed, and at no stage do both hold the
    object. *)
Lemma stage_safe firstWins k :
  (forall f, firstCaller (stageR firstWins k) <> Crashed f /\
             secondCaller (stageR firstWins k) <> Crashed f) /\
  (heldPointer (firstCaller (stageR firstWins k)) = None \/
   heldPointer (secondCaller (stageR firstWins k)) = None).
Proof using All.
  destruct firstWins; destruct k as [|[|[|[|[|[|[|[|[|[|k]]]]]]]]]]; cbn; split; auto.
Qed.

(** Both callers have finished at the last stage only; there one has the
    object and the other one InvalidArgument, as if the winner had run
    removeThreadById alone, and the other one after it. *)
Lemma stage_finished firstWins k r1 r2 :
  k <= 9 ->
  firstCaller (stageR firstWins k) = Finished r1 ->
  secondCaller (stageR firstWins k) = Finished r2 ->
  shared (stageR firstWins k) = removed w0 a t threadId /\
  ((firstWins = true /\ r1 = inr (Some a) /\ r2 = inl invalidArgumentType) \/
   (firstWins = false /\ r2 = inr (Some a) /\ r1 = inl invalidArgumentType)).
Proof using All.
  intros Hk.
  destruct firstWins; destruct k as [|[|[|[|[|[|[|[|[|[|k]]]]]]]]]]; try lia; cbn;
    try discriminate; intros [= <-] [= <-]; split; auto.
Qed.

Lemma sequential_removals x y :
  removeThreadById x threadId w0 = Returned (Some a) (removed w0 a t threadId) /\
  removeThreadById y threadId (removed w0 a t threadId) =
  Threw invalidArgumentType (removed w0 a t threadId).
Proof using All.
  split.
  - apply removeThreadById_valid; done.
  - apply removeThreadById_invalid; [done|]. right. cbn. apply lookup_delete_eq.
Qed.

(** From the first lock on, the winner is who it is. *)
Lemma runStages_winner schedule firstWins k :
  1 <= k -> fst (runStages schedule (firstWins, k)) = firstWins /\
            1 <= snd (runStages schedule (firstWins, k)).
Proof using All.
  revert k. induction schedule as [|pick schedule IH]; intros k Hk; [cbn; done|].
  cbn [runStages fold_left].
  assert (Hnext : exists k', nextStage pick (firstWins, k) = (firstWins, k') /\ 1 <= k').
  { destruct k as [|[|[|[|[|[|[|[|[|[|k]]]]]]]]]]; try lia;
      unfold nextStage; cbn [fst snd]; destruct (Bool.eqb pick firstWins);
      eexists; split; try reflexivity; lia. }
  destruct Hnext as (k' & -> & Hk'). apply IH. done.
Qed.

Lemma runStages_app s1 s2 s :
  runStages (s1 ++ s2) s = runStages s2 (runStages s1 s).
Proof using All. unfold runStages. apply fold_left_app. Qed.

(** A caller that ends with an exception has held the object at no time. *)
Lemma loser_never_held schedule1 schedule2 e :
  (firstCaller (runRace self1 self2 threadId (schedule1 ++ schedule2) start)
   = Finished (inl e) ->
   heldPointer (firstCaller (runRace self1 self2 threadId schedule1 start)) = None) /\
  (secondCaller (runRace self1 self2 threadId (schedule1 ++ schedule2) start)
   = Finished (inl e) ->
   heldPointer (secondCaller (runRace self1 self2 threadId schedule1 start)) = None).
Proof using All.
  destruct (runRace_from_start schedule1) as (fw1 & k1 & Hk1 & Hst1 & Hrun1).
  destruct (runRace_from_start (schedule1 ++ schedule2)) as (fw & k & Hk & Hst & Hrun).
  rewrite Hrun1, Hrun.
  rewrite runStages_app, Hst1 in Hst.
  destruct (decide (k1 = 0)) as [->|Hk1nz].
  { destruct fw1; cbn; done. }
  destruct (runStages_winner schedule2 fw1 k1) as [Hfw Hkge]; [lia|].
  rewrite Hst in Hfw, Hkge. cbn [fst snd] in Hfw, Hkge. subst fw1.
  split; intros Hfin.
  - destruct fw.
    + exfalso. destruct k as [|[|[|[|[|[|[|[|[|[|k]]]]]]]]]]; try lia; cbn in Hfin; done.
    + destruct k1 as [|[|[|[|[|[|[|[|[|[|k1]]]]]]]]]]; try lia; reflexivity.
  - destruct fw.
    + destruct k1 as [|[|[|[|[|[|[|[|[|[|k1]]]]]]]]]]; try lia; reflexivity.
    + exfalso. destruct k as [|[|[|[|[|[|[|[|[|[|k]]]]]]]]]]; try lia; cbn in Hfin; done.
Qed.

(** Whatever has happened, letting the first caller, then the second, then
    the first again run six statements each finishes both. *)
Lemma race_completes schedule :
  exists firstWins,
    runRace self1 self2 threadId
      (schedule ++ repeat true 6 ++ repeat false 6 ++ repeat true 6) start =
    stageR firstWins 9.
Proof using All.
  destruct (runRace_from_start
              (schedule ++ repeat true 6 ++ repeat false 6 ++ repeat true 6))
    as (fw & k & Hk & Hst & Hrun).
  destruct (runRace_from_start schedule) as (fw1 & k1 & Hk1 & Hst1 & _).
  rewrite runStages_app, Hst1 in Hst.
  exists fw. rewrite Hrun. f_equal.
  assert (Hall : snd (runStages (repeat true 6 ++ repeat false 6 ++ repeat true 6)
                        (fw1, k1)) = 9).
  { destruct fw1; destruct k1 as [|[|[|[|[|[|[|[|[|[|k1]]]]]]]]]]; try lia;
      vm_compute; reflexivity. }
  rewrite Hst in Hall. done.
Qed.

End RaceOutcome.

(** C9: two callers race to remove the same id, mapped in a well-formed
    registry, each running removeThreadById statement by statement, under
    every schedule.  No caller crashes and at no time do both hold the
    object.  When both have finished, one has the object and the other one
    InvalidArgument, and the world is the one that results from the winner
    running removeThreadById alone, followed by the other caller running it
    and failing: the id is unmapped and the object's id was reset, once.
    The caller that ends with the exception has held the object at no time
    of the race.  And every schedule can be continued so that both
    finish. *)
Theorem removal_race_one_winner {P : Type}
    (self1 self2 : N) (threadId : N) (a : N) (t : Thread) (w0 : World P) :
  (threadId < 18446744073709551616)%N ->
  threadsMutex w0 = None ->
  wellFormed w0 ->
  slots (threads w0) !! threadId = Some (Some a) ->
  heap w0 !! a = Some t ->
  forall schedule,
    let race := runRace self1 self2 threadId schedule (mkRace AtEntry AtEntry w0) in
    (forall f, firstCaller race <> Crashed f /\ secondCaller race <> Crashed f) /\
    (heldPointer (firstCaller race) = None \/ heldPointer (secondCaller race) = None) /\
    (forall r1 r2,
       firstCaller race = Finished r1 ->
       secondCaller race = Finished r2 ->
       slots (threads (shared race)) !! threadId = None /\
       heap (shared race) !! a = Some (Thread_with_id t UINTPTR_MAX) /\
       ((r1 = inr (Some a) /\ r2 = inl invalidArgumentType /\
         removeThreadById self1 threadId w0 = Returned (Some a) (shared race) /\
         removeThreadById self2 threadId (shared race) =
           Threw invalidArgumentType (shared race)) \/
        (r2 = inr (Some a) /\ r1 = inl invalidArgumentType /\
         removeThreadById self2 threadId w0 = Returned (Some a) (shared race) /\
         removeThreadById self1 threadId (shared race) =
           Threw invalidArgumentType (shared race)))) /\
    (forall earlier later e,
       schedule = earlier ++ later ->
       let before :=
         runRace self1 self2 threadId earlier (mkRace AtEntry AtEntry w0) in
       (firstCaller race = Finished (inl e) -> heldPointer (firstCaller before) = None) /\
       (secondCaller race = Finished (inl e) -> heldPointer (secondCaller before) = None)) /\
    (exists r1 r2,
       let finished :=
         runRace self1 self2 threadId
           (schedule ++ repeat true 6 ++ repeat false 6 ++ repeat true 6)
           (mkRace AtEntry AtEntry w0) in
       firstCaller finished = Finished r1 /\ secondCaller finished = Finished r2).
Proof.
  intros Hsmall Hmutex Hwf Hslot Ha schedule race.
  pose proof (wrapUptr_small threadId Hsmall) as Hwrap.
  destruct (wellFormed_slot w0 threadId _ Hwf Hslot) as (Hr & a' & t' & [= <-] & Ha' & Hid).
  rewrite Ha in Ha'. injection Ha' as <-.
  assert (Hnz : threadId <> 0%N) by lia.
  rewrite <- Hwrap in Hid.
  destruct (runRace_from_start self1 self2 threadId a t w0 Hmutex Hnz Hslot Ha Hid schedule)
    as (fw & k & Hk & _ & Hrun).
  subst race. rewrite Hrun.
  destruct (stage_safe self1 self2 threadId a t w0 Hmutex Hnz Hslot Ha Hid fw k)
    as [Hcrash Hheld].
  split; [exact Hcrash|]. split; [exact Hheld|]. split; [|split].
  - intros r1 r2 H1 H2.
    destruct (stage_finished self1 self2 threadId a t w0 Hmutex Hnz Hslot Ha Hid
                fw k r1 r2 Hk H1 H2)
      as [Hshared Hwho].
    rewrite Hshared.
    split; [cbn; apply lookup_delete_eq|].
    split; [cbn; apply lookup_insert_eq|].
    destruct Hwho as [(_ & -> & ->)|(_ & -> & ->)]; [left|right];
      (split; [done|]); (split; [done|]);
      apply (sequential_removals self1 self2 threadId a t w0 Hmutex Hnz Hslot Ha Hid).
  - intros earlier later e Hsplit before. subst before.
    rewrite <- Hrun. subst schedule.
    apply (loser_never_held self1 self2 threadId a t w0 Hmutex Hnz Hslot Ha Hid).
  - destruct (race_completes self1 self2 threadId a t w0 Hmutex Hnz Hslot Ha Hid schedule)
      as [fw' Hdone].
    cbn zeta. rewrite Hdone. destruct fw'; cbn; eauto.
Qed.

Lemma removal_race_one_winner_witness :
  (1 < 18446744073709551616)%N /\
  threadsMutex spawnedWorld = None /\
  wellFormed spawnedWorld /\
  slots (threads spawnedWorld) !! 1%N = Some (Some 1%N) /\
  heap spawnedWorld !! 1%N = Some spawnedThread /\
  (heldPointer
     (firstCaller
        (runRace 100 200 1 [true; false; true; true] (mkRace AtEntry AtEntry spawnedWorld)))
   = None \/
   heldPointer
     (secondCaller
        (runRace 100 200 1 [true; false; true; true] (mkRace AtEntry AtEntry spawnedWorld)))
   = None).
Proof.
  assert (H1 : (1 < 18446744073709551616)%N) by reflexivity.
  assert (H2 : threadsMutex spawnedWorld = None) by reflexivity.
  assert (H3 : wellFormed spawnedWorld)
    by (apply (bool_decide_unpack _); vm_compute; exact I).
  assert (H4 : slots (threads spawnedWorld) !! 1%N = Some (Some 1%N)) by reflexivity.
  assert (H5 : heap spawnedWorld !! 1%N = Some spawnedThread) by reflexivity.
  repeat (split; [assumption|]).
  exact (proj1 (proj2 (removal_race_one_winner 100 200 1 1 spawnedThread spawnedWorld
                         H1 H2 H3 H4 H5 [true; false; true; true]))).
Defined.

(** ** Scenarios of the spec *)

(** [createThread(f, 42)], the thread ends with the code 84, [joinThread(id)]
    returns 84. *)
Example join_scenario :
  exists w', joinThread 100 1 exitedWorld = Returned 84%Z w'.
Proof. eexists. vm_compute. reflexivity. Qed.

(** While the thread runs, [joinThread(id)] waits. *)
Example join_waits_scenario :
  exists w', joinThread 100 1 spawnedWorld = Blocked w'.
Proof. eexists. vm_compute. reflexivity. Qed.

(** [detachThread(id)] followed by [joinThread(id)]: the second call fails
    with InvalidArgument. *)
Example detach_then_join_scenario :
  exists w',
    detachThread 100 1 spawnedWorld = Returned tt w' /\
    joinThread 100 1 w' = Threw invalidArgumentType w'.
Proof. eexists. split; vm_compute; reflexivity. Qed.

(** createThread with a function of type (i64)->i64 fails before an id is
    allocated. *)
Example createThread_mismatch_scenario :
  createThread 100 1 (Some entryFunctionBad) 42 initialWorld =
  Threw indirectCallSignatureMismatchType initialWorld.
Proof. reflexivity. Qed.

(** After [joinThread(1)] the id 1 is given out again. *)
Example id_reuse_scenario :
  exists w' w'',
    joinThread 100 1 exitedWorld = Returned 84%Z w' /\
    createThread 100 1 (Some entryFunctionOk) 7 w' = Returned 1%N w''.
Proof. do 2 eexists. split; vm_compute; reflexivity. Qed.

(** A race in full: the first caller locks, the second one tries and waits,
    the first one goes through, then the second one. *)
Example race_scenario :
  let race :=
    runRace 100 200 1
      [true; false; true; true; false; true; true; true; false; false; false]
      (mkRace AtEntry AtEntry spawnedWorld) in
  firstCaller race = Finished (inr (Some 1%N)) /\
  secondCaller race = Finished (inl invalidArgumentType).
Proof. vm_compute. split; reflexivity. Qed.

(** * Further properties *)

(** ** Holders under updates *)

Section HolderUpdates.
Context {V : Type} `{EqDecision V}.
Implicit Types (m : gmap N V) (x y : V).

Lemma holders_insert_other m i x y :
  x <> y -> m !! i = None ->
  size (filter (fun kv => snd kv = y) (<[i := x]> m)) =
  size (filter (fun kv => snd kv = y) m).
Proof.
  intros Hne Hi. rewrite map_filter_insert_not'; [done|cbn; done|].
  intros z Hz. congruence.
Qed.

Lemma holders_delete_other m i x y :
  m !! i = Some x -> x <> y ->
  size (filter (fun kv => snd kv = y) (delete i m)) =
  size (filter (fun kv => snd kv = y) m).
Proof.
  intros Hi Hne. rewrite map_filter_delete_not; [done|].
  intros z Hz. cbn. congruence.
Qed.

Lemma holders_present m i x :
  m !! i = Some x -> 1 <= size (filter (fun kv => snd kv = x) m).
Proof. intros Hi. rewrite <- (holders_delete m i x Hi). lia. Qed.

Lemma holders_zero_absent m i x :
  size (filter (fun kv => snd kv = x) m) = 0 -> m !! i <> Some x.
Proof. intros Hz Hi. apply holders_present in Hi. lia. Qed.

End HolderUpdates.

(** ** Worlds that stay sound *)

Section SoundFacts.
Context {P : Type}.
Implicit Types (w : World P) (a : N) (t : Thread).

Lemma sound_slot w i p :
  sound w -> slots (threads w) !! i = Some p ->
  (1 <= i < UINTPTR_MAX)%N /\
  exists a t, p = Some a /\ heap w !! a = Some t /\ id t = i /\
              is_Some (platformThread t) /\
              (N.of_nat (registryHolders w a + locatorHolders w a) <= numRefs t)%N /\
              (numRefs t < UINTPTR_MAX)%N /\
              1 <= registryHolders w a.
Proof.
  intros (_ & Hwf & Hcount & Hhandle) Hslot.
  destruct (wellFormed_slot w i p Hwf Hslot) as (Hr & a & t & -> & Ha & Hid).
  split; [done|]. exists a, t.
  pose proof (Hhandle i _ Hslot) as Hh. cbn in Hh. rewrite Ha in Hh.
  destruct (Hcount a t Ha) as [Hc Hlt].
  repeat split; try done.
  unfold registryHolders. eapply holders_present. exact Hslot.
Qed.

(** A new object that is registered, with a count that covers the slot. *)
Lemma sound_registered w a t' i (ctxs : gmap N Context) (p : P) :
  sound w ->
  heap w !! a = None ->
  slots (threads w) !! i = None ->
  (1 <= i < UINTPTR_MAX)%N ->
  id t' = i ->
  is_Some (platformThread t') ->
  (1 <= numRefs t' < UINTPTR_MAX)%N ->
  sound (mkWorld (<[a := t']> (heap w))
           (IndexMap_with_slots (threads w) (<[i := Some a]> (slots (threads w))))
           None (currentThread w) ctxs p).
Proof.
  intros (Hmutex & Hwf & Hcount & Hhandle) Hfresh Hfree Hrange Hid Hh Hn.
  destruct (fresh_address_unheld w a Hwf Hfresh) as [Hreg0 Hloc0].
  pose proof Hwf as (Hmin & Hmax & Hslots & Hloc).
  split; [done|]. split; [|split].
  - split; [done|]. split; [done|]. split.
    + intros j q Hj. cbn in Hj.
      apply lookup_insert_Some in Hj as [[<- <-]|[Hne Hj]].
      * split; [done|]. cbn. rewrite lookup_insert_eq. done.
      * destruct (wellFormed_slot w j q Hwf Hj) as (Hr & b & tb & -> & Hb & Hidb).
        split; [done|]. cbn.
        rewrite lookup_insert_ne by congruence. rewrite Hb. done.
    + intros s b Hs. cbn in Hs. cbn.
      destruct (Hloc s b Hs) as [tb Hb].
      rewrite lookup_insert_ne by congruence. eauto.
  - intros b tb Hb. cbn in Hb. unfold countOk, registryHolders, locatorHolders. cbn.
    apply lookup_insert_Some in Hb as [[<- <-]|[Hne Hb]].
    + rewrite holders_insert_new by done.
      unfold registryHolders in Hreg0. unfold locatorHolders in Hloc0.
      rewrite Hreg0, Hloc0. split; lia.
    + rewrite holders_insert_other by (done || congruence).
      exact (Hcount b tb Hb).
  - intros j q Hj. cbn in Hj.
    apply lookup_insert_Some in Hj as [[<- <-]|[Hne Hj]].
    + cbn. rewrite lookup_insert_eq. done.
    + pose proof (Hhandle j q Hj) as Hq.
      destruct (wellFormed_slot w j q Hwf Hj) as (_ & b & tb & -> & Hb & _).
      cbn in *. rewrite lookup_insert_ne by congruence. done.
Qed.

(** An OS thread without a currentThread takes an object whose count has a
    reference to spare. *)
Lemma sound_located w a t s :
  sound w ->
  heap w !! a = Some t ->
  currentThread w !! s = None ->
  (N.of_nat (registryHolders w a + locatorHolders w a) < numRefs t)%N ->
  sound (with_currentThread w (<[s := a]> (currentThread w))).
Proof.
  intros (Hmutex & Hwf & Hcount & Hhandle) Ha Hs Hspare.
  pose proof Hwf as (Hmin & Hmax & Hslots & Hloc).
  split; [done|]. split; [|split].
  - split; [done|]. split; [done|]. split; [exact Hslots|].
    intros s' b Hs'. cbn in Hs'. cbn.
    apply lookup_insert_Some in Hs' as [[<- <-]|[Hne Hs']]; [eauto|].
    exact (Hloc s' b Hs').
  - intros b tb Hb. cbn in Hb.
    unfold countOk, registryHolders, locatorHolders. cbn.
    destruct (Hcount b tb Hb) as [Hc Hlt]. split; [|done].
    destruct (decide (b = a)) as [->|Hne].
    + rewrite Ha in Hb. injection Hb as <-.
      rewrite holders_insert_new by done.
      unfold registryHolders, locatorHolders in Hspare. lia.
    + rewrite holders_insert_other by (done || congruence). exact Hc.
  - exact Hhandle.
Qed.

(** The registry lets go of an object: its slot is erased; the object keeps
    its count while the call holds the reference ([released = false]) and
    has one less, or is destroyed, once the call has let go of it. *)
Lemma sound_unregistered w a t t' i (released : bool) (p : P) :
  sound w ->
  slots (threads w) !! i = Some (Some a) ->
  heap w !! a = Some t ->
  numRefs t' = numRefs t ->
  sound (mkWorld
           (if released then releasedIn (<[a := t']> (heap w)) a t'
            else <[a := t']> (heap w))
           (IndexMap_with_slots (threads w) (delete i (slots (threads w))))
           None (currentThread w) (contexts w) p).
Proof.
  intros Hsound Hslot Ha Hn.
  destruct (sound_slot w i _ Hsound Hslot)
    as (Hr & a' & t0 & [= <-] & Ha' & Hid & _ & Hc & Hlt & Hreg).
  rewrite Ha in Ha'. injection Ha' as <-.
  destruct Hsound as (Hmutex & Hwf & Hcount & Hhandle).
  pose proof Hwf as (Hmin & Hmax & Hslots & Hloc).
  assert (Hother : forall j q, j <> i -> slots (threads w) !! j = Some q ->
            exists b tb, q = Some b /\ b <> a /\ heap w !! b = Some tb /\ id tb = j).
  { intros j q Hne Hj.
    destruct (wellFormed_slot w j q Hwf Hj) as (_ & b & tb & -> & Hb & Hidb).
    exists b, tb. repeat split; try done. intros ->. congruence. }
  set (h' := if released then releasedIn (<[a := t']> (heap w)) a t'
             else <[a := t']> (heap w)).
  assert (Hkeep : forall b, b <> a -> h' !! b = heap w !! b).
  { intros b Hne. unfold h', releasedIn. destruct released.
    - destruct (decide _).
      + rewrite lookup_delete_ne, lookup_insert_ne by done. done.
      + rewrite !lookup_insert_ne by done. done.
    - rewrite lookup_insert_ne by done. done. }
  assert (Hdec : wrapUptr (numRefs t' + UINTPTR_MAX) = (numRefs t - 1)%N).
  { rewrite Hn. unfold wrapUptr, UINTPTR_MAX in *.
    assert (1 <= numRefs t)%N by lia.
    replace (numRefs t + 18446744073709551615)%N
      with ((numRefs t - 1) + 1 * 18446744073709551616)%N by lia.
    rewrite N.Div0.mod_add. apply N.mod_small. lia. }
  assert (Hself : forall ta, h' !! a = Some ta ->
            (numRefs ta = if released then (numRefs t - 1)%N else numRefs t) /\
            (released = true -> numRefs t <> 1%N)).
  { intros ta Hta. unfold h', releasedIn in Hta. destruct released.
    - rewrite Hdec in Hta. destruct (decide _) as [Hz|Hnz].
      + rewrite lookup_delete_eq in Hta. done.
      + rewrite lookup_insert_eq in Hta. injection Hta as <-. cbn. split; [done|].
        intros _. lia.
    - rewrite lookup_insert_eq in Hta. injection Hta as <-. split; [done|done]. }
  assert (Hgone : h' !! a = None -> released = true /\ numRefs t = 1%N).
  { unfold h', releasedIn. destruct released.
    - rewrite Hdec. destruct (decide _) as [Hz|Hnz]; [intros _; split; [done|lia]|].
      rewrite lookup_insert_eq. done.
    - rewrite lookup_insert_eq. done. }
  split; [done|]. split; [|split].
  - split; [done|]. split; [done|]. split.
    + intros j q Hj. cbn in Hj. apply lookup_delete_Some in Hj as [Hne%not_eq_sym Hj].
      destruct (Hother j q Hne Hj) as (b & tb & -> & Hba & Hb & Hidb).
      destruct (wellFormed_slot w j _ Hwf Hj) as (Hrj & _).
      split; [done|]. cbn. fold h'. rewrite (Hkeep b Hba), Hb. done.
    + intros s b Hs. cbn in Hs. cbn. fold h'.
      destruct (decide (b = a)) as [->|Hne].
      * destruct (decide (h' !! a = None)) as [Hta|Hta];
          [|destruct (h' !! a); [eauto|done]].
        exfalso. destruct (Hgone Hta) as [_ H1].
        assert (1 <= locatorHolders w a)
          by (unfold locatorHolders; eapply holders_present; exact Hs).
        lia.
      * rewrite (Hkeep b Hne). exact (Hloc s b Hs).
  - intros b tb Hb. cbn in Hb. fold h' in Hb.
    unfold countOk, registryHolders, locatorHolders. cbn.
    destruct (decide (b = a)) as [->|Hne].
    + destruct (Hself tb Hb) as [Hnum Hlive].
      pose proof (holders_delete (slots (threads w)) i (Some a) Hslot) as Hdel.
      unfold registryHolders, locatorHolders in Hc, Hreg.
      destruct released; rewrite Hnum; split; lia.
    + rewrite holders_delete_other with (x := Some a) by (done || congruence).
      rewrite (Hkeep b Hne) in Hb. exact (Hcount b tb Hb).
  - intros j q Hj. cbn in Hj. apply lookup_delete_Some in Hj as [Hne%not_eq_sym Hj].
    destruct (Hother j q Hne Hj) as (b & tb & -> & Hba & Hb & Hidb).
    pose proof (Hhandle j _ Hj) as Hq. cbn in Hq. rewrite Hb in Hq.
    cbn. fold h'. rewrite (Hkeep b Hba), Hb. done.
Qed.

End SoundFacts.

Section SoundSteps.
Context {P : Type}.
Implicit Types (w : World P) (a : N) (t : Thread).

(** A new object that nobody points to yet. *)
Lemma sound_allocated w a t' (ctxs : gmap N Context) (p : P) :
  sound w ->
  heap w !! a = None ->
  (numRefs t' < UINTPTR_MAX)%N ->
  sound (mkWorld (<[a := t']> (heap w)) (threads w) (threadsMutex w)
           (currentThread w) ctxs p).
Proof.
  intros (Hmutex & Hwf & Hcount & Hhandle) Hfresh Hn.
  destruct (fresh_address_unheld w a Hwf Hfresh) as [Hreg0 Hloc0].
  pose proof Hwf as (Hmin & Hmax & Hslots & Hloc).
  split; [done|]. split; [|split].
  - split; [done|]. split; [done|]. split.
    + intros j q Hj. cbn in Hj.
      destruct (wellFormed_slot w j q Hwf Hj) as (Hr & b & tb & -> & Hb & Hidb).
      split; [done|]. cbn. rewrite lookup_insert_ne by congruence. rewrite Hb. done.
    + intros s b Hs. cbn in Hs. cbn. destruct (Hloc s b Hs) as [tb Hb].
      rewrite lookup_insert_ne by congruence. eauto.
  - intros b tb Hb. cbn in Hb. unfold countOk.
    change (registryHolders (mkWorld (<[a := t']> (heap w)) (threads w) (threadsMutex w)
              (currentThread w) ctxs p) b) with (registryHolders w b).
    change (locatorHolders (mkWorld (<[a := t']> (heap w)) (threads w) (threadsMutex w)
              (currentThread w) ctxs p) b) with (locatorHolders w b).
    apply lookup_insert_Some in Hb as [[<- <-]|[Hne Hb]].
    + rewrite Hreg0, Hloc0. split; [lia|done].
    + exact (Hcount b tb Hb).
  - intros j q Hj. cbn in Hj. pose proof (Hhandle j q Hj) as Hq.
    destruct (wellFormed_slot w j q Hwf Hj) as (_ & b & tb & -> & Hb & _).
    cbn in *. rewrite lookup_insert_ne by congruence. done.
Qed.

End SoundSteps.

(** The world createThread returns in. *)
Lemma createdWorld_sound {P : Type} `{!Platform P}
    (self : N) (contextRuntimeData : N) (entryFunction : option Function)
    (entryArgument : Z) (w w' : World P) (r : N) :
  sound w ->
  createThread self contextRuntimeData entryFunction entryArgument w = Returned r w' ->
  sound w'.
Proof.
  intros Hsound Hcreate.
  apply createThread_Returned_inv in Hcreate
    as (f & ctx & nc & a & i & h & p & _ & _ & _ & _ & Hfresh & _ & _ & Hal & _ & _ & _ & ->).
  pose proof Hsound as (_ & Hwf & _).
  destruct (allocate_smallest_positive w i Hwf Hal) as (Hnz & Hlt & Hfree & _).
  apply sound_registered; try done; cbn; eauto; unfold UINTPTR_MAX in *; lia.
Qed.

(** X1: createThread keeps the world sound: when it returns from a sound
    world, the mutex is free again, every registry slot and every
    currentThread points to a live object that stores its index and has its
    platform thread, and every count covers its holders; the new object in
    particular is alive, registered under the returned id, and has its
    platform thread. *)
Theorem createThread_keeps_sound {P : Type} `{!Platform P}
    (self : N) (contextRuntimeData : N) (entryFunction : option Function)
    (entryArgument : Z) (w w' : World P) (r : N) :
  sound w ->
  createThread self contextRuntimeData entryFunction entryArgument w = Returned r w' ->
  sound w' /\
  exists a t,
    slots (threads w') !! r = Some (Some a) /\
    heap w' !! a = Some t /\ id t = r /\ is_Some (platformThread t).
Proof.
  intros Hsound Hcreate.
  assert (Hsound' : sound w') by (eapply createdWorld_sound; eauto).
  split; [exact Hsound'|].
  pose proof Hsound as (_ & Hwf & _).
  apply createThread_Returned_inv in Hcreate
    as (f & ctx & nc & a & i & h & p & _ & _ & _ & _ & _ & _ & _ & Hal & _ & _ & -> & ->).
  destruct (allocate_smallest_positive w i Hwf Hal) as (_ & Hlt & _ & _).
  unfold asU64. rewrite (UINTPTR_MAX_small i Hlt).
  exists a, (createdThread i h nc entryFunction entryArgument). cbn.
  rewrite !lookup_insert_eq. eauto.
Qed.

Lemma createThread_keeps_sound_witness :
  sound initialWorld /\
  createThread 100 1 (Some entryFunctionOk) 42 initialWorld = Returned 1%N spawnedWorld /\
  sound spawnedWorld.
Proof.
  assert (H1 : sound initialWorld)
    by (apply (bool_decide_unpack _); vm_compute; exact I).
  assert (H2 : createThread 100 1 (Some entryFunctionOk) 42 initialWorld =
               Returned 1%N spawnedWorld) by (vm_compute; reflexivity).
  split; [exact H1|]. split; [exact H2|].
  exact (proj1 (createThread_keeps_sound 100 1 (Some entryFunctionOk) 42 initialWorld
                  spawnedWorld 1 H1 H2)).
Defined.

(** X2: threadEntry, run by an OS thread that has no currentThread yet on an
    object whose count has a reference to spare (the one createThread added
    for it), returns the invocation of the object's entry function, leaves
    every object as it was - the reference it releases is the one its
    currentThread has just taken - and keeps the world sound. *)
Theorem threadEntry_keeps_sound {P : Type}
    (self : N) (a : N) (t : Thread) (w : World P) :
  sound w ->
  heap w !! a = Some t ->
  currentThread w !! self = None ->
  (N.of_nat (registryHolders w a + locatorHolders w a) < numRefs t)%N ->
  exists w',
    threadEntry self a w =
      Returned (mkInvocation (context t) (entryFunction t) (argument t)) w' /\
    heap w' = heap w /\
    threads w' = threads w /\
    currentThread w' = <[self := a]> (currentThread w) /\
    locatorHolders w' a = S (locatorHolders w a) /\
    sound w'.
Proof.
  intros Hsound Ha Hself Hspare.
  pose proof Hsound as (_ & _ & Hcount & _).
  destruct (Hcount a t Ha) as [_ Hlt].
  eexists. split.
  { apply threadEntry_spec; [done| |done]. lia. }
  split; [done|]. split; [done|]. split; [done|]. split.
  - unfold locatorHolders. cbn. apply holders_insert_new. done.
  - apply (sound_located w a t self); done.
Qed.

Lemma threadEntry_keeps_sound_witness :
  sound spawnedWorld /\
  heap spawnedWorld !! 1%N = Some spawnedThread /\
  currentThread spawnedWorld !! 1%N = None /\
  (N.of_nat (registryHolders spawnedWorld 1 + locatorHolders spawnedWorld 1)
   < numRefs spawnedThread)%N /\
  exists w', threadEntry 1 1 spawnedWorld =
             Returned (mkInvocation 2 (Some entryFunctionOk) (valueOfI32 42)) w' /\
             sound w'.
Proof.
  assert (H1 : sound spawnedWorld)
    by (apply (bool_decide_unpack _); vm_compute; exact I).
  assert (H2 : heap spawnedWorld !! 1%N = Some spawnedThread) by reflexivity.
  assert (H3 : currentThread spawnedWorld !! 1%N = None) by reflexivity.
  assert (H4 : (N.of_nat (registryHolders spawnedWorld 1 + locatorHolders spawnedWorld 1)
                < numRefs spawnedThread)%N) by (vm_compute; reflexivity).
  repeat (split; [assumption|]).
  destruct (threadEntry_keeps_sound 1 1 spawnedThread spawnedWorld H1 H2 H3 H4)
    as (w' & Hentry & _ & _ & _ & _ & Hsound).
  exists w'. split; assumption.
Defined.

(** X3: forkThread keeps the world sound at each of its returns: the world
    at the fork primitive, the world after the return on the original stack
    alone, the world after the return on the duplicated stack alone, and
    the world after both (the same in either order) are sound - the child
    object is never destroyed by the release of one continuation while the
    other one, the registry or the new OS thread's currentThread still
    needs it. *)
Theorem forkThread_keeps_sound {P : Type} `{!Platform P}
    (self : N) (contextRuntimeData : N) (w : World P)
    (ctx : Context) (parentAddr : N) (h : N) (p : P) :
  sound w ->
  hasRoom w ->
  contexts w !! contextRuntimeData = Some ctx ->
  currentThread w !! self = Some parentAddr ->
  Platform_forkCurrentThread self (platform w) = PReturn h p ->
  currentThread w !! h = None ->
  exists locals w0 rP wP rC wC wB,
    forkThread_fork self contextRuntimeData w = Returned (locals, h) w0 /\
    forkThread_resume self locals (Some h) w0 = Returned rP wP /\
    forkThread_resume h locals None w0 = Returned rC wC /\
    forkThread_resume h locals None wP = Returned rC wB /\
    forkThread_resume self locals (Some h) wC = Returned rP wB /\
    (forall parentFirst,
       forkThread parentFirst self contextRuntimeData w = Returned (rP, rC) wB) /\
    sound w0 /\ sound wP /\ sound wC /\ sound wB.
Proof.
  intros Hsound Hroom Hcrd Hself Hfork Hloc.
  pose proof Hsound as (Hmutex & Hwf & _).
  destruct (wellFormed_locator w self parentAddr Hwf Hself) as [parent Hparent].
  destruct (forkThread_stages self contextRuntimeData w ctx parentAddr parent
              Hcrd Hself Hparent Hmutex Hwf Hroom)
    as (newContext & child & i & Hfreshc & Hfresha & Hinz & Hilt & Hifree & Hstages).
  destruct (Hstages h p Hfork Hloc) as (_ & Hforked & HP & HC & HPC & HCP).
  set (ct := forkedChild newContext parent) in *.
  set (w0 := with_platform
               (preparedWorld w newContext (compartment ctx) contextRuntimeData child parent)
               p) in *.
  set (wP := parentResumedWorld w0 child ct i h) in *.
  destruct (fresh_address_unheld w child Hwf Hfresha) as [Hreg0 Hloc0].
  assert (Hs0 : sound w0).
  { apply (sound_allocated w child ct);
      first [done | cbn; unfold UINTPTR_MAX; lia]. }
  assert (HsP : sound wP).
  { unfold wP, parentResumedWorld, w0. cbn. rewrite insert_insert_eq.
    apply (sound_registered w child); try done; cbn; eauto; unfold UINTPTR_MAX in *; lia. }
  assert (HsC : sound (childResumedWorld w0 child h)).
  { apply (sound_located w0 child ct h); try done.
    - cbn. apply lookup_insert_eq.
    - change (registryHolders w0 child) with (registryHolders w child).
      change (locatorHolders w0 child) with (locatorHolders w child).
      rewrite Hreg0, Hloc0. cbn. lia. }
  assert (HsB : sound (childResumedWorld wP child h)).
  { apply (sound_located wP child
             (Thread_with_id (Thread_with_platformThread ct (Some h)) i) h); try done.
    - cbn. apply lookup_insert_eq.
    - change (locatorHolders wP child) with (locatorHolders w child).
      unfold registryHolders. cbn. rewrite holders_insert_new by done.
      unfold registryHolders in Hreg0. rewrite Hreg0, Hloc0. cbn. lia. }
  do 7 eexists.
  split; [exact Hforked|]. split; [exact HP|]. split; [exact HC|].
  split; [exact HPC|]. split; [exact HCP|]. split; [|done].
  intros parentFirst. unfold forkThread.
  erewrite bind_Returned; [|exact Hforked]. cbn [fst snd].
  destruct parentFirst.
  - erewrite bind_Returned; [|exact HP].
    erewrite bind_Returned; [|exact HPC]. reflexivity.
  - erewrite bind_Returned; [|exact HC].
    erewrite bind_Returned; [|exact HCP]. reflexivity.
Qed.

Lemma forkThread_keeps_sound_witness :
  sound runningWorld /\
  hasRoom runningWorld /\
  contexts runningWorld !! 2%N = Some (mkContext 7 None) /\
  currentThread runningWorld !! 1%N = Some 1%N /\
  Platform_forkCurrentThread 1 (platform runningWorld) =
    PReturn 2%N (<[2%N := mkOSThread None None false]> (platform runningWorld)) /\
  currentThread runningWorld !! 2%N = None /\
  exists r wB,
    (forall parentFirst, forkThread parentFirst 1 2 runningWorld = Returned r wB) /\
    sound wB.
Proof.
  assert (H1 : sound runningWorld)
    by (apply (bool_decide_unpack _); vm_compute; exact I).
  assert (H2 : hasRoom runningWorld) by (vm_compute; reflexivity).
  assert (H3 : contexts runningWorld !! 2%N = Some (mkContext 7 None)) by reflexivity.
  assert (H4 : currentThread runningWorld !! 1%N = Some 1%N) by reflexivity.
  assert (H5 : Platform_forkCurrentThread 1 (platform runningWorld) =
               PReturn 2%N (<[2%N := mkOSThread None None false]> (platform runningWorld)))
    by (vm_compute; reflexivity).
  assert (H6 : currentThread runningWorld !! 2%N = None) by reflexivity.
  repeat (split; [assumption|]).
  destruct (forkThread_keeps_sound 1 2 runningWorld (mkContext 7 None) 1 2 _
              H1 H2 H3 H4 H5 H6)
    as (locals & w0 & rP & wP & rC & wC & wB & _ & _ & _ & _ & _ & Hboth & _ & _ & _ & HsB).
  exists (rP, rC), wB. split; assumption.
Defined.

(** ** joinThread and detachThread keep the world sound *)

Section RemovalSound.
Context {P : Type} `{!Platform P}.
Implicit Types (w : World P).

(** The world a join or detach of a mapped id can leave. *)
Lemma removal_worlds_sound w threadId a t (p : P) :
  sound w ->
  slots (threads w) !! threadId = Some (Some a) ->
  heap w !! a = Some t ->
  sound (reconciledWorld w a t threadId p) /\
  sound (unwoundWorld w a t threadId p) /\
  sound (removed w a t threadId).
Proof.
  intros Hsound Hslot Ha. split; [|split].
  - apply (sound_unregistered w a t (reconciled t) threadId true p); done.
  - apply (sound_unregistered w a t (unregistered t) threadId true p); done.
  - apply (sound_unregistered w a t (unregistered t) threadId false (platform w)); done.
Qed.

Lemma sound_valid_id w threadId :
  (threadId < 18446744073709551616)%N ->
  sound w ->
  (wrapUptr threadId = 0%N \/ slots (threads w) !! wrapUptr threadId = None) \/
  (exists a t,
     wrapUptr threadId <> 0%N /\
     slots (threads w) !! wrapUptr threadId = Some (Some a) /\
     heap w !! a = Some t /\ id t = wrapUptr threadId /\
     slots (threads w) !! threadId = Some (Some a)).
Proof.
  intros Hsmall (_ & Hwf & _).
  rewrite (wrapUptr_small threadId Hsmall).
  destruct (invalid_or_valid w threadId Hwf)
    as [Hbad|(Hnz & _ & a & t & Hslot & Ha & Hid)]; [auto|].
  right. exists a, t. done.
Qed.

End RemovalSound.

(** X4: joinThread and detachThread keep the world sound however they end:
    the world they return in, the world they throw in (InvalidArgument or an
    exception of the platform primitive) and the world a joinThread waits
    in are sound; neither ever ends the calling OS thread. *)
Theorem removal_keeps_sound {P : Type} `{!Platform P}
    (self : N) (threadId : N) (w : World P) :
  (threadId < 18446744073709551616)%N ->
  sound w ->
  match joinThread self threadId w with
  | Returned _ w' | Threw _ w' | Blocked w' => sound w'
  | Terminated _ => False
  | Fatal _ => True
  end /\
  match detachThread self threadId w with
  | Returned _ w' | Threw _ w' | Blocked w' => sound w'
  | Terminated _ => False
  | Fatal _ => True
  end.
Proof.
  intros Hsmall Hsound.
  pose proof Hsound as (Hmutex & _).
  destruct (sound_valid_id w threadId Hsmall Hsound)
    as [Hbad|(a & t & Hnz & Hslot & Ha & Hid & Hslot')].
  - rewrite joinThread_invalid, detachThread_invalid by done. done.
  - rewrite (joinThread_outcome self w threadId a t Hmutex Hnz Hslot Ha Hid).
    rewrite (detachThread_outcome self w threadId a t Hmutex Hnz Hslot Ha Hid).
    rewrite (wrapUptr_small threadId Hsmall).
    split.
    + destruct (Platform_joinThread _ _) as [c p|tag p| |]; try done.
      * apply (removal_worlds_sound w threadId a t p Hsound Hslot' Ha).
      * apply (removal_worlds_sound w threadId a t p Hsound Hslot' Ha).
      * apply (removal_worlds_sound w threadId a t (platform w) Hsound Hslot' Ha).
    + destruct (Platform_detachThread _ _) as [c p|tag p| |]; try done.
      * apply (removal_worlds_sound w threadId a t p Hsound Hslot' Ha).
      * apply (removal_worlds_sound w threadId a t p Hsound Hslot' Ha).
      * apply (removal_worlds_sound w threadId a t (platform w) Hsound Hslot' Ha).
Qed.

Lemma removal_keeps_sound_witness :
  (1 < 18446744073709551616)%N /\
  sound exitedWorld /\
  match joinThread 100 1 exitedWorld with
  | Returned _ w' | Threw _ w' | Blocked w' => sound w'
  | Terminated _ => False
  | Fatal _ => True
  end.
Proof.
  assert (H1 : (1 < 18446744073709551616)%N) by reflexivity.
  assert (H2 : sound exitedWorld)
    by (apply (bool_decide_unpack _); vm_compute; exact I).
  split; [exact H1|]. split; [exact H2|].
  exact (proj1 (removal_keeps_sound 100 1 exitedWorld H1 H2)).
Defined.

(** ** What the operations leave alone *)

Section Frames.
Context {P : Type} `{!Platform P}.
Implicit Types (w : World P).

(** The world a join or detach of a mapped id returned in. *)
Lemma removal_returned w self threadId w1 :
  (threadId < 18446744073709551616)%N ->
  sound w ->
  detachThread self threadId w = Returned tt w1 \/
  (exists code, joinThread self threadId w = Returned code w1) ->
  exists a t p,
    slots (threads w) !! threadId = Some (Some a) /\
    heap w !! a = Some t /\
    w1 = reconciledWorld w a t threadId p.
Proof.
  intros Hsmall (Hmutex & Hwf & _) Hdone.
  destruct (removal_world self w threadId w1 Hsmall Hmutex Hwf Hdone)
    as (a & t & p & _ & Hslot & Ha & ->).
  eauto 10.
Qed.

Lemma releasedIn_other (h : gmap N Thread) a t b :
  b <> a -> releasedIn h a t !! b = h !! b.
Proof.
  intros Hne. unfold releasedIn. destruct (decide _).
  - apply lookup_delete_ne. done.
  - apply lookup_insert_ne. done.
Qed.

End Frames.

(** X5: a joinThread or detachThread that returns touches nothing but its
    target: the slots of all other ids, all other objects, every
    currentThread and the contexts are what they were; the target's id is
    unmapped. *)
Theorem removal_frame {P : Type} `{!Platform P}
    (self : N) (threadId : N) (w w' : World P) :
  (threadId < 18446744073709551616)%N ->
  sound w ->
  detachThread self threadId w = Returned tt w' \/
  (exists code, joinThread self threadId w = Returned code w') ->
  exists a,
    slots (threads w) !! threadId = Some (Some a) /\
    slots (threads w') !! threadId = None /\
    (forall j, j <> threadId -> slots (threads w') !! j = slots (threads w) !! j) /\
    (forall b, b <> a -> heap w' !! b = heap w !! b) /\
    currentThread w' = currentThread w /\
    contexts w' = contexts w.
Proof.
  intros Hsmall Hsound Hdone.
  destruct (removal_returned w self threadId w' Hsmall Hsound Hdone)
    as (a & t & p & Hslot & Ha & ->).
  exists a. split; [done|]. cbn.
  split; [apply lookup_delete_eq|].
  split; [intros j Hne; apply lookup_delete_ne; done|].
  split; [|done].
  intros b Hne. rewrite releasedIn_other by done. apply lookup_insert_ne. done.
Qed.

Lemma removal_frame_witness :
  (1 < 18446744073709551616)%N /\
  sound exitedWorld /\
  (detachThread 100 1 exitedWorld =
     Returned tt
       (reconciledWorld exitedWorld 1 spawnedThread 1
          {[ 1%N := mkOSThread (Some (threadEntryRoutine, 1%N)) (Some 84%Z) true ]}) \/
   (exists code,
      joinThread 100 1 exitedWorld =
        Returned code
          (reconciledWorld exitedWorld 1 spawnedThread 1
             {[ 1%N := mkOSThread (Some (threadEntryRoutine, 1%N)) (Some 84%Z) true ]}))) /\
  exists a, slots (threads exitedWorld) !! 1%N = Some (Some a).
Proof.
  assert (H1 : (1 < 18446744073709551616)%N) by reflexivity.
  assert (H2 : sound exitedWorld)
    by (apply (bool_decide_unpack _); vm_compute; exact I).
  assert (H3 : detachThread 100 1 exitedWorld =
     Returned tt
       (reconciledWorld exitedWorld 1 spawnedThread 1
          {[ 1%N := mkOSThread (Some (threadEntryRoutine, 1%N)) (Some 84%Z) true ]}) \/
   (exists code,
      joinThread 100 1 exitedWorld =
        Returned code
          (reconciledWorld exitedWorld 1 spawnedThread 1
             {[ 1%N := mkOSThread (Some (threadEntryRoutine, 1%N)) (Some 84%Z) true ]})))
    by (left; vm_compute; reflexivity).
  split; [exact H1|]. split; [exact H2|]. split; [exact H3|].
  destruct (removal_frame 100 1 exitedWorld _ H1 H2 H3) as (a & Hslot & _).
  exists a. exact Hslot.
Defined.

(** X6: joinThread and detachThread never destroy an object that some OS
    thread still runs as: in a sound world, an object that is the
    currentThread of an OS thread is alive after the call, with a count that
    covers that currentThread, whether it was the target or not. *)
Theorem running_object_outlives_removal {P : Type} `{!Platform P}
    (self : N) (threadId : N) (w w' : World P) (s b : N) :
  (threadId < 18446744073709551616)%N ->
  sound w ->
  detachThread self threadId w = Returned tt w' \/
  (exists code, joinThread self threadId w = Returned code w') ->
  currentThread w !! s = Some b ->
  currentThread w' !! s = Some b /\
  exists t', heap w' !! b = Some t' /\ (1 <= numRefs t')%N.
Proof.
  intros Hsmall Hsound Hdone Hs.
  destruct (removal_returned w self threadId w' Hsmall Hsound Hdone)
    as (a & t & p & Hslot & Ha & Hw').
  assert (Hsound' : sound w').
  { rewrite Hw'. apply (removal_worlds_sound w threadId a t p); done. }
  assert (Hs' : currentThread w' !! s = Some b) by (rewrite Hw'; exact Hs).
  split; [exact Hs'|].
  destruct Hsound' as (_ & Hwf' & Hcount' & _).
  destruct (wellFormed_locator w' s b Hwf' Hs') as [t' Ht'].
  exists t'. split; [done|].
  destruct (Hcount' b t' Ht') as [Hc _].
  assert (1 <= locatorHolders w' b)
    by (unfold locatorHolders; eapply holders_present; exact Hs').
  lia.
Qed.

Lemma running_object_outlives_removal_witness :
  (1 < 18446744073709551616)%N /\
  sound runningWorld /\
  (detachThread 100 1 runningWorld =
     Returned tt
       (reconciledWorld runningWorld 1 spawnedThread 1
          {[ 1%N := mkOSThread (Some (threadEntryRoutine, 1%N)) None true ]}) \/
   (exists code,
      joinThread 100 1 runningWorld =
        Returned code
          (reconciledWorld runningWorld 1 spawnedThread 1
             {[ 1%N := mkOSThread (Some (threadEntryRoutine, 1%N)) None true ]}))) /\
  currentThread runningWorld !! 1%N = Some 1%N /\
  exists t',
    heap (reconciledWorld runningWorld 1 spawnedThread 1
            {[ 1%N := mkOSThread (Some (threadEntryRoutine, 1%N)) None true ]}) !! 1%N
    = Some t' /\ (1 <= numRefs t')%N.
Proof.
  assert (H1 : (1 < 18446744073709551616)%N) by reflexivity.
  assert (H2 : sound runningWorld)
    by (apply (bool_decide_unpack _); vm_compute; exact I).
  assert (H3 : detachThread 100 1 runningWorld =
     Returned tt
       (reconciledWorld runningWorld 1 spawnedThread 1
          {[ 1%N := mkOSThread (Some (threadEntryRoutine, 1%N)) None true ]}) \/
   (exists code,
      joinThread 100 1 runningWorld =
        Returned code
          (reconciledWorld runningWorld 1 spawnedThread 1
             {[ 1%N := mkOSThread (Some (threadEntryRoutine, 1%N)) None true ]})))
    by (left; vm_compute; reflexivity).
  assert (H4 : currentThread runningWorld !! 1%N = Some 1%N) by reflexivity.
  repeat (split; [assumption|]).
  exact (proj2 (running_object_outlives_removal 100 1 runningWorld _ 1 1 H1 H2 H3 H4)).
Defined.

(** X7: a createThread that returns adds one object, one slot and one
    context and changes nothing that was there: every object, every mapped
    id, every context and every currentThread of the world before is the
    same after. *)
Theorem createThread_frame {P : Type} `{!Platform P}
    (self : N) (contextRuntimeData : N) (entryFunction : option Function)
    (entryArgument : Z) (w w' : World P) (r : N) :
  wellFormed w ->
  createThread self contextRuntimeData entryFunction entryArgument w = Returned r w' ->
  exists a newContext,
    heap w !! a = None /\ is_Some (heap w' !! a) /\
    contexts w !! newContext = None /\ is_Some (contexts w' !! newContext) /\
    slots (threads w') !! r = Some (Some a) /\
    (forall b, b <> a -> heap w' !! b = heap w !! b) /\
    (forall j, j <> r -> slots (threads w') !! j = slots (threads w) !! j) /\
    (forall c, c <> newContext -> contexts w' !! c = contexts w !! c) /\
    currentThread w' = currentThread w.
Proof.
  intros Hwf Hcreate.
  apply createThread_Returned_inv in Hcreate
    as (f & ctx & nc & a & i & h & p & _ & _ & _ & Hfreshc & Hfresh & _ & _ & Hal & _ & _
        & -> & ->).
  destruct (allocate_smallest_positive w i Hwf Hal) as (_ & Hlt & _ & _).
  unfold asU64. rewrite (UINTPTR_MAX_small i Hlt).
  exists a, nc. cbn.
  split; [done|]. split; [rewrite lookup_insert_eq; eauto|].
  split; [done|]. split; [rewrite lookup_insert_eq; eauto|].
  split; [apply lookup_insert_eq|].
  split; [intros b Hne; apply lookup_insert_ne; done|].
  split; [intros j Hne; apply lookup_insert_ne; done|].
  split; [intros c Hne; apply lookup_insert_ne; done|done].
Qed.

Lemma createThread_frame_witness :
  wellFormed initialWorld /\
  createThread 100 1 (Some entryFunctionOk) 42 initialWorld = Returned 1%N spawnedWorld /\
  currentThread spawnedWorld = currentThread initialWorld.
Proof.
  assert (H1 : wellFormed initialWorld)
    by (apply (bool_decide_unpack _); vm_compute; exact I).
  assert (H2 : createThread 100 1 (Some entryFunctionOk) 42 initialWorld =
               Returned 1%N spawnedWorld) by (vm_compute; reflexivity).
  split; [exact H1|]. split; [exact H2|].
  destruct (createThread_frame 100 1 (Some entryFunctionOk) 42 initialWorld
              spawnedWorld 1 H1 H2)
    as (a & nc & _ & _ & _ & _ & _ & _ & _ & _ & Htls).
  exact Htls.
Defined.

(** X8: a forkThread call changes nothing that was there: every object,
    every mapped id, every context and every currentThread of the world
    before the call is the same after both returns; what is new is the child
    object, its id, its context and the currentThread of the new OS
    thread. *)
Theorem forkThread_frame {P : Type} `{!Platform P}
    (self : N) (contextRuntimeData : N) (w : World P)
    (ctx : Context) (parentAddr : N) (h : N) (p : P) :
  threadsMutex w = None ->
  wellFormed w ->
  hasRoom w ->
  contexts w !! contextRuntimeData = Some ctx ->
  currentThread w !! self = Some parentAddr ->
  Platform_forkCurrentThread self (platform w) = PReturn h p ->
  currentThread w !! h = None ->
  exists child newContext i r w',
    (forall parentFirst,
       forkThread parentFirst self contextRuntimeData w = Returned r w') /\
    heap w !! child = None /\
    contexts w !! newContext = None /\
    slots (threads w) !! i = None /\
    (forall b, b <> child -> heap w' !! b = heap w !! b) /\
    (forall j, j <> i -> slots (threads w') !! j = slots (threads w) !! j) /\
    (forall c, c <> newContext -> contexts w' !! c = contexts w !! c) /\
    (forall s, s <> h -> currentThread w' !! s = currentThread w !! s) /\
    platform w' = p.
Proof.
  intros Hmutex Hwf Hroom Hcrd Hself Hfork Hloc.
  destruct (wellFormed_locator w self parentAddr Hwf Hself) as [parent Hparent].
  destruct (forkThread_stages self contextRuntimeData w ctx parentAddr parent
              Hcrd Hself Hparent Hmutex Hwf Hroom)
    as (newContext & child & i & Hfreshc & Hfresha & Hinz & Hilt & Hifree & Hstages).
  destruct (Hstages h p Hfork Hloc) as (_ & Hforked & HP & HC & HPC & HCP).
  exists child, newContext, i. do 2 eexists. split.
  { intros parentFirst. unfold forkThread.
    erewrite bind_Returned; [|exact Hforked]. cbn [fst snd].
    destruct parentFirst.
    - erewrite bind_Returned; [|exact HP].
      erewrite bind_Returned; [|exact HPC]. reflexivity.
    - erewrite bind_Returned; [|exact HC].
      erewrite bind_Returned; [|exact HCP]. reflexivity. }
  cbn. split; [done|]. split; [done|]. split; [done|].
  split; [intros b Hne; rewrite !lookup_insert_ne by done; done|].
  split; [intros j Hne; apply lookup_insert_ne; done|].
  split; [intros c Hne; apply lookup_insert_ne; done|].
  split; [intros s Hne; apply lookup_insert_ne; done|done].
Qed.

Lemma forkThread_frame_witness :
  threadsMutex runningWorld = None /\
  wellFormed runningWorld /\
  hasRoom runningWorld /\
  contexts runningWorld !! 2%N = Some (mkContext 7 None) /\
  currentThread runningWorld !! 1%N = Some 1%N /\
  Platform_forkCurrentThread 1 (platform runningWorld) =
    PReturn 2%N (<[2%N := mkOSThread None None false]> (platform runningWorld)) /\
  currentThread runningWorld !! 2%N = None /\
  exists child, heap runningWorld !! child = None.
Proof.
  assert (H1 : threadsMutex runningWorld = None) by reflexivity.
  assert (H2 : wellFormed runningWorld)
    by (apply (bool_decide_unpack _); vm_compute; exact I).
  assert (H3 : hasRoom runningWorld) by (vm_compute; reflexivity).
  assert (H4 : contexts runningWorld !! 2%N = Some (mkContext 7 None)) by reflexivity.
  assert (H5 : currentThread runningWorld !! 1%N = Some 1%N) by reflexivity.
  assert (H6 : Platform_forkCurrentThread 1 (platform runningWorld) =
               PReturn 2%N (<[2%N := mkOSThread None None false]> (platform runningWorld)))
    by (vm_compute; reflexivity).
  assert (H7 : currentThread runningWorld !! 2%N = None) by reflexivity.
  repeat (split; [assumption|]).
  destruct (forkThread_frame 1 2 runningWorld (mkContext 7 None) 1 2 _
              H1 H2 H3 H4 H5 H6 H7)
    as (child & nc & i & r & w' & _ & Hchild & _).
  exists child. exact Hchild.
Defined.

(** X9: detachThread of a mapped id does what the platform primitive makes
    of it and never waits for the target to terminate.  When
    [Platform::detachThread] returns, detachThread returns, the id is
    unmapped, the handle of the object is cleared and the reference taken
    from the registry is released; when the primitive throws, detachThread
    throws the same and the reference is released all the same.  With the
    table of OS threads as the platform it returns whether the target has
    an exit code or not, and the target is marked detached, nothing else of
    it changed. *)
Theorem detachThread_does_not_wait :
  (forall (P : Type) (HP : Platform P) (self : N) (w : World P) (threadId a : N)
          (t : Thread),
     (threadId < 18446744073709551616)%N ->
     threadsMutex w = None ->
     wellFormed w ->
     slots (threads w) !! threadId = Some (Some a) ->
     heap w !! a = Some t ->
     (forall p,
        Platform_detachThread (platformThread t) (platform w) = PReturn tt p ->
        exists w',
          detachThread self threadId w = Returned tt w' /\
          platform w' = p /\
          threadsMutex w' = None /\
          slots (threads w') !! threadId = None /\
          heap w' !! a =
            if decide (wrapUptr (numRefs t + UINTPTR_MAX) = 0%N)
            then None
            else Some (mkThread UINTPTR_MAX (wrapUptr (numRefs t + UINTPTR_MAX)) None
                         (context t) (entryFunction t) (argument t))) /\
     (forall tag p,
        Platform_detachThread (platformThread t) (platform w) = PThrow tag p ->
        exists w',
          detachThread self threadId w = Threw (calleeException tag) w' /\
          slots (threads w') !! threadId = None /\
          heap w' !! a =
            if decide (wrapUptr (numRefs t + UINTPTR_MAX) = 0%N)
            then None
            else Some (mkThread UINTPTR_MAX (wrapUptr (numRefs t + UINTPTR_MAX))
                         (platformThread t)
                         (context t) (entryFunction t) (argument t)))) /\
  (forall (self : N) (w : World (gmap N OSThread)) (threadId a : N) (t : Thread)
          (h : N) (target : OSThread),
     (threadId < 18446744073709551616)%N ->
     threadsMutex w = None ->
     wellFormed w ->
     slots (threads w) !! threadId = Some (Some a) ->
     heap w !! a = Some t ->
     platformThread t = Some h ->
     platform w !! h = Some target ->
     exists w',
       detachThread self threadId w = Returned tt w' /\
       platform w' =
         <[h := mkOSThread (startedWith target) (exitCode target) true]> (platform w)).
Proof.
  assert (Hgeneric : forall (P : Type) (HP : Platform P) (self : N) (w : World P)
            (threadId a : N) (t : Thread),
            (threadId < 18446744073709551616)%N ->
            threadsMutex w = None ->
            wellFormed w ->
            slots (threads w) !! threadId = Some (Some a) ->
            heap w !! a = Some t ->
            detachThread self threadId w =
            match Platform_detachThread (platformThread t) (platform w) with
            | PReturn _ p => Returned tt (reconciledWorld w a t threadId p)
            | PThrow tag p => Threw (calleeException tag) (unwoundWorld w a t threadId p)
            | PWait => Blocked (removed w a t threadId)
            | PFatal => Fatal platformFatal
            end).
  { intros P HP self w threadId a t Hsmall Hmutex Hwf Hslot Ha.
    pose proof (wrapUptr_small threadId Hsmall) as Hwrap.
    destruct (wellFormed_slot w threadId _ Hwf Hslot) as (Hr & a' & t' & [= <-] & Ha' & Hid).
    rewrite Ha in Ha'. injection Ha' as <-.
    assert (Hnz : wrapUptr threadId <> 0%N) by (rewrite Hwrap; lia).
    rewrite <- Hwrap in Hslot, Hid.
    pose proof (detachThread_outcome self w threadId a t Hmutex Hnz Hslot Ha Hid) as Hout.
    rewrite Hwrap in Hout. exact Hout. }
  split.
  - intros P HP self w threadId a t Hsmall Hmutex Hwf Hslot Ha.
    pose proof (Hgeneric P HP self w threadId a t Hsmall Hmutex Hwf Hslot Ha) as Hout.
    split.
    + intros p Hret. rewrite Hret in Hout. eexists. split; [exact Hout|].
      cbn. split; [done|]. split; [done|]. split; [apply lookup_delete_eq|].
      unfold releasedIn. cbn.
      destruct (decide _); [apply lookup_delete_eq|rewrite lookup_insert_eq; done].
    + intros tag p Hthrow. rewrite Hthrow in Hout. eexists. split; [exact Hout|].
      cbn. split; [apply lookup_delete_eq|].
      unfold releasedIn. cbn.
      destruct (decide _); [apply lookup_delete_eq|rewrite lookup_insert_eq; done].
  - intros self w threadId a t h target Hsmall Hmutex Hwf Hslot Ha Hh Htarget.
    pose proof (Hgeneric _ tablePlatform self w threadId a t Hsmall Hmutex Hwf Hslot Ha)
      as Hout.
    rewrite Hh in Hout. cbn [Platform_detachThread tablePlatform] in Hout.
    rewrite Htarget in Hout. eexists. split; [exact Hout|]. reflexivity.
Qed.

Lemma detachThread_does_not_wait_witness :
  (1 < 18446744073709551616)%N /\
  threadsMutex spawnedWorld = None /\
  wellFormed spawnedWorld /\
  slots (threads spawnedWorld) !! 1%N = Some (Some 1%N) /\
  heap spawnedWorld !! 1%N = Some spawnedThread /\
  platformThread spawnedThread = Some 1%N /\
  platform spawnedWorld !! 1%N =
    Some (mkOSThread (Some (threadEntryRoutine, 1%N)) None false) /\
  exists w', detachThread 100 1 spawnedWorld = Returned tt w'.
Proof.
  assert (H1 : (1 < 18446744073709551616)%N) by reflexivity.
  assert (H2 : threadsMutex spawnedWorld = None) by reflexivity.
  assert (H3 : wellFormed spawnedWorld)
    by (apply (bool_decide_unpack _); vm_compute; exact I).
  assert (H4 : slots (threads spawnedWorld) !! 1%N = Some (Some 1%N)) by reflexivity.
  assert (H5 : heap spawnedWorld !! 1%N = Some spawnedThread) by reflexivity.
  assert (H6 : platformThread spawnedThread = Some 1%N) by reflexivity.
  assert (H7 : platform spawnedWorld !! 1%N =
               Some (mkOSThread (Some (threadEntryRoutine, 1%N)) None false))
    by reflexivity.
  repeat (split; [assumption|]).
  destruct (proj2 detachThread_does_not_wait 100%N spawnedWorld 1%N 1%N spawnedThread 1%N
              _ H1 H2 H3 H4 H5 H6 H7) as (w' & Hdetach & _).
  exists w'. exact Hdetach.
Defined.

(** ** Registering and unregistering *)

(** X10: allocateThreadId followed by removeThreadById of the id it returned
    gives the object back and leaves the registry as it was before the two
    calls; the object has the sentinel id again and the reference the slot
    took, which is now the caller's. *)
Theorem allocate_then_remove {P : Type}
    (self self' : N) (a i : N) (w w1 : World P) :
  wellFormed w ->
  allocateThreadId self a w = Returned i w1 ->
  exists t w2,
    heap w !! a = Some t /\
    removeThreadById self' i w1 = Returned (Some a) w2 /\
    slots (threads w2) = slots (threads w) /\
    minIndex (threads w2) = minIndex (threads w) /\
    maxIndex (threads w2) = maxIndex (threads w) /\
    threadsMutex w2 = None /\
    heap w2 =
      <[a := mkThread UINTPTR_MAX (wrapUptr (numRefs t + 1)) (platformThread t)
               (context t) (entryFunction t) (argument t)]> (heap w).
Proof.
  intros Hwf Halloc.
  apply allocateThreadId_Returned_inv in Halloc as (t & Hmutex & Ha & Hal & Hnz & ->).
  destruct (allocate_smallest_positive w i Hwf Hal) as (_ & Hlt & Hfree & _).
  exists t. eexists. split; [done|]. split.
  { apply removeThreadById_valid; cbn.
    - done.
    - done.
    - apply lookup_insert_eq.
    - apply lookup_insert_eq.
    - rewrite (UINTPTR_MAX_small i Hlt). done. }
  cbn. split; [apply delete_insert_id; done|].
  split; [done|]. split; [done|]. split; [done|].
  rewrite insert_insert_eq. reflexivity.
Qed.

Lemma allocate_then_remove_witness :
  wellFormed initialWorld /\
  exists w0 a,
    newThread 2 (Some entryFunctionOk) (valueOfI32 42) initialWorld = Returned a w0 /\
    wellFormed w0 /\
    exists i w1 t w2,
      allocateThreadId 100 a w0 = Returned i w1 /\
      heap w0 !! a = Some t /\
      removeThreadById 200 i w1 = Returned (Some a) w2.
Proof.
  assert (H0 : wellFormed initialWorld)
    by (apply (bool_decide_unpack _); vm_compute; exact I).
  split; [exact H0|].
  eexists. exists 1%N. split; [vm_compute; reflexivity|].
  assert (H1 : wellFormed (@with_heap (gmap N OSThread) initialWorld
                 (<[1%N := newThreadObject 2 (Some entryFunctionOk) (valueOfI32 42)]>
                    (heap initialWorld))))
    by (apply (bool_decide_unpack _); vm_compute; exact I).
  split; [exact H1|].
  eexists 1%N. eexists.
  assert (H2 : allocateThreadId 100 1
                 (@with_heap (gmap N OSThread) initialWorld
                    (<[1%N := newThreadObject 2 (Some entryFunctionOk) (valueOfI32 42)]>
                       (heap initialWorld))) = Returned 1%N _)
    by (vm_compute; reflexivity).
  destruct (allocate_then_remove 100 200 1 1 _ _ H1 H2) as (t & w2 & Ha & Hrem & _).
  exists t, w2. split; [exact H2|]. split; [exact Ha|exact Hrem].
Defined.

(** X11: when the registry has no index left, allocateThreadId does not
    return: [errorUnless(thread->id != 0)] aborts; so do createThread, after
    the signature check, and forkThread on the original stack.  No call
    hands out the id zero. *)
Theorem no_index_left_aborts {P : Type} `{!Platform P}
    (self : N) (w : World P) :
  threadsMutex w = None ->
  IndexMap_allocate (threads w) = None ->
  (forall a, is_Some (heap w !! a) ->
     allocateThreadId self a w = Fatal errorUnlessFailed) /\
  (forall crd f entryArgument,
     encodedType f = mkFunctionType [i64] [i32] ->
     is_Some (contexts w !! crd) ->
     createThread self crd (Some f) entryArgument w = Fatal errorUnlessFailed) /\
  (forall locals h,
     is_Some (heap w !! forkChildThread locals) ->
     forkThread_resume self locals (Some h) w = Fatal errorUnlessFailed).
Proof.
  intros Hmutex Hfull.
  assert (Halloc : forall (w1 : World P) a,
            threadsMutex w1 = None -> threads w1 = threads w ->
            is_Some (heap w1 !! a) ->
            allocateThreadId self a w1 = Fatal errorUnlessFailed).
  { intros w1 a Hm1 Hth [t Ha].
    unfold allocateThreadId, withLock.
    erewrite bind_Returned; [|unfold Mutex_lock; rewrite Hm1; reflexivity].
    erewrite bind_Returned.
    2:{ unfold threads_add. cbn. rewrite Hth, Hfull. reflexivity. }
    erewrite bind_Returned; [|apply setId_live; cbn; exact Ha].
    erewrite bind_Returned; [|apply deref_live; cbn; apply lookup_insert_eq].
    reflexivity. }
  split; [|split].
  - intros a Ha. apply Halloc; done.
  - intros crd f arg Hty [ctx Hcrd]. unfold createThread.
    assert (Hsig : signatureMismatch (Some f) = false).
    { apply signatureMismatch_false. eauto. }
    rewrite Hsig.
    erewrite bind_Returned; [|apply getCompartmentFromContext_live; exact Hcrd].
    destruct (allocateContext_fresh w (mkContext (compartment ctx) None))
      as (nc & _ & Hctx).
    erewrite bind_Returned; [|exact Hctx].
    destruct (newThread_fresh
                (with_contexts w (<[nc := mkContext (compartment ctx) None]> (contexts w)))
                nc (Some f) (valueOfI32 arg))
      as (a & _ & _ & Hnew).
    erewrite bind_Returned; [|exact Hnew].
    unfold bind at 1. rewrite Halloc; [done|done|done|].
    cbn. rewrite lookup_insert_eq. eauto.
  - intros locals h [ct Hchild]. unfold forkThread_resume.
    erewrite bind_Returned; [|eapply setPlatformThread_live; exact Hchild].
    unfold bind at 1. rewrite Halloc; [done|done|done|].
    cbn. rewrite lookup_insert_eq. eauto.
Qed.

Lemma no_index_left_aborts_witness :
  threadsMutex fullWorld = None /\
  IndexMap_allocate (threads fullWorld) = None /\
  allocateThreadId 100 1 fullWorld = Fatal errorUnlessFailed.
Proof.
  assert (H1 : threadsMutex fullWorld = None) by reflexivity.
  assert (H2 : IndexMap_allocate (threads fullWorld) = None) by (vm_compute; reflexivity).
  split; [exact H1|]. split; [exact H2|].
  apply (proj1 (no_index_left_aborts 100 fullWorld H1 H2)).
  exists spawnedThread. reflexivity.
Defined.

(** X12: forkThread by an OS thread that has no currentThread object stops
    at [wavmAssert(currentThread)] (assertions enabled): nothing is returned
    on either stack, no child object is made and no id is allocated. *)
Theorem forkThread_needs_currentThread {P : Type} `{!Platform P}
    (self : N) (contextRuntimeData : N) (w : World P) :
  is_Some (contexts w !! contextRuntimeData) ->
  currentThread w !! self = None ->
  forkThread_prepare self contextRuntimeData w = Fatal assertionFailed /\
  forall parentFirst,
    forkThread parentFirst self contextRuntimeData w = Fatal assertionFailed.
Proof.
  intros [ctx Hcrd] Hself.
  assert (Hprep : forkThread_prepare self contextRuntimeData w = Fatal assertionFailed).
  { unfold forkThread_prepare, getContextFromRuntimeData, cloneContext.
    erewrite bind_Returned; [|apply getCompartmentFromContext_live; exact Hcrd].
    destruct (allocateContext_fresh w (mkContext (compartment ctx) (Some contextRuntimeData)))
      as (nc & _ & Hctx).
    erewrite bind_Returned.
    2:{ erewrite bind_Returned; [|apply getCompartmentFromContext_live; exact Hcrd].
        exact Hctx. }
    cbn [currentThread with_contexts]. rewrite Hself. reflexivity. }
  split; [exact Hprep|].
  intros parentFirst. unfold forkThread, forkThread_fork, bind. rewrite Hprep. reflexivity.
Qed.

Lemma forkThread_needs_currentThread_witness :
  is_Some (contexts spawnedWorld !! 1%N) /\
  currentThread spawnedWorld !! 100%N = None /\
  forkThread_prepare 100 1 spawnedWorld = Fatal assertionFailed.
Proof.
  assert (H1 : is_Some (contexts spawnedWorld !! 1%N))
    by (exists (mkContext 7 None); reflexivity).
  assert (H2 : currentThread spawnedWorld !! 100%N = None) by reflexivity.
  split; [exact H1|]. split; [exact H2|].
  exact (proj1 (forkThread_needs_currentThread 100 1 spawnedWorld H1 H2)).
Defined.

(** ** A thread from its creation to its end *)

(** X13: with the table of OS threads as the platform, a thread made by
    createThread that ends with a code is joined with that code: after
    createThread returned the id, and the spawned OS thread called
    exitThread(code), joinThread(id) returns exactly [code], whoever calls
    it. *)
Theorem create_exit_join (self self' : N) (contextRuntimeData : N)
    (entryFunction : option Function) (entryArgument : Z) (code : Z)
    (w w1 : World (gmap N OSThread)) (r : N) :
  wellFormed w ->
  createThread self contextRuntimeData entryFunction entryArgument w = Returned r w1 ->
  exists a t h w2 w3,
    slots (threads w1) !! r = Some (Some a) /\
    heap w1 !! a = Some t /\
    platformThread t = Some h /\
    exitThread h code w1 = Terminated w2 /\
    joinThread self' r w2 = Returned code w3 /\
    slots (threads w3) !! r = None.
Proof.
  intros Hwf Hcreate.
  apply createThread_Returned_inv in Hcreate
    as (f & ctx & nc & a & i & h & p & _ & _ & _ & _ & Hfresh & _ & _ & Hal & Hnz & Hspawn
        & -> & ->).
  destruct (allocate_smallest_positive w i Hwf Hal) as (_ & Hlt & Hfree & _).
  unfold asU64. rewrite (UINTPTR_MAX_small i Hlt).
  cbn [Platform_createThread tablePlatform] in Hspawn.
  destruct (newHandle (platform w)) as [h'|] eqn:Hnew; [|done].
  injection Hspawn as <- <-.
  set (t := createdThread i h' nc entryFunction entryArgument).
  set (w1 := createdWorld w nc (compartment ctx) a entryFunction entryArgument i h'
               (<[h' := mkOSThread (Some (threadEntryRoutine, a)) None false]> (platform w))).
  set (w2 := with_platform w1 (Platform_exitThread h' code (platform w1))).
  assert (Hwrap : wrapUptr i = i) by exact (UINTPTR_MAX_small i Hlt).
  assert (Hjoin : joinThread self' i w2 =
            Returned code (reconciledWorld w2 a t (wrapUptr i) (delete h' (platform w2)))).
  { rewrite (joinThread_outcome self' w2 i a t).
    - cbn. rewrite lookup_alter_eq, lookup_insert_eq. reflexivity.
    - reflexivity.
    - rewrite Hwrap. exact Hnz.
    - rewrite Hwrap. cbn. apply lookup_insert_eq.
    - cbn. apply lookup_insert_eq.
    - rewrite Hwrap. reflexivity. }
  exists a, t, h', w2. eexists.
  split; [cbn; apply lookup_insert_eq|].
  split; [cbn; apply lookup_insert_eq|].
  split; [done|]. split; [reflexivity|].
  split; [exact Hjoin|].
  cbn. rewrite Hwrap. apply lookup_delete_eq.
Qed.

Lemma create_exit_join_witness :
  wellFormed initialWorld /\
  createThread 100 1 (Some entryFunctionOk) 42 initialWorld = Returned 1%N spawnedWorld /\
  exists w2 w3,
    exitThread 1 84 spawnedWorld = Terminated w2 /\
    joinThread 100 1 w2 = Returned 84%Z w3.
Proof.
  assert (H1 : wellFormed initialWorld)
    by (apply (bool_decide_unpack _); vm_compute; exact I).
  assert (H2 : createThread 100 1 (Some entryFunctionOk) 42 initialWorld =
               Returned 1%N spawnedWorld) by (vm_compute; reflexivity).
  split; [exact H1|]. split; [exact H2|].
  destruct (create_exit_join 100 100 1 (Some entryFunctionOk) 42 84 initialWorld
              spawnedWorld 1 H1 H2)
    as (a & t & h & w2 & w3 & Hslot & Ha & Hh & Hexit & Hjoin & _).
  assert (Hh1 : h = 1%N).
  { vm_compute in Hslot. injection Hslot as <-.
    vm_compute in Ha. injection Ha as <-.
    cbn in Hh. congruence. }
  subst h. exists w2, w3. split; assumption.
Defined.

(** X14: the reference createThread adds for the spawned OS thread keeps
    the object alive for it: when the new thread is detached before it has
    run at all, threadEntry, run afterwards by an OS thread that has no
    currentThread, still finds the object, makes it its currentThread and
    invokes the entry function with the argument in the context createThread
    made; the object is then held by that currentThread alone. *)
Theorem detached_thread_still_starts {P : Type} `{!Platform P}
    (self self' spawned : N) (contextRuntimeData : N)
    (entryFunction : option Function) (entryArgument : Z)
    (w w1 w2 : World P) (r : N) :
  sound w ->
  createThread self contextRuntimeData entryFunction entryArgument w = Returned r w1 ->
  detachThread self' r w1 = Returned tt w2 ->
  currentThread w !! spawned = None ->
  exists a newContext w3,
    slots (threads w1) !! r = Some (Some a) /\
    contexts w !! newContext = None /\
    threadEntry spawned a w2 =
      Returned (mkInvocation newContext entryFunction (valueOfI32 entryArgument)) w3 /\
    currentThread w3 !! spawned = Some a /\
    (numRefs <$> heap w3 !! a) = Some 1%N /\
    registryHolders w3 a = 0 /\
    locatorHolders w3 a = 1.
Proof.
  intros Hsound Hcreate Hdetach Hspawned.
  pose proof Hsound as (_ & Hwf & _).
  assert (Hsound1 : sound w1) by (eapply createdWorld_sound; eauto).
  apply createThread_Returned_inv in Hcreate
    as (f & ctx & nc & a & i & h & p & _ & _ & _ & Hfreshc & Hfresh & _ & _ & Hal & Hnz & _
        & -> & ->).
  destruct (allocate_smallest_positive w i Hwf Hal) as (_ & Hlt & Hfree & _).
  destruct (fresh_address_unheld w a Hwf Hfresh) as [Hreg0 Hloc0].
  unfold asU64 in *. rewrite (UINTPTR_MAX_small i Hlt) in *.
  set (w1 := createdWorld w nc (compartment ctx) a entryFunction entryArgument i h p) in *.
  set (t := createdThread i h nc entryFunction entryArgument).
  assert (Hslot1 : slots (threads w1) !! i = Some (Some a)) by (cbn; apply lookup_insert_eq).
  assert (Ha1 : heap w1 !! a = Some t) by (cbn; apply lookup_insert_eq).
  assert (Hsmall : (i < 18446744073709551616)%N) by (unfold UINTPTR_MAX in Hlt; lia).
  destruct (removal_returned w1 self' i w2 Hsmall Hsound1 (or_introl Hdetach))
    as (a' & t' & p' & Hslot' & Ha' & ->).
  rewrite Hslot1 in Hslot'. injection Hslot' as <-.
  rewrite Ha1 in Ha'. injection Ha' as <-.
  set (w2 := reconciledWorld w1 a t i p').
  assert (Ha2 : heap w2 !! a = Some (Thread_with_numRefs (reconciled t) 1)).
  { cbn. unfold releasedIn. cbn.
    destruct (decide (wrapUptr (2 + UINTPTR_MAX) = 0%N)) as [Hz|_]; [done|].
    rewrite lookup_insert_eq. reflexivity. }
  assert (Hreg2 : registryHolders w2 a = 0).
  { unfold registryHolders. cbn. rewrite delete_insert_id by done. exact Hreg0. }
  assert (Hloc2 : locatorHolders w2 a = 0) by exact Hloc0.
  exists a, nc. eexists.
  split; [done|]. split; [done|]. split.
  { apply (threadEntry_spec spawned a w2 _ Ha2); [cbn; unfold UINTPTR_MAX; lia|done]. }
  cbn [currentThread with_currentThread].
  split; [apply lookup_insert_eq|].
  split; [cbn [heap with_currentThread]; rewrite Ha2; reflexivity|].
  split; [exact Hreg2|].
  unfold locatorHolders in *. subst w2 w1.
  cbn [currentThread with_currentThread reconciledWorld createdWorld].
  rewrite holders_insert_new by done. rewrite Hloc0. done.
Qed.

Lemma detached_thread_still_starts_witness :
  sound initialWorld /\
  createThread 100 1 (Some entryFunctionOk) 42 initialWorld = Returned 1%N spawnedWorld /\
  detachThread 100 1 spawnedWorld =
    Returned tt
      (reconciledWorld spawnedWorld 1 spawnedThread 1
         {[ 1%N := mkOSThread (Some (threadEntryRoutine, 1%N)) None true ]}) /\
  currentThread initialWorld !! 1%N = None /\
  exists a newContext w3,
    threadEntry 1 a
      (reconciledWorld spawnedWorld 1 spawnedThread 1
         {[ 1%N := mkOSThread (Some (threadEntryRoutine, 1%N)) None true ]}) =
    Returned (mkInvocation newContext (Some entryFunctionOk) (valueOfI32 42)) w3.
Proof.
  assert (H1 : sound initialWorld)
    by (apply (bool_decide_unpack _); vm_compute; exact I).
  assert (H2 : createThread 100 1 (Some entryFunctionOk) 42 initialWorld =
               Returned 1%N spawnedWorld) by (vm_compute; reflexivity).
  assert (H3 : detachThread 100 1 spawnedWorld =
    Returned tt
      (reconciledWorld spawnedWorld 1 spawnedThread 1
         {[ 1%N := mkOSThread (Some (threadEntryRoutine, 1%N)) None true ]}))
    by (vm_compute; reflexivity).
  assert (H4 : currentThread initialWorld !! 1%N = None) by reflexivity.
  repeat (split; [assumption|]).
  destruct (detached_thread_still_starts 100 100 1 1 (Some entryFunctionOk) 42
              initialWorld spawnedWorld _ 1 H1 H2 H3 H4)
    as (a & nc & w3 & _ & _ & Hentry & _).
  exists a, nc, w3. exact Hentry.
Defined.

(** X15: ids are recycled: a createThread that returns after a joinThread or
    detachThread of an id returned gives back an id that is no larger than
    the removed one, and exactly the removed one when every smaller id was
    in use. *)
Theorem removed_id_is_reused {P : Type} `{!Platform P}
    (self self' : N) (threadId : N) (contextRuntimeData : N)
    (entryFunction : option Function) (entryArgument : Z)
    (w w1 w2 : World P) (r : N) :
  (threadId < 18446744073709551616)%N ->
  sound w ->
  detachThread self threadId w = Returned tt w1 \/
  (exists code, joinThread self threadId w = Returned code w1) ->
  createThread self' contextRuntimeData entryFunction entryArgument w1 = Returned r w2 ->
  (r <= threadId)%N /\
  ((forall k, (0 < k < threadId)%N -> is_Some (slots (threads w) !! k)) ->
   r = threadId /\ slots (threads w2) !! threadId <> None).
Proof.
  intros Hsmall Hsound Hdone Hcreate.
  pose proof Hsound as (Hmutex & Hwf & _).
  destruct (removal_world self w threadId w1 Hsmall Hmutex Hwf Hdone)
    as (a & t & p & Hrange & Hslot & Ha & ->).
  assert (Hsound1 : sound (reconciledWorld w a t threadId p))
    by (apply (removal_worlds_sound w threadId a t p Hsound Hslot Ha)).
  pose proof Hsound1 as (_ & Hwf1 & _).
  apply createThread_Returned_inv in Hcreate
    as (f & ctx & nc & b & i & h & p' & _ & _ & _ & _ & _ & _ & _ & Hal & _ & _ & -> & ->).
  destruct (allocate_smallest_positive _ i Hwf1 Hal) as (Hnz & Hlt & Hfree & Hbelow).
  unfold asU64. rewrite (UINTPTR_MAX_small i Hlt).
  cbn in Hfree, Hbelow.
  assert (Hle : (i <= threadId)%N).
  { destruct (decide (i <= threadId)%N) as [|Hgt]; [done|].
    destruct (Hbelow threadId) as [x Hx]; [lia|].
    rewrite lookup_delete_eq in Hx. done. }
  split; [exact Hle|].
  intros Hfull.
  assert (i = threadId) as ->.
  { destruct (decide (i = threadId)) as [|Hne]; [done|].
    destruct (Hfull i) as [x Hx]; [lia|].
    rewrite lookup_delete_ne in Hfree by done. congruence. }
  split; [done|]. cbn. rewrite lookup_insert_eq. done.
Qed.

Lemma removed_id_is_reused_witness :
  (1 < 18446744073709551616)%N /\
  sound exitedWorld /\
  exists w1 w2 r,
    joinThread 100 1 exitedWorld = Returned 84%Z w1 /\
    createThread 100 1 (Some entryFunctionOk) 7 w1 = Returned r w2 /\
    (r <= 1)%N.
Proof.
  assert (H1 : (1 < 18446744073709551616)%N) by reflexivity.
  assert (H2 : sound exitedWorld)
    by (apply (bool_decide_unpack _); vm_compute; exact I).
  split; [exact H1|]. split; [exact H2|].
  destruct (joinThread 100 1 exitedWorld) as [code w1| | | |] eqn:Hjoin;
    try (vm_compute in Hjoin; discriminate Hjoin).
  destruct (createThread 100 1 (Some entryFunctionOk) 7 w1) as [r w2| | | |] eqn:Hcreate;
    try (revert Hcreate; vm_compute in Hjoin; injection Hjoin as <- <-;
         vm_compute; discriminate).
  assert (Hcode : code = 84%Z) by (vm_compute in Hjoin; congruence).
  subst code.
  exists w1, w2, r. split; [reflexivity|]. split; [exact Hcreate|].
  exact (proj1 (removed_id_is_reused 100 100 1 1 (Some entryFunctionOk) 7
                  exitedWorld w1 w2 r H1 H2
                  (or_intror (ex_intro _ 84%Z Hjoin)) Hcreate)).
Defined.
